(** * EmbeddingIntentClassifier and DIET: a shallow embedding

    Source: [rasa/nlu/classifiers/embedding_intent_classifier.py].

    Python objects are modelled by records, dictionaries by [gmap],
    exceptions by an error monad.  Tensor arithmetic is opaque to all the
    properties below: a feature matrix is represented by its shape and the
    outputs of the network by the arrays the post-processing code reads. *)

From Stdlib Require Import ZArith QArith.
From stdpp Require Import gmap strings list sorting pretty.

#[local] Open Scope string_scope.
#[local] Open Scope Z_scope.

(** ** Exceptions *)

Inductive exn : Type :=
| ValueError (msg : string)
| AttributeError (attr : string)
| KeyError (key : string)
| KeyErrorInt (key : nat)
| TypeError (msg : string)
| IndexError (msg : string).

Inductive result (A : Type) : Type :=
| Ok (a : A)
| Raise (e : exn).
Arguments Ok {A} a.
Arguments Raise {A} e.

#[global] Instance result_ret : MRet result := fun A a => Ok a.
#[global] Instance result_bind : MBind result := fun A B f m =>
  match m with
  | Ok a => f a
  | Raise e => Raise e
  end.
#[global] Instance result_fmap : FMap result := fun A B f m =>
  match m with
  | Ok a => Ok (f a)
  | Raise e => Raise e
  end.

Definition is_ok {A} (r : result A) : bool :=
  match r with Ok _ => true | Raise _ => false end.

(** ** Python helpers *)

(** [d[k]] on a dict with string keys. *)
Definition getitem {V} (d : gmap string V) (k : string) : result V :=
  match d !! k with
  | Some v => Ok v
  | None => Raise (KeyError k)
  end.

(** [d[k]] on a dict with integer keys. *)
Definition getitem_int {V} (d : gmap nat V) (k : nat) : result V :=
  match d !! k with
  | Some v => Ok v
  | None => Raise (KeyErrorInt k)
  end.

(** A dict comprehension [{k: v for k, v in items}]: later items win. *)
Definition dict_of_items `{Countable K} {V} (items : list (K * V)) : gmap K V :=
  fold_left (fun d kv => <[kv.1 := kv.2]> d) items ∅.

(** [enumerate(l, start)]. *)
Fixpoint enumerate {A} (start : nat) (l : list A) : list (nat * A) :=
  match l with
  | [] => []
  | x :: l' => (start, x) :: enumerate (S start) l'
  end.

(** Index normalisation of a slice bound against a sequence of length [len]. *)
Definition slice_bound (len i : Z) : Z :=
  if i <? 0 then Z.max 0 (i + len) else Z.min i len.

(** [text[start:stop]]. *)
Definition py_slice (text : string) (start stop : Z) : string :=
  let len := Z.of_nat (String.length text) in
  let lo := slice_bound len start in
  let hi := slice_bound len stop in
  String.substring (Z.to_nat lo) (Z.to_nat (hi - lo)) text.

(** ** Data model *)

Record Token := mkToken {
  tok_text : string;
  tok_start : Z;
  tok_end : Z
}.

(** An entity annotation is a dict with the keys ["entity"] (whose value
    may be [None]), ["start"], ["end"] and, once set, ["extractor"] and
    ["value"]. *)
Record Entity := mkEntity {
  entity : option string;
  start : Z;
  end_ : Z;
  extractor : option string;
  value : option string
}.

#[global] Instance Token_eq_dec : EqDecision Token.
Proof. solve_decision. Defined.
#[global] Instance Entity_eq_dec : EqDecision Entity.
Proof. solve_decision. Defined.

(** The intent dict [{"name": ..., "confidence": ...}].  Confidences are
    finite floats; they are compared and copied, never computed with, and are
    modelled by the rationals they denote. *)
Record Label := mkLabel {
  name : option string;
  confidence : Q
}.

(** A sparse or dense feature matrix, by its shape [(sequence length,
    feature dimension)]. *)
Record Features := mkFeatures {
  seq_len : nat;
  feature_dim : nat
}.

#[global] Instance Features_eq_dec : EqDecision Features.
Proof. solve_decision. Defined.

(** [Message]: the text and the entries of [message.data] the classifier
    reads or writes.  The annotation read by training under ["intent"] (a
    label name) and the dict written by [process] under the same key are kept
    in two typed fields. *)
Record Message := mkMessage {
  text : string;
  intent : option string;
  tokens : option (list Token);
  entities : option (list Entity);
  text_sparse_features : option Features;
  text_dense_features : option Features;
  intent_sparse_features : option Features;
  intent_dense_features : option Features;
  out_intent : option Label;
  out_intent_ranking : option (list Label);
  output_properties : gset string
}.

(** [message.set(prop, info, add_to_output=True)] for the three properties
    the classifier provides. *)
Definition set_intent (l : Label) (m : Message) : Message :=
  mkMessage (text m) (intent m) (tokens m) (entities m)
    (text_sparse_features m) (text_dense_features m)
    (intent_sparse_features m) (intent_dense_features m)
    (Some l) (out_intent_ranking m) ({["intent"]} ∪ output_properties m).

Definition set_intent_ranking (r : list Label) (m : Message) : Message :=
  mkMessage (text m) (intent m) (tokens m) (entities m)
    (text_sparse_features m) (text_dense_features m)
    (intent_sparse_features m) (intent_dense_features m)
    (out_intent m) (Some r) ({["intent_ranking"]} ∪ output_properties m).

Definition set_entities (es : list Entity) (m : Message) : Message :=
  mkMessage (text m) (intent m) (tokens m) (Some es)
    (text_sparse_features m) (text_dense_features m)
    (intent_sparse_features m) (intent_dense_features m)
    (out_intent m) (out_intent_ranking m) ({["entities"]} ∪ output_properties m).

(** [message.get(prop, [])]. *)
Definition get_or_nil {A} (o : option (list A)) : list A := default [] o.

(** [TrainingData] with the three example lists the classifier reads. *)
Record TrainingData := mkTrainingData {
  training_examples : list Message;
  intent_examples : list Message;
  entity_examples : list Message
}.

(** ** Configuration *)

Record Config := mkConfig {
  HIDDEN_LAYERS_SIZES_TEXT : list Z;
  HIDDEN_LAYERS_SIZES_LABEL : list Z;
  SHARE_HIDDEN_LAYERS : bool;
  TRANSFORMER_SIZE : Z;
  NUM_TRANSFORMER_LAYERS : Z;
  NUM_HEADS : Z;
  POS_ENCODING : string;
  MAX_SEQ_LENGTH : Z;
  BATCH_SIZES : list nat;
  BATCH_STRATEGY : string;
  EPOCHS : Z;
  RANDOM_SEED : option Z;
  LEARNING_RATE : Q;
  DENSE_DIM_text : nat;
  DENSE_DIM_label : nat;
  EMBED_DIM : Z;
  NUM_NEG : Z;
  SIMILARITY_TYPE : string;
  LOSS_TYPE : string;
  MU_POS : Q;
  MU_NEG : Q;
  USE_MAX_SIM_NEG : bool;
  SCALE_LOSS : bool;
  C2 : Q;
  C_EMB : Q;
  DROPRATE : Q;
  UNIDIRECTIONAL_ENCODER : bool;
  EVAL_NUM_EPOCHS : Z;
  EVAL_NUM_EXAMPLES : Z;
  INTENT_CLASSIFICATION : bool;
  ENTITY_RECOGNITION : bool;
  MASKED_LM : bool;
  SPARSE_INPUT_DROPOUT : bool
}.

Definition defaults : Config := {|
  HIDDEN_LAYERS_SIZES_TEXT := [];
  HIDDEN_LAYERS_SIZES_LABEL := [];
  SHARE_HIDDEN_LAYERS := false;
  TRANSFORMER_SIZE := 256;
  NUM_TRANSFORMER_LAYERS := 2;
  NUM_HEADS := 4;
  POS_ENCODING := "timing";
  MAX_SEQ_LENGTH := 256;
  BATCH_SIZES := [64%nat; 256%nat];
  BATCH_STRATEGY := "balanced";
  EPOCHS := 300;
  RANDOM_SEED := None;
  LEARNING_RATE := (1 # 1000)%Q;
  DENSE_DIM_text := 512;
  DENSE_DIM_label := 20;
  EMBED_DIM := 20;
  NUM_NEG := 20;
  SIMILARITY_TYPE := "auto";
  LOSS_TYPE := "softmax";
  MU_POS := (8 # 10)%Q;
  MU_NEG := (-4 # 10)%Q;
  USE_MAX_SIM_NEG := true;
  SCALE_LOSS := true;
  C2 := (2 # 1000)%Q;
  C_EMB := (8 # 10)%Q;
  DROPRATE := (2 # 10)%Q;
  UNIDIRECTIONAL_ENCODER := true;
  EVAL_NUM_EPOCHS := 20;
  EVAL_NUM_EXAMPLES := 0;
  INTENT_CLASSIFICATION := true;
  ENTITY_RECOGNITION := true;
  MASKED_LM := false;
  SPARSE_INPUT_DROPOUT := false
|}.

Definition set_SIMILARITY_TYPE (s : string) (c : Config) : Config :=
  mkConfig (HIDDEN_LAYERS_SIZES_TEXT c) (HIDDEN_LAYERS_SIZES_LABEL c)
    (SHARE_HIDDEN_LAYERS c) (TRANSFORMER_SIZE c) (NUM_TRANSFORMER_LAYERS c)
    (NUM_HEADS c) (POS_ENCODING c) (MAX_SEQ_LENGTH c) (BATCH_SIZES c)
    (BATCH_STRATEGY c) (EPOCHS c) (RANDOM_SEED c) (LEARNING_RATE c)
    (DENSE_DIM_text c) (DENSE_DIM_label c) (EMBED_DIM c) (NUM_NEG c)
    s (LOSS_TYPE c) (MU_POS c) (MU_NEG c) (USE_MAX_SIM_NEG c) (SCALE_LOSS c)
    (C2 c) (C_EMB c) (DROPRATE c) (UNIDIRECTIONAL_ENCODER c)
    (EVAL_NUM_EPOCHS c) (EVAL_NUM_EXAMPLES c) (INTENT_CLASSIFICATION c)
    (ENTITY_RECOGNITION c) (MASKED_LM c) (SPARSE_INPUT_DROPOUT c).

Definition set_EVAL_NUM_EPOCHS (n : Z) (c : Config) : Config :=
  mkConfig (HIDDEN_LAYERS_SIZES_TEXT c) (HIDDEN_LAYERS_SIZES_LABEL c)
    (SHARE_HIDDEN_LAYERS c) (TRANSFORMER_SIZE c) (NUM_TRANSFORMER_LAYERS c)
    (NUM_HEADS c) (POS_ENCODING c) (MAX_SEQ_LENGTH c) (BATCH_SIZES c)
    (BATCH_STRATEGY c) (EPOCHS c) (RANDOM_SEED c) (LEARNING_RATE c)
    (DENSE_DIM_text c) (DENSE_DIM_label c) (EMBED_DIM c) (NUM_NEG c)
    (SIMILARITY_TYPE c) (LOSS_TYPE c) (MU_POS c) (MU_NEG c)
    (USE_MAX_SIM_NEG c) (SCALE_LOSS c)
    (C2 c) (C_EMB c) (DROPRATE c) (UNIDIRECTIONAL_ENCODER c)
    n (EVAL_NUM_EXAMPLES c) (INTENT_CLASSIFICATION c)
    (ENTITY_RECOGNITION c) (MASKED_LM c) (SPARSE_INPUT_DROPOUT c).

(** [_check_config_parameters]: raises on a sharing conflict, otherwise
    resolves ["auto"] similarity and clamps the evaluation cadence. *)
Definition _check_config_parameters (c : Config) : result Config :=
  if SHARE_HIDDEN_LAYERS c
     && negb (bool_decide (HIDDEN_LAYERS_SIZES_TEXT c = HIDDEN_LAYERS_SIZES_LABEL c))
  then Raise (ValueError
    "If hidden layer weights are shared,hidden_layer_sizes for text and label must coincide.")
  else
    let c1 :=
      if bool_decide (SIMILARITY_TYPE c = "auto") then
        if bool_decide (LOSS_TYPE c = "softmax") then set_SIMILARITY_TYPE "inner" c
        else if bool_decide (LOSS_TYPE c = "margin") then set_SIMILARITY_TYPE "cosine" c
        else c
      else c in
    let c2 :=
      if EVAL_NUM_EPOCHS c1 <? 1 then set_EVAL_NUM_EPOCHS (EPOCHS c1) c1 else c1 in
    Ok c2.

(** ** The DIET model object

    A [DIET] instance is modelled by its attribute dictionary: attribute
    names to values.  Reading an attribute that was never assigned raises
    [AttributeError]. *)

Record FeatureSignature := mkFeatureSignature {
  is_sparse : bool;
  shape : list nat
}.

(** The layer objects built by [_prepare_layers], with their constructor
    arguments. *)
Inductive layer : Type :=
| SparseDropout (rate : Q)
| DenseForSparse (units : nat) (reg_lambda : Q) (layer_name : string)
| NoLayer
| ReluFfn (sizes : list Z) (droprate reg_lambda : Q) (layer_name : string)
| TransformerEncoder (num_layers units num_heads filter_units max_seq_length : Z)
    (reg_lambda droprate : Q) (unidirectional : bool) (layer_name : string)
| IdentityEncoder
| InputMask
| Embed (dim : Z) (reg_lambda : Q) (layer_name : string) (similarity_type : option string)
| DotProductLoss (num_neg : Z) (loss_type : string) (mu_pos mu_neg : Q)
    (use_max_sim_neg : bool) (c_emb : Q) (scale_loss : bool)
| CRF (num_tags : Z) (reg_lambda : Q)
| F1Score (num_classes : Z) (average : string).

(** An entry of [self._tf_layers]: a layer, or a dict of layers by name. *)
Inductive layer_entry : Type :=
| Layer (l : layer)
| Layers (d : gmap string layer).

(** Tensors are symbolic: inputs of a batch, and applications of layers and
    of library operations to tensors. *)
#[warnings="-register-all"]
Inductive Tensor : Type :=
| TInput (group : string) (index : nat)
| TBool (b : bool)
| TMask (m : list (list bool))
| TCall (l : layer) (args : list Tensor)
| TOp (op : string) (args : list Tensor).

(** A batch entry: a dense tensor or a [tf.SparseTensor]. *)
Record BatchTensor := mkBatchTensor {
  bt_sparse : bool;
  bt_tensor : Tensor
}.

Inductive attr : Type :=
| ANone
| ASignature (s : gmap string (list FeatureSignature))
| ABatchData (d : gmap string (list BatchTensor))
| AInt (n : Z)
| AConfig (c : Config)
| ATfLayers (d : gmap string layer_entry)
| ALayers (d : gmap string layer)
| ALayer (l : layer)
| ATensor (t : Tensor)
| AOptimizer (learning_rate : Q)
| AMetric (metric_name : string)
| ASizes (sizes : gmap string nat).

(** The attribute dictionary of an object. *)
Abbreviation obj := (gmap string attr).

Definition getattr (self : obj) (a : string) : result attr :=
  match self !! a with
  | Some v => Ok v
  | None => Raise (AttributeError a)
  end.

(** Code that mutates an object runs in a state monad with exceptions; an
    exception leaves the assignments made before it. *)
Definition ST (S A : Type) : Type := S -> S * result A.

Definition retM {S A} (a : A) : ST S A := fun s => (s, Ok a).
Definition bindM {S A B} (m : ST S A) (f : A -> ST S B) : ST S B := fun s =>
  match m s with
  | (s', Ok a) => f a s'
  | (s', Raise e) => (s', Raise e)
  end.
Definition liftM {S A} (r : S -> result A) : ST S A := fun s => (s, r s).
Definition raiseM {S A} (e : exn) : ST S A := fun s => (s, Raise e).
Definition modifyM {S} (f : S -> S) : ST S unit := fun s => (f s, Ok tt).

(** Methods of [DIET] act on its attribute dictionary. *)
Abbreviation M := (ST obj).

Definition setattr (a : string) (v : attr) : M unit := modifyM (insert a v).

Notation "x <~ m ;; k" := (bindM m (fun x => k))
  (at level 100, m at next level, right associativity).
Notation "m ;;; k" := (bindM m (fun _ => k))
  (at level 100, right associativity).

Definition get_config (self : obj) : result Config :=
  v ← getattr self "config";
  match v with AConfig c => Ok c | _ => Raise (TypeError "config") end.

Definition get_data_signature (self : obj) : result (gmap string (list FeatureSignature)) :=
  v ← getattr self "data_signature";
  match v with ASignature s => Ok s | _ => Raise (TypeError "data_signature") end.

Definition get_tf_layers (self : obj) : result (gmap string layer_entry) :=
  v ← getattr self "_tf_layers";
  match v with ATfLayers d => Ok d | _ => Raise (TypeError "_tf_layers") end.

Definition get_num_tags (self : obj) : result Z :=
  v ← getattr self "_num_tags";
  match v with AInt n => Ok n | _ => Raise (TypeError "_num_tags") end.

Definition get_training (self : obj) : result Tensor :=
  v ← getattr self "training";
  match v with ATensor t => Ok t | _ => Raise (TypeError "training") end.

(** [self._tf_layers[k] = v]. *)
Definition set_layer (k : string) (v : layer_entry) : M unit :=
  d <~ liftM get_tf_layers ;;
  setattr "_tf_layers" (ATfLayers (<[k := v]> d)).

(** [self._tf_layers[k]], a single layer. *)
Definition tf_layer (self : obj) (k : string) : result layer :=
  d ← get_tf_layers self;
  e ← getitem d k;
  match e with Layer l => Ok l | Layers _ => Raise (TypeError "'dict' object is not callable") end.

(** [self._tf_layers[k][sub]]. *)
Definition tf_sublayer (self : obj) (k sub : string) : result layer :=
  d ← get_tf_layers self;
  e ← getitem d k;
  match e with
  | Layers g => getitem g sub
  | Layer _ => Raise (TypeError "layer object is not subscriptable")
  end.

(** [self._tf_layers[k][sub] = l]. *)
Definition set_sublayer (k sub : string) (l : layer) : M unit :=
  d <~ liftM get_tf_layers ;;
  e <~ liftM (fun _ => getitem d k) ;;
  match e with
  | Layers g => setattr "_tf_layers" (ATfLayers (<[k := Layers (<[sub := l]> g)]> d))
  | Layer _ => raiseM (TypeError "layer object does not support item assignment")
  end.

(** Calling a layer; calling [None] is a [TypeError]. *)
Definition call_layer (l : layer) (args : list Tensor) : result Tensor :=
  match l with
  | NoLayer => Raise (TypeError "'NoneType' object is not callable")
  | _ => Ok (TCall l args)
  end.

(** [shape[-1]]. *)
Definition shape_last (sh : list nat) : result nat :=
  match last sh with
  | Some d => Ok d
  | None => Raise (IndexError "tuple index out of range")
  end.

(** [_create_sparse_dense_layer]. *)
Fixpoint _create_sparse_dense_layer_loop (data_signature : list FeatureSignature)
    (sparse : bool) (dense_dim : nat) : result (bool * nat) :=
  match data_signature with
  | [] => Ok (sparse, dense_dim)
  | fs :: rest =>
      if is_sparse fs then _create_sparse_dense_layer_loop rest true dense_dim
      else d ← shape_last (shape fs);
           _create_sparse_dense_layer_loop rest sparse d
  end.

Definition _create_sparse_dense_layer (data_signature : list FeatureSignature)
    (layer_name : string) (reg_lambda : Q) (dense_dim : nat) : result layer :=
  '(sparse, dense_dim) ← _create_sparse_dense_layer_loop data_signature false dense_dim;
  if sparse : bool then Ok (DenseForSparse dense_dim reg_lambda layer_name) else Ok NoLayer.

Definition _prepare_sequence_layers : M unit :=
  config <~ liftM get_config ;;
  set_layer "sparse_dropout" (Layer (SparseDropout (DROPRATE config))) ;;;
  signature <~ liftM get_data_signature ;;
  text_sig <~ liftM (fun _ => getitem signature "text_features") ;;
  text <~ liftM (fun _ => _create_sparse_dense_layer text_sig "text" (C2 config)
                            (DENSE_DIM_text config)) ;;
  label_sig <~ liftM (fun _ => getitem signature "label_features") ;;
  label <~ liftM (fun _ => _create_sparse_dense_layer label_sig "label" (C2 config)
                             (DENSE_DIM_label config)) ;;
  set_layer "sparse_to_dense" (Layers (<["label" := label]> {["text" := text]})) ;;;
  set_layer "ffnn" (Layers (
    <["label" := ReluFfn (HIDDEN_LAYERS_SIZES_LABEL config) (DROPRATE config) (C2 config)
                   (if SHARE_HIDDEN_LAYERS config then "text_intent" else "label")]>
    {["text" := ReluFfn (HIDDEN_LAYERS_SIZES_TEXT config) (DROPRATE config) (C2 config)
                   (if SHARE_HIDDEN_LAYERS config then "text_intent" else "text")]})) ;;;
  set_layer "transformer" (Layer (
    if 0 <? NUM_TRANSFORMER_LAYERS config then
      TransformerEncoder (NUM_TRANSFORMER_LAYERS config) (TRANSFORMER_SIZE config)
        (NUM_HEADS config) (TRANSFORMER_SIZE config * 4) (MAX_SEQ_LENGTH config)
        (C2 config) (DROPRATE config) (UNIDIRECTIONAL_ENCODER config) "text_encoder"
    else IdentityEncoder)).

Definition dot_product_loss (config : Config) : layer :=
  DotProductLoss (NUM_NEG config) (LOSS_TYPE config) (MU_POS config) (MU_NEG config)
    (USE_MAX_SIM_NEG config) (C_EMB config) (SCALE_LOSS config).

Definition _prepare_mask_lm_layers : M unit :=
  config <~ liftM get_config ;;
  set_layer "input_mask" (Layer InputMask) ;;;
  set_sublayer "embed" "text_mask"
    (Embed (EMBED_DIM config) (C2 config) "text_mask" (Some (SIMILARITY_TYPE config))) ;;;
  set_sublayer "embed" "text_token"
    (Embed (EMBED_DIM config) (C2 config) "text_token" (Some (SIMILARITY_TYPE config))) ;;;
  set_layer "loss_mask" (Layer (dot_product_loss config)).

Definition _prepare_intent_classification_layers : M unit :=
  config <~ liftM get_config ;;
  set_sublayer "embed" "text"
    (Embed (EMBED_DIM config) (C2 config) "text" (Some (SIMILARITY_TYPE config))) ;;;
  set_sublayer "embed" "label"
    (Embed (EMBED_DIM config) (C2 config) "label" (Some (SIMILARITY_TYPE config))) ;;;
  set_layer "loss_label" (Layer (dot_product_loss config)).

Definition _prepare_entity_recognition_layers : M unit :=
  config <~ liftM get_config ;;
  num_tags <~ liftM get_num_tags ;;
  set_sublayer "embed" "logits" (Embed num_tags (C2 config) "logits" None) ;;;
  set_layer "crf" (Layer (CRF num_tags (C2 config))) ;;;
  set_layer "crf_f1_score" (Layer (F1Score (num_tags - 1) "micro")).

Definition _prepare_layers : M unit :=
  setattr "_tf_layers" (ATfLayers ∅) ;;;
  _prepare_sequence_layers ;;;
  set_layer "embed" (Layers ∅) ;;;
  _prepare_mask_lm_layers ;;;
  _prepare_intent_classification_layers ;;;
  _prepare_entity_recognition_layers.

(** ** The model data container *)

(** The arrays stored in a [RasaModelData]: one entry per example. *)
Inductive Array : Type :=
| SparseArray (rows : list Features)
| DenseArray (rows : list Features)
| LabelIdArray (ids : list nat)
| TagIdArray (rows : list (list nat))
| MaskArray (lens : list nat).

(** [a.size == 0]. *)
Definition array_empty (a : Array) : bool :=
  match a with
  | SparseArray rows | DenseArray rows => bool_decide (rows = [])
  | LabelIdArray ids => bool_decide (ids = [])
  | TagIdArray rows => bool_decide (rows = [])
  | MaskArray lens => bool_decide (lens = [])
  end.

(** Shape of the first example of an array. *)
Definition first_shape (a : Array) : list nat :=
  match a with
  | SparseArray rows | DenseArray rows =>
      match rows with f :: _ => [seq_len f; feature_dim f] | [] => [] end
  | LabelIdArray _ => [1%nat]
  | TagIdArray rows => match rows with r :: _ => [length r; 1%nat] | [] => [] end
  | MaskArray lens => match lens with n :: _ => [n; 1%nat] | [] => [] end
  end.

Definition array_is_sparse (a : Array) : bool :=
  match a with SparseArray _ => true | _ => false end.

Abbreviation ModelData := (gmap string (list Array)).

(** Modelled from the spec: [RasaModelData.add_features] (the container is
    defined in [rasa.utils.tensorflow.tf_model_data]); section 3 describes a
    mapping from group name to the list of the group's variant arrays.  Empty
    variants are not stored, and a group without variants is not present,
    which is what [_create_model_data] tests with [feature_not_exists]. *)
Definition add_features (key : string) (features : list Array) (md : ModelData) : ModelData :=
  match filter (fun a => array_empty a = false) features with
  | [] => md
  | kept => <[key := kept]> md
  end.

(** Modelled from the spec: [RasaModelData.get], the arrays of a group (none
    for a group that is not present). *)
Definition md_get (key : string) (md : ModelData) : list Array :=
  default [] (md !! key).

(** Modelled from the spec: [RasaModelData.feature_not_exists]. *)
Definition feature_not_exists (key : string) (md : ModelData) : bool :=
  bool_decide (md_get key md = []).

(** Modelled from the spec: [RasaModelData.add_mask], section 3: an explicit
    mask per sequence-typed group, all ones over the real tokens of each
    example. *)
Definition add_mask (key from_key : string) (md : ModelData) : ModelData :=
  match md_get from_key md with
  | SparseArray rows :: _ | DenseArray rows :: _ =>
      <[key := [MaskArray (seq_len <$> rows)]]> md
  | _ => md
  end.

Definition signature_of (a : Array) : FeatureSignature :=
  mkFeatureSignature (array_is_sparse a) (first_shape a).

(** Modelled from the spec: [RasaModelData.get_signature], section 3: one
    [FeatureSignature] per variant of each group. *)
Definition get_signature (md : gmap string (list Array)) : gmap string (list FeatureSignature) :=
  fmap (M := gmap string) (fmap (M := list) signature_of) md.

(** Modelled from the spec: [RasaModelData.get_feature_dimension], the summed
    feature width of the variants of a group. *)
Definition get_feature_dimension (key : string) (md : ModelData) : nat :=
  sum_list ((fun a => default 0%nat (last (first_shape a))) <$> md_get key md).

(** ** DIET: construction, phase switch, prediction *)

(** The [out] dict of [DIET.predict]: the keys ["i_scores"] and ["e_ids"]
    when present. *)
Record TensorOut := mkTensorOut {
  t_i_scores : option Tensor;
  t_e_ids : option Tensor
}.

(** A rank-3 boolean tensor [batch][position][1]. *)
Abbreviation tensor3 := (list (list (list bool))).

Definition tf_reduce_any (t : tensor3) : bool :=
  existsb (existsb (existsb id)) t.

Definition tf_shape (t : tensor3) : nat * nat * nat :=
  (length t, length (hd [] t), length (hd [] (hd [] t))).

Definition tf_zeros (sh : nat * nat * nat) : tensor3 :=
  replicate sh.1.1 (replicate sh.1.2 (replicate sh.2 false)).

(** [tf.scatter_nd([[0, 0, 0]], [True], shape)]: an all-false tensor with
    entry [0, 0, 0] set; the index must lie inside the shape. *)
Definition tf_scatter_nd_000 (sh : nat * nat * nat) : result tensor3 :=
  match tf_zeros sh with
  | ((_ :: cell) :: row) :: rest => Ok (((true :: cell) :: row) :: rest)
  | _ => Raise (ValueError "indices[0] = [0, 0, 0] does not index into shape")
  end.

(** [tf.squeeze(t, -1)]: the last axis must have size 1. *)
Definition tf_squeeze_cell (cell : list bool) : result bool :=
  match cell with
  | [b] => Ok b
  | _ => Raise (ValueError "Can not squeeze dim[2], expected a dimension of 1")
  end.

Definition tf_squeeze (t : tensor3) : result (list (list bool)) :=
  mapM (mapM tf_squeeze_cell) t.

(** The first two statements of [_mask_loss]: the selection mask the loss is
    computed over. *)
Definition _mask_loss_lm_mask_bool (lm_mask_bool : tensor3) : result (list (list bool)) :=
  lm_mask_bool ←
    (if tf_reduce_any lm_mask_bool then Ok lm_mask_bool
     else tf_scatter_nd_000 (tf_shape lm_mask_bool));
  tf_squeeze lm_mask_bool.

Section DIET.

(** Methods of the base class [RasaModel] and of [RasaModelData], taken as
    given. *)
Variable prepare_batch : gmap string (list Array) -> list Tensor.
Variable batch_to_model_data_format :
  list Tensor -> gmap string (list FeatureSignature) -> gmap string (list BatchTensor).
Variable batch_tuple_sizes : gmap string (list Array) -> gmap string nat.

(** [DIET.__init__], run on the attribute dictionary [super().__init__]
    leaves. *)
Definition DIET__init__ (data_signature : gmap string (list FeatureSignature))
    (label_data : gmap string (list Array)) (inverted_tag_dict : gmap nat string)
    (config : Config) : M unit :=
  setattr "data_signature" (ASignature data_signature) ;;;
  setattr "tf_label_data"
    (ABatchData (batch_to_model_data_format (prepare_batch label_data)
                   (get_signature label_data))) ;;;
  setattr "_num_tags" (AInt (Z.of_nat (size inverted_tag_dict))) ;;;
  setattr "config" (AConfig config) ;;;
  _prepare_layers ;;;
  setattr "training" (ATensor (TBool true)) ;;;
  setattr "_optimizer" (AOptimizer (LEARNING_RATE config)) ;;;
  setattr "intent_acc" (AMetric "i_acc") ;;;
  setattr "intent_loss" (AMetric "i_loss") ;;;
  setattr "mask_loss" (AMetric "m_loss") ;;;
  setattr "mask_acc" (AMetric "m_acc") ;;;
  setattr "entity_loss" (AMetric "e_loss") ;;;
  setattr "entity_f1" (AMetric "e_f1") ;;;
  setattr "all_labels_embed" ANone ;;;
  setattr "batch_tuple_sizes" ANone.

(** [DIET(...)]: the object, unless the constructor raises. *)
Definition DIET (base : obj) (data_signature : gmap string (list FeatureSignature))
    (label_data : gmap string (list Array)) (inverted_tag_dict : gmap nat string)
    (config : Config) : result obj :=
  match DIET__init__ data_signature label_data inverted_tag_dict config base with
  | (self, Ok _) => Ok self
  | (_, Raise e) => Raise e
  end.

Definition set_training_phase (training : bool) : M unit :=
  setattr "training" (ATensor (TBool training)).

Fixpoint _combine_loop (self : obj) (features : list BatchTensor) (layer_key : string)
    (sparse_dropout : bool) : result (list Tensor) :=
  match features with
  | [] => Ok []
  | f :: rest =>
      d ← (if bt_sparse f then
             _f ← (if sparse_dropout then
                     l ← tf_layer self "sparse_dropout";
                     training ← get_training self;
                     call_layer l [bt_tensor f; training]
                   else Ok (bt_tensor f));
             l ← tf_sublayer self "sparse_to_dense" layer_key;
             call_layer l [_f]
           else Ok (bt_tensor f));
      ds ← _combine_loop self rest layer_key sparse_dropout;
      Ok (d :: ds)
  end.

Definition _combine_sparse_dense_features (self : obj) (features : list BatchTensor)
    (mask : Tensor) (layer_key : string) (sparse_dropout : bool) : result Tensor :=
  dense_features ← _combine_loop self features layer_key sparse_dropout;
  Ok (TOp "mul" [TOp "concat" dense_features; mask]).

Definition _create_bow (self : obj) (features : list BatchTensor) (mask : Tensor)
    (layer_key : string) : result Tensor :=
  x ← _combine_sparse_dense_features self features mask layer_key false;
  l ← tf_sublayer self "ffnn" layer_key;
  training ← get_training self;
  call_layer l [TOp "reduce_sum" [x]; training].

Definition _create_sequence (self : obj) (features : list BatchTensor) (mask : Tensor)
    (layer_key : string) (masked_lm_loss : bool)
    : result (Tensor * Tensor * option Tensor) :=
  config ← get_config self;
  x ← _combine_sparse_dense_features self features mask layer_key
         (SPARSE_INPUT_DROPOUT config);
  '(pre, lm_mask_bool) ←
    (if masked_lm_loss then
       l ← tf_layer self "input_mask";
       training ← get_training self;
       r ← call_layer l [x; mask; training];
       Ok (TOp "getitem_0" [r], Some (TOp "getitem_1" [r]))
     else Ok (x, None));
  l ← tf_layer self "transformer";
  training ← get_training self;
  transformed ← call_layer l [pre; TOp "sub" [TOp "one" []; mask]; training];
  Ok (TOp "relu" [transformed], x, lm_mask_bool).

(** [_mask_loss], on the run-time value of the selection mask. *)
Definition _mask_loss (self : obj) (a_transformed a : Tensor) (lm_mask_bool : tensor3)
    (layer_key : string) : result Tensor :=
  lm_mask_bool ← _mask_loss_lm_mask_bool lm_mask_bool;
  let a_t_masked := TOp "boolean_mask" [a_transformed; TMask lm_mask_bool] in
  let a_masked := TOp "boolean_mask" [a; TMask lm_mask_bool] in
  l ← tf_sublayer self "embed" (layer_key +:+ "_mask");
  a_t_masked_embed ← call_layer l [a_t_masked];
  l ← tf_sublayer self "embed" (layer_key +:+ "_token");
  a_masked_embed ← call_layer l [a_masked];
  loss ← getattr self "_loss_mask";
  match loss with
  | ALayer l => call_layer l [a_t_masked_embed; a_masked_embed; a_masked; a_masked_embed; a_masked]
  | _ => Raise (TypeError "object is not callable")
  end.

Definition index0 {A} (l : list A) : result A :=
  match l with
  | x :: _ => Ok x
  | [] => Raise (IndexError "list index out of range")
  end.

Definition get_tf_label_data (self : obj) : result (gmap string (list BatchTensor)) :=
  v ← getattr self "tf_label_data";
  match v with ABatchData d => Ok d | _ => Raise (TypeError "tf_label_data") end.

Definition _build_all_b (self : obj) : result (Tensor * Tensor) :=
  tf_label_data ← get_tf_label_data self;
  label_features ← getitem tf_label_data "label_features";
  label_masks ← getitem tf_label_data "label_mask";
  label_mask ← index0 label_masks;
  all_labels ← _create_bow self label_features (bt_tensor label_mask) "label";
  l ← tf_sublayer self "embed" "label";
  all_labels_embed ← call_layer l [all_labels];
  Ok (all_labels_embed, all_labels).

Definition build_for_predict (model_data : gmap string (list Array)) : M unit :=
  setattr "batch_tuple_sizes" (ASizes (batch_tuple_sizes model_data)) ;;;
  r <~ liftM _build_all_b ;;
  setattr "all_labels_embed" (ATensor (TOp "constant" [TOp "numpy" [r.1]])).

(** [predict], up to the encoder output: the transformed text and the
    sequence lengths. *)
Definition predict_encode (self : obj) (batch_in : list Tensor) : result (Tensor * Tensor) :=
  signature ← get_data_signature self;
  let tf_batch_data := batch_to_model_data_format batch_in signature in
  text_masks ← getitem tf_batch_data "text_mask";
  mask_text ← index0 text_masks;
  let mask_text := bt_tensor mask_text in
  let sequence_lengths :=
    TOp "cast_int32" [TOp "reduce_sum" [TOp "feature_0" [mask_text]]] in
  text_features ← getitem tf_batch_data "text_features";
  r ← _create_sequence self text_features mask_text "text" false;
  Ok (r.1.1, sequence_lengths).

(** [self.<a>[k]] for an attribute holding a dict of layers. *)
Definition attr_layer (self : obj) (a k : string) : result layer :=
  v ← getattr self a;
  match v with
  | ALayers d => getitem d k
  | _ => Raise (TypeError "object is not subscriptable")
  end.

(** [self.<a>], a callable layer. *)
Definition attr_callable (self : obj) (a : string) : result layer :=
  v ← getattr self a;
  match v with
  | ALayer l => Ok l
  | _ => Raise (TypeError "object is not callable")
  end.

Definition predict (self : obj) (batch_in : list Tensor) : result TensorOut :=
  '(text_transformed, sequence_lengths) ← predict_encode self batch_in;
  config ← get_config self;
  i_scores ←
    (if INTENT_CLASSIFICATION config then
       let last_index :=
         TOp "maximum" [TOp "zero" []; TOp "sub" [sequence_lengths; TOp "one" []]] in
       let cls := TOp "gather_nd" [text_transformed; last_index] in
       l ← attr_layer self "_embed" "text";
       cls_embed ← call_layer l [cls];
       loss_label ← attr_callable self "_loss_label";
       all_labels_embed ← getattr self "all_labels_embed";
       all_labels_embed ← (match all_labels_embed with
                           | ATensor t => Ok t
                           | _ => Raise (TypeError "object is not subscriptable")
                           end);
       let sim_all := TCall loss_label [cls_embed; all_labels_embed] in
       config ← get_config self;
       Ok (Some (TOp ("confidence_from_sim_" +:+ SIMILARITY_TYPE config) [sim_all]))
     else Ok None);
  config ← get_config self;
  e_ids ←
    (if ENTITY_RECOGNITION config then
       l ← attr_layer self "_embed" "logits";
       logits ← call_layer l [text_transformed];
       crf ← attr_callable self "_crf";
       pred_ids ← call_layer crf [logits; TOp "sub" [sequence_lengths; TOp "one" []]];
       Ok (Some pred_ids)
     else Ok None);
  Ok (mkTensorOut i_scores e_ids).

(** The operations that act on a constructed [DIET] object: its own methods
    that assign attributes, the assignment of [data_signature] made by
    [load], and [predict]. *)
Inductive method : Type :=
| call_set_training_phase (training : bool)
| call_build_for_predict (model_data : gmap string (list Array))
| assign_data_signature (s : gmap string (list FeatureSignature))
| call_predict (batch_in : list Tensor).

Definition run_method (m : method) : M unit :=
  match m with
  | call_set_training_phase training => set_training_phase training
  | call_build_for_predict model_data => build_for_predict model_data
  | assign_data_signature s => setattr "data_signature" (ASignature s)
  | call_predict batch_in => _ <~ liftM (fun self => predict self batch_in) ;; retM tt
  end.

(** The states a [DIET] object built on [base] can be in. *)
Inductive reachable (self0 : obj) : obj -> Prop :=
| reachable_init : reachable self0 self0
| reachable_step self m :
    reachable self0 self -> reachable self0 (run_method m self).1.

End DIET.

(** ** The classifier: data preparation *)

Inductive Attribute : Type := TEXT_ATTRIBUTE | INTENT_ATTRIBUTE.

(** [message.get(attribute)]. *)
Definition get_attribute (m : Message) (a : Attribute) : option string :=
  match a with
  | TEXT_ATTRIBUTE => Some (text m)
  | INTENT_ATTRIBUTE => intent m
  end.

(** [message.get(SPARSE_FEATURE_NAMES[attribute])]. *)
Definition get_sparse (m : Message) (a : Attribute) : option Features :=
  match a with
  | TEXT_ATTRIBUTE => text_sparse_features m
  | INTENT_ATTRIBUTE => intent_sparse_features m
  end.

(** [message.get(DENSE_FEATURE_NAMES[attribute])]. *)
Definition get_dense (m : Message) (a : Attribute) : option Features :=
  match a with
  | TEXT_ATTRIBUTE => text_dense_features m
  | INTENT_ATTRIBUTE => intent_dense_features m
  end.

(** Truth value of an optional string: [None] and [""] are false. *)
Definition truthy (o : option string) : bool :=
  match o with
  | Some s => negb (bool_decide (s = ""))
  | None => false
  end.

(** [{v: k for k, v in d.items()}]. *)
Definition invert_dict `{Countable K, Countable V} (d : gmap K V) : gmap V K :=
  dict_of_items ((fun kv => (kv.2, kv.1)) <$> map_to_list d).

(** The values [example.get(attribute)] over the intent examples, without
    [None]. *)
Definition distinct_label_ids (training_data : TrainingData) (attribute : Attribute)
    : gset string :=
  list_to_set (omap (fun example => get_attribute example attribute)
                 (intent_examples training_data)).

(** [[e["entity"] for example in examples for e in example.get("entities")]];
    iterating over [None] is a [TypeError]. *)
Fixpoint entity_names (examples : list Message) : result (list (option string)) :=
  match examples with
  | [] => Ok []
  | example :: rest =>
      match entities example with
      | None => Raise (TypeError "'NoneType' object is not iterable")
      | Some es =>
          names ← entity_names rest;
          Ok (((entity <$> es) ++ names)%list)
      end
  end.

Definition _find_example_for_label (label : string) (examples : list Message)
    (attribute : Attribute) : option Message :=
  List.find (fun ex => bool_decide (get_attribute ex attribute = Some label)) examples.

Definition _check_labels_features_exist (labels_example : list Message)
    (attribute : Attribute) : bool :=
  forallb (fun label_example =>
    negb (bool_decide (get_sparse label_example attribute = None)
          && bool_decide (get_dense label_example attribute = None)))
    labels_example.

Definition _extract_and_add_features (message : Message) (attribute : Attribute)
    : result (option Features * option Features) :=
  let sparse_features := get_sparse message attribute in
  let dense_features := get_dense message attribute in
  match sparse_features, dense_features with
  | Some s, Some d =>
      if bool_decide (seq_len s = seq_len d) then Ok (sparse_features, dense_features)
      else Raise (ValueError
        "Sequence dimensions for sparse and dense features don't coincide.")
  | _, _ => Ok (sparse_features, dense_features)
  end.

(** [l.append(x)] when [x] is not [None]. *)
Definition append_some {A} (l : list A) (o : option A) : list A :=
  match o with
  | Some x => (l ++ [x])%list
  | None => l
  end.

Fixpoint _extract_labels_loop (label_examples : list Message) (attribute : Attribute)
    (sparse_features dense_features : list Features)
    : result (list Features * list Features) :=
  match label_examples with
  | [] => Ok (sparse_features, dense_features)
  | e :: rest =>
      '(_sparse, _dense) ← _extract_and_add_features e attribute;
      _extract_labels_loop rest attribute
        (append_some sparse_features _sparse) (append_some dense_features _dense)
  end.

Definition _extract_labels_precomputed_features (label_examples : list Message)
    (attribute : Attribute) : result (list Array) :=
  '(sparse_features, dense_features) ← _extract_labels_loop label_examples attribute [] [];
  Ok [SparseArray sparse_features; DenseArray dense_features].

(** One-hot rows of shape [(1, n)], one per label. *)
Definition _compute_default_label_features (labels_example : list Message) : list Array :=
  let n := length labels_example in
  [DenseArray (replicate n (mkFeatures 1 n))].

(** [a[i]] on the examples of an array. *)
Definition array_row (a : Array) (i : nat) : result Features :=
  match a with
  | SparseArray rows | DenseArray rows =>
      match rows !! i with
      | Some f => Ok f
      | None => Raise (IndexError "index is out of bounds for axis 0")
      end
  | _ => Raise (TypeError "not a feature array")
  end.

(** [np.array(rows)] with the kind of the array the rows come from. *)
Definition array_like (a : Array) (rows : list Features) : Array :=
  match a with
  | SparseArray _ => SparseArray rows
  | _ => DenseArray rows
  end.

(** [v[:1]]. *)
Definition array_take1 (a : Array) : Array :=
  match a with
  | SparseArray rows => SparseArray (take 1 rows)
  | DenseArray rows => DenseArray (take 1 rows)
  | LabelIdArray ids => LabelIdArray (take 1 ids)
  | TagIdArray rows => TagIdArray (take 1 rows)
  | MaskArray lens => MaskArray (take 1 lens)
  end.

(** [len(np.unique(arrays))] for the label id group. *)
Definition count_unique_ids (arrays : list Array) : nat :=
  length (remove_dups (mjoin ((fun a =>
    match a with LabelIdArray ids => ids | _ => [] end) <$> arrays))).

Definition _check_enough_labels (model_data : gmap string (list Array)) : bool :=
  bool_decide (2 <= count_unique_ids (md_get "label_ids" model_data))%nat.

(** ** The classifier: post-processing of predictions *)

(** [entities[-1]["end"] = stop]. *)
Definition set_last_end (entities : list Entity) (stop : Z) : result (list Entity) :=
  match reverse entities with
  | [] => Raise (IndexError "list index out of range")
  | e :: before =>
      Ok (reverse (mkEntity (entity e) (start e) stop (extractor e) (value e) :: before))
  end.

Fixpoint _convert_tags_loop (pairs : list (Token * string)) (last_tag : string)
    (entities : list Entity) : result (list Entity) :=
  match pairs with
  | [] => Ok entities
  | (token, tag) :: rest =>
      if bool_decide (tag = "O") then _convert_tags_loop rest tag entities
      else if negb (bool_decide (last_tag = tag)) then
        let entity := mkEntity (Some tag) (tok_start token) (tok_end token) (Some "DIET") None in
        _convert_tags_loop rest tag ((entities ++ [entity])%list)
      else
        entities ← set_last_end entities (tok_end token);
        _convert_tags_loop rest tag entities
  end.

Definition _convert_tags_to_entities (text : string) (tokens : list Token)
    (tags : list string) : result (list Entity) :=
  entities ← _convert_tags_loop (zip tokens tags) "O" [];
  Ok (List.map (fun e => mkEntity (entity e) (start e) (end_ e) (extractor e)
                          (Some (py_slice text (start e) (end_ e)))) entities).

(** The arrays read from the [out] dict of the prediction function:
    ["i_scores"] flattened, ["e_ids"] per example. *)
Record Out := mkOut {
  i_scores : option (list Q);
  e_ids : option (list (list nat))
}.

(** [out[key]] when [out] may be [None]. *)
Definition out_getitem {A} (out : option Out) (field : Out -> option A) (key : string)
    : result A :=
  match out with
  | None => Raise (TypeError "'NoneType' object is not subscriptable")
  | Some o =>
      match field o with
      | Some v => Ok v
      | None => Raise (KeyError key)
      end
  end.

(** The order on scores. *)
Definition score_le (x y : Q) : Prop := Qle_bool x y = true.

#[global] Instance score_le_dec : RelDecision score_le.
Proof. intros x y. unfold score_le. apply _. Defined.

(** The order on indices by the entries they point at. *)
Definition index_le (a : list Q) (i j : nat) : Prop :=
  score_le (nth i a 0%Q) (nth j a 0%Q).

#[global] Instance index_le_dec a : RelDecision (index_le a).
Proof. intros i j. unfold index_le. apply _. Defined.

(** [a.argsort()]: the indices of [a] in ascending order of their entries. *)
Definition argsort (a : list Q) : list nat :=
  merge_sort (index_le a) (seq 0 (length a)).

(** [a[::-1].sort()]: sorts the reversed view in ascending order, which
    leaves [a] in descending order. *)
Definition sort_reversed_view (a : list Q) : list Q :=
  reverse (merge_sort score_le (reverse a)).

(** ** The classifier: state, training and inference *)

(** Modelled from the spec: the batch-size schedule of section 4.1: linear
    from the minimal to the maximal size over the epochs, rounded down. *)
Definition linear_batch_size (epoch epochs : nat) (batch_sizes : list nat) : nat :=
  match batch_sizes with
  | [lo; hi] =>
      if (1 <? epochs)%nat then (lo + epoch * (hi - lo) / (epochs - 1))%nat else lo
  | lo :: _ => lo
  | [] => 0%nat
  end.

(** The order of [(idx, example)] pairs by [idx]. *)
Definition idx_le {A} (x y : nat * A) : Prop := (x.1 <= y.1)%nat.

#[global] Instance idx_le_dec {A} : RelDecision (@idx_le A).
Proof. intros x y. unfold idx_le. apply _. Defined.

Section Classifier.

(** The state of NumPy's process-wide random generator. *)
Variable rng : Type.
(** [np.random.seed(seed)] for an integer seed, and for [None] (fresh
    entropy of the process). *)
Variable rng_of_seed : Z -> rng.
Variable os_entropy : rng.
(** The iteration order of a Python set of strings in this process. *)
Variable set_order : gset string -> list string.
(** Functions of other modules, taken as given. *)
Variable determine_token_labels : Token -> option (list Entity) -> string.
Variable add_extractor_name : list Entity -> list Entity.
Variable LABEL_RANKING_LENGTH : nat.
Variable prepare_batch : gmap string (list Array) -> list Tensor.
Variable batch_to_model_data_format :
  list Tensor -> gmap string (list FeatureSignature) -> gmap string (list BatchTensor).
Variable first_batch : gmap string (list Array) -> list Tensor.
(** The attribute dictionary [super().__init__] leaves for a [DIET] object. *)
Variable base : obj.
(** The batch generator of the model data: from the generator state, the
    data, the batch size and the strategy to the batches of one epoch (each
    the list of its example indices) and the next generator state. *)
Variable iter_batches :
  rng -> gmap string (list Array) -> nat -> string -> list (list nat) * rng.

(** The instance variables of [EmbeddingIntentClassifier] that its methods
    read or assign. *)
Record Classifier := mkClassifier {
  component_config : Config;
  inverted_label_dict : option (gmap nat string);
  inverted_tag_dict : option (gmap nat string);
  model : option obj;
  predict_func : option (list Tensor -> result Out);
  _label_data : option (gmap string (list Array));
  batch_tuple_sizes : option (gmap string nat);
  num_tags : nat;
  data_example : option (gmap string (list Array))
}.

Definition set_inverted_label_dict (v : option (gmap nat string)) (s : Classifier) :=
  mkClassifier (component_config s) v (inverted_tag_dict s) (model s) (predict_func s)
    (_label_data s) (batch_tuple_sizes s) (num_tags s) (data_example s).
Definition set_inverted_tag_dict (v : option (gmap nat string)) (s : Classifier) :=
  mkClassifier (component_config s) (inverted_label_dict s) v (model s) (predict_func s)
    (_label_data s) (batch_tuple_sizes s) (num_tags s) (data_example s).
Definition set_model (v : option obj) (s : Classifier) :=
  mkClassifier (component_config s) (inverted_label_dict s) (inverted_tag_dict s) v
    (predict_func s) (_label_data s) (batch_tuple_sizes s) (num_tags s) (data_example s).
Definition set__label_data (v : option (gmap string (list Array))) (s : Classifier) :=
  mkClassifier (component_config s) (inverted_label_dict s) (inverted_tag_dict s) (model s)
    (predict_func s) v (batch_tuple_sizes s) (num_tags s) (data_example s).
Definition set_num_tags (v : nat) (s : Classifier) :=
  mkClassifier (component_config s) (inverted_label_dict s) (inverted_tag_dict s) (model s)
    (predict_func s) (_label_data s) (batch_tuple_sizes s) v (data_example s).
Definition set_data_example (v : option (gmap string (list Array))) (s : Classifier) :=
  mkClassifier (component_config s) (inverted_label_dict s) (inverted_tag_dict s) (model s)
    (predict_func s) (_label_data s) (batch_tuple_sizes s) (num_tags s) v.

(** [EmbeddingIntentClassifier.__init__]. *)
Definition EmbeddingIntentClassifier__init__ (component_config : Config)
    (inverted_label_dict inverted_tag_dict : option (gmap nat string))
    (model : option obj) (predict_func : option (list Tensor -> result Out))
    (batch_tuple_sizes : option (gmap string nat)) : result Classifier :=
  component_config ← _check_config_parameters component_config;
  Ok (mkClassifier component_config inverted_label_dict inverted_tag_dict model
        predict_func None batch_tuple_sizes 0%nat None).

(** What a run leaves behind: log records, seeds, and the calls of [fit]
    with the batches drawn in each epoch. *)
Inductive Event : Type :=
| Log (level msg : string)
| TfSeed (seed : option Z)
| Fit (epochs : Z) (batch_sizes : list nat) (eval_num_examples eval_num_epochs : Z)
    (batch_strategy : string) (random_seed : option Z)
    (batches : list (list (list nat))).

Record World := mkWorld {
  self : Classifier;
  np_rng : rng;
  events : list Event
}.

Definition modify_self (f : Classifier -> Classifier) : ST World unit :=
  modifyM (fun w => mkWorld (f (self w)) (np_rng w) (events w)).

Definition log (level msg : string) : ST World unit :=
  modifyM (fun w => mkWorld (self w) (np_rng w) (events w ++ [Log level msg])%list).

Definition emit (e : Event) : ST World unit :=
  modifyM (fun w => mkWorld (self w) (np_rng w) (events w ++ [e])%list).

(** [np.random.seed(seed)]. *)
Definition np_random_seed (seed : option Z) : ST World unit :=
  modifyM (fun w => mkWorld (self w)
    (match seed with Some s => rng_of_seed s | None => os_entropy end) (events w)).

(** [sorted(s)] for a set of strings. *)
Definition sorted (s : gset string) : list string :=
  merge_sort String.le (set_order s).

Definition _create_label_id_dict (training_data : TrainingData) (attribute : Attribute)
    : gmap string nat :=
  dict_of_items ((fun p => (p.2, p.1)) <$>
    enumerate 0 (sorted (distinct_label_ids training_data attribute))).

Definition _create_tag_id_dict (training_data : TrainingData) : result (gmap string nat) :=
  names ← entity_names (entity_examples training_data);
  let distinct_tag_ids : gset string := list_to_set (omap id names) in
  let tag_id_dict : gmap string nat :=
    dict_of_items ((fun p => (p.2, p.1)) <$> enumerate 1 (sorted distinct_tag_ids)) in
  Ok (<["O" := 0%nat]> tag_id_dict).

Definition _create_label_data (training_data : TrainingData)
    (label_id_dict : gmap string nat) (attribute : Attribute)
    : result (gmap string (list Array)) :=
  let labels_idx_example :=
    (fun kv => (kv.2, _find_example_for_label kv.1 (intent_examples training_data) attribute))
      <$> map_to_list label_id_dict in
  let labels_idx_example := merge_sort idx_le labels_idx_example in
  labels_example ← mapM (fun p : nat * option Message =>
      match p.2 with
      | Some example => Ok example
      | None => Raise (AttributeError "get")
      end) labels_idx_example;
  features ← (if _check_labels_features_exist labels_example attribute
              then _extract_labels_precomputed_features labels_example attribute
              else Ok (_compute_default_label_features labels_example));
  Ok (add_mask "label_mask" "label_features" (add_features "label_features" features ∅)).

Definition _use_default_label_features (self : Classifier) (label_ids : list nat)
    : result (list Array) :=
  match _label_data self with
  | None => Raise (AttributeError "get")
  | Some label_data =>
      a ← index0 (md_get "label_features" label_data);
      rows ← mapM (array_row a) label_ids;
      Ok [array_like a rows]
  end.

(** The lists filled by the loop of [_create_model_data]. *)
Record Collected := mkCollected {
  X_sparse : list Features;
  X_dense : list Features;
  Y_sparse : list Features;
  Y_dense : list Features;
  label_ids : list nat;
  tag_ids : list (list nat)
}.

Fixpoint _create_model_data_loop (self : Classifier) (training_data : list Message)
    (label_id_dict tag_id_dict : option (gmap string nat))
    (label_attribute : option Attribute) (acc : Collected) : result Collected :=
  match training_data with
  | [] => Ok acc
  | e :: rest =>
      '(_sparse, _dense) ← _extract_and_add_features e TEXT_ATTRIBUTE;
      let acc := mkCollected (append_some (X_sparse acc) _sparse)
                   (append_some (X_dense acc) _dense)
                   (Y_sparse acc) (Y_dense acc) (label_ids acc) (tag_ids acc) in
      acc ←
        match label_attribute with
        | Some a =>
            if truthy (get_attribute e a) then
              '(_sparse, _dense) ← _extract_and_add_features e a;
              let acc := mkCollected (X_sparse acc) (X_dense acc)
                           (append_some (Y_sparse acc) _sparse)
                           (append_some (Y_dense acc) _dense)
                           (label_ids acc) (tag_ids acc) in
              match label_id_dict with
              | Some d =>
                  if bool_decide (d = ∅) then Ok acc
                  else
                    id ← getitem d (default "" (get_attribute e a));
                    Ok (mkCollected (X_sparse acc) (X_dense acc) (Y_sparse acc)
                          (Y_dense acc) (label_ids acc ++ [id])%list (tag_ids acc))
              | None => Ok acc
              end
            else Ok acc
        | None => Ok acc
        end;
      acc ←
        match tag_id_dict with
        | Some d =>
            if ENTITY_RECOGNITION (component_config self) && negb (bool_decide (d = ∅))
            then
              match tokens e with
              | None => Raise (TypeError "'NoneType' object is not iterable")
              | Some ts =>
                  _tags ← mapM (fun t =>
                            getitem d (determine_token_labels t (entities e))) ts;
                  Ok (mkCollected (X_sparse acc) (X_dense acc) (Y_sparse acc)
                        (Y_dense acc) (label_ids acc) (tag_ids acc ++ [_tags])%list)
              end
            else Ok acc
        | None => Ok acc
        end;
      _create_model_data_loop self rest label_id_dict tag_id_dict label_attribute acc
  end.

Definition _create_model_data (self : Classifier) (training_data : list Message)
    (label_id_dict tag_id_dict : option (gmap string nat))
    (label_attribute : option Attribute) : result (gmap string (list Array)) :=
  acc ← _create_model_data_loop self training_data label_id_dict tag_id_dict
          label_attribute (mkCollected [] [] [] [] [] []);
  let model_data : gmap string (list Array) :=
    add_features "label_features" [SparseArray (Y_sparse acc); DenseArray (Y_dense acc)]
      (add_features "text_features" [SparseArray (X_sparse acc); DenseArray (X_dense acc)] ∅) in
  model_data ←
    (if bool_decide (is_Some label_attribute) && feature_not_exists "label_features" model_data
     then
       features ← _use_default_label_features self (label_ids acc);
       Ok (add_features "label_features" features model_data)
     else Ok model_data);
  let model_data := add_features "label_ids" [LabelIdArray (label_ids acc)] model_data in
  let model_data := add_features "tag_ids" [TagIdArray (tag_ids acc)] model_data in
  let model_data := add_mask "text_mask" "text_features" model_data in
  let model_data := add_mask "label_mask" "label_features" model_data in
  Ok model_data.

Definition check_input_dimension_consistency (self : Classifier)
    (model_data : gmap string (list Array)) : result unit :=
  if SHARE_HIDDEN_LAYERS (component_config self) then
    let num_text_features := get_feature_dimension "text_features" model_data in
    let num_intent_features := get_feature_dimension "label_features" model_data in
    if bool_decide (num_text_features = num_intent_features) then Ok tt
    else Raise (ValueError
      "If embeddings are shared text features and label features must coincide. Check the output dimensions of previous components.")
  else Ok tt.

Definition preprocess_train_data (training_data : TrainingData)
    : ST World (gmap string (list Array)) :=
  let label_id_dict := _create_label_id_dict training_data INTENT_ATTRIBUTE in
  modify_self (set_inverted_label_dict (Some (invert_dict label_id_dict))) ;;;
  label_data <~ liftM (fun _ =>
    _create_label_data training_data label_id_dict INTENT_ATTRIBUTE) ;;
  modify_self (set__label_data (Some label_data)) ;;;
  tag_id_dict <~ liftM (fun _ => _create_tag_id_dict training_data) ;;
  modify_self (set_inverted_tag_dict (Some (invert_dict tag_id_dict))) ;;;
  model_data <~ liftM (fun w =>
    _create_model_data (self w) (training_examples training_data)
      (Some label_id_dict) (Some tag_id_dict) (Some INTENT_ATTRIBUTE)) ;;
  modify_self (fun s => set_num_tags (size (default ∅ (inverted_tag_dict s))) s) ;;;
  liftM (fun w => check_input_dimension_consistency (self w) model_data) ;;;
  retM model_data.

(** Modelled from the spec: [RasaModel.fit] (defined in
    [rasa.utils.tensorflow.tf_models]), sections 4.1 and 4.6: for each epoch
    the batch size is interpolated and the batches are drawn by the
    configured strategy from the process-wide random generator.  A batch is
    the list of the indices of its examples. *)
Fixpoint fit_epochs (g : rng) (model_data : gmap string (list Array))
    (batch_sizes : list nat) (batch_strategy : string) (epochs : nat)
    (remaining epoch : nat) : list (list (list nat)) * rng :=
  match remaining with
  | O => ([], g)
  | S remaining' =>
      let '(batches, g) :=
        iter_batches g model_data (linear_batch_size epoch epochs batch_sizes)
          batch_strategy in
      let '(rest, g) :=
        fit_epochs g model_data batch_sizes batch_strategy epochs remaining' (S epoch) in
      (batches :: rest, g)
  end.

(** Modelled from the spec: the call [self.model.fit(...)] of [train],
    section 4.6: it runs the epochs on the generator state left by
    [np.random.seed] and leaves the batches it drew in the event log. *)
Definition fit (model_data : gmap string (list Array)) (epochs : Z)
    (batch_sizes : list nat) (eval_num_examples eval_num_epochs : Z)
    (batch_strategy : string) (random_seed : option Z) : ST World unit :=
  fun w =>
    let n := Z.to_nat epochs in
    let '(batches, g) :=
      fit_epochs (np_rng w) model_data batch_sizes batch_strategy n n 0 in
    (mkWorld (self w) g
       (events w ++ [Fit epochs batch_sizes eval_num_examples eval_num_epochs
                       batch_strategy random_seed batches])%list,
     Ok tt).

Definition train (training_data : TrainingData) : ST World unit :=
  log "DEBUG" "Started training embedding classifier." ;;;
  config <~ liftM (fun w => Ok (component_config (self w))) ;;
  np_random_seed (RANDOM_SEED config) ;;;
  model_data <~ preprocess_train_data training_data ;;
  config <~ liftM (fun w => Ok (component_config (self w))) ;;
  if INTENT_CLASSIFICATION config && negb (_check_enough_labels model_data) then
    log "ERROR"
      "Can not train intent classifier. Need at least 2 different classes. Skipping training of classifier."
  else
    modify_self (set_data_example
      (Some (fmap (M := gmap string) (fmap (M := list) array_take1) model_data))) ;;;
    config <~ liftM (fun w => Ok (component_config (self w))) ;;
    emit (TfSeed (RANDOM_SEED config)) ;;;
    let model_data_signature := get_signature model_data in
    diet <~ liftM (fun w =>
      DIET prepare_batch batch_to_model_data_format base model_data_signature
        (default ∅ (_label_data (self w)))
        (default ∅ (inverted_tag_dict (self w)))
        (component_config (self w))) ;;
    modify_self (set_model (Some diet)) ;;;
    config <~ liftM (fun w => Ok (component_config (self w))) ;;
    fit model_data (EPOCHS config) (BATCH_SIZES config) (EVAL_NUM_EXAMPLES config)
      (EVAL_NUM_EPOCHS config) (BATCH_STRATEGY config) (RANDOM_SEED config).

(** [_predict]: [None] without a model or a prediction function. *)
Definition _predict (self : Classifier) (message : Message) : result (option Out) :=
  match model self, predict_func self with
  | Some _, Some predict_func =>
      model_data ← _create_model_data self [message] None None None;
      let batch_in := first_batch model_data in
      out ← predict_func batch_in;
      Ok (Some out)
  | _, _ => Ok None
  end.

(** [self.inverted_label_dict[k]] and [self.inverted_tag_dict[k]]. *)
Definition inverted_getitem (d : option (gmap nat string)) (k : nat) : result string :=
  match d with
  | None => Raise (TypeError "'NoneType' object is not subscriptable")
  | Some d => getitem_int d k
  end.

Definition _predict_label (out : option Out) : ST World (Label * list Label) :=
  let label := mkLabel None 0%Q in
  let label_ranking : list Label := [] in
  s <~ liftM (fun w => Ok (self w)) ;;
  match model s with
  | None =>
      log "ERROR"
        "There is no trained tf.session: component is either not trained or didn't receive enough training data." ;;;
      retM (label, label_ranking)
  | Some _ =>
      message_sim <~ liftM (fun _ => out_getitem out i_scores "i_scores") ;;
      let label_ids := reverse (argsort message_sim) in
      let message_sim := sort_reversed_view message_sim in
      match label_ids with
      | [] => retM (label, label_ranking)
      | first_id :: _ =>
          liftM (fun _ =>
            name0 ← inverted_getitem (inverted_label_dict s) first_id;
            confidence0 ← index0 message_sim;
            let label := mkLabel (Some name0) confidence0 in
            let ranking := take LABEL_RANKING_LENGTH (zip label_ids message_sim) in
            label_ranking ← mapM (fun p : nat * Q =>
                name_p ← inverted_getitem (inverted_label_dict s) p.1;
                Ok (mkLabel (Some name_p) p.2)) ranking;
            Ok (label, label_ranking))
      end
  end.

Definition _predict_entities (out : option Out) (message : Message)
    : ST World (list Entity) :=
  s <~ liftM (fun w => Ok (self w)) ;;
  match model s with
  | None =>
      log "ERROR"
        "There is no trained tf.session: component is either not trained or didn't receive enough training data" ;;;
      retM []
  | Some _ =>
      liftM (fun _ =>
        predictions ← out_getitem out e_ids "e_ids";
        first_prediction ← index0 predictions;
        tags ← mapM (inverted_getitem (inverted_tag_dict s)) first_prediction;
        converted ← _convert_tags_to_entities (text message)
                      (get_or_nil (tokens message)) tags;
        let extracted := add_extractor_name converted in
        Ok (get_or_nil (entities message) ++ extracted)%list)
  end.

(** [process] acts on the classifier's world and on the message. *)
Definition liftW {A} (m : ST World A) : ST (World * Message) A := fun s =>
  let '(w, r) := m s.1 in ((w, s.2), r).

Definition message_set (f : Message -> Message) : ST (World * Message) unit :=
  modifyM (fun s => (s.1, f s.2)).

Definition process : ST (World * Message) unit :=
  out <~ liftM (fun s => _predict (self s.1) s.2) ;;
  config <~ liftM (fun s => Ok (component_config (self s.1))) ;;
  (if INTENT_CLASSIFICATION config then
     r <~ liftW (_predict_label out) ;;
     message_set (set_intent r.1) ;;;
     message_set (set_intent_ranking r.2)
   else retM tt) ;;;
  config <~ liftM (fun s => Ok (component_config (self s.1))) ;;
  (if ENTITY_RECOGNITION config then
     entities <~ (fun s => liftW (_predict_entities out s.2) s) ;;
     message_set (set_entities entities)
   else retM tt).

End Classifier.

Arguments mkWorld {rng} self np_rng events.
Arguments self {rng} w.
Arguments np_rng {rng} w.
Arguments events {rng} w.

(** ** Concrete data used to exercise the development *)

Definition config_sharing_conflict : Config :=
  mkConfig [256; 128] [] true 256 2 4 "timing" 256 [64%nat; 256%nat] "balanced" 300 None
    (1 # 1000)%Q 512 20 20 20 "auto" "softmax" (8 # 10)%Q (-4 # 10)%Q true true
    (2 # 1000)%Q (8 # 10)%Q (2 # 10)%Q true 20 0 true true false false.

Definition tokens_hello_paris : list Token :=
  [mkToken "hello" 0 5; mkToken "paris" 6 11; mkToken "__CLS__" 12 19].

Definition entity_paris : Entity :=
  mkEntity (Some "city") 6 11 None (Some "paris").

Definition entity_prior : Entity :=
  mkEntity (Some "greeting") 0 5 (Some "RegexExtractor") (Some "hello").

Definition example_greet : Message :=
  mkMessage "hello paris" (Some "greet") (Some tokens_hello_paris) (Some [entity_paris])
    (Some (mkFeatures 3 7)) None None None None None ∅.

Definition example_bye : Message :=
  mkMessage "bye" (Some "bye") (Some [mkToken "bye" 0 3; mkToken "__CLS__" 4 11]) (Some [])
    (Some (mkFeatures 2 7)) None None None None None ∅.

(** A message that already carries an entity found by an earlier component. *)
Definition message_with_entity : Message :=
  mkMessage "hello paris" None (Some tokens_hello_paris) (Some [entity_prior])
    (Some (mkFeatures 3 7)) None None None None None ∅.

Definition corpus_two_intents : TrainingData :=
  mkTrainingData [example_greet; example_bye] [example_greet; example_bye] [example_greet].

Definition corpus_one_intent : TrainingData :=
  mkTrainingData [example_greet] [example_greet] [example_greet].

(** Stand-ins for the functions of other modules. *)
Definition outside_token_labels (t : Token) (es : option (list Entity)) : string := "O".

Definition name_extractor (es : list Entity) : list Entity :=
  (fun e => mkEntity (entity e) (start e) (end_ e)
              (Some "EmbeddingIntentClassifier") (value e)) <$> es.

Definition no_tensors (md : gmap string (list Array)) : list Tensor := [].

Definition grouped_by_signature (batch : list Tensor)
    (signature : gmap string (list FeatureSignature)) : gmap string (list BatchTensor) :=
  fmap (M := gmap string)
    (fmap (M := list) (fun fs => mkBatchTensor (is_sparse fs) (TInput "batch" 0)))
    signature.

Definition whole_data_batches (g : unit) (md : gmap string (list Array)) (size : nat)
    (strategy : string) : list (list nat) * unit :=
  ([seq 0 (length (match md_get "text_features" md with
                   | SparseArray rows :: _ | DenseArray rows :: _ => rows
                   | _ => []
                   end))], g).

(** The default configuration, shortened to two epochs, as the constructor
    leaves it. *)
Definition two_epoch_config : Config :=
  mkConfig [] [] false 256 2 4 "timing" 256 [64%nat; 256%nat] "balanced" 2 None
    (1 # 1000)%Q 512 20 20 20 "inner" "softmax" (8 # 10)%Q (-4 # 10)%Q true true
    (2 # 1000)%Q (8 # 10)%Q (2 # 10)%Q true 20 0 true true false false.

Definition fresh_classifier : Classifier :=
  mkClassifier two_epoch_config None None None None None None 0 None.

Definition fresh_world : World unit := mkWorld fresh_classifier tt [].

(** The world after training on the two-intent corpus. *)
Definition trained_world : World unit :=
  (train unit (fun _ => tt) tt elements outside_token_labels no_tensors
     grouped_by_signature ∅ whole_data_batches corpus_two_intents fresh_world).1.

(** ** Statements compared with the code *)

(** [lm_mask_bool] is a draw over the non-padding positions of [text_mask]:
    same shape, last axis of size one, and nothing selected on padding. *)
Definition draw_within (text_mask : list (list bool)) (lm_mask_bool : list (list (list bool)))
    : Prop :=
  Forall2 (Forall2 (fun valid cell => exists b : bool, cell = [b] /\ (b = true -> valid = true)))
    text_mask lm_mask_bool.

(** The masked-position guarantee read per sequence: every sequence with a
    non-padding token has a selected position. *)
Definition every_sequence_has_a_masked_position : Prop :=
  forall (text_mask : list (list bool)) (lm_mask_bool : list (list (list bool)))
         (selection : list (list bool)),
    draw_within text_mask lm_mask_bool ->
    _mask_loss_lm_mask_bool lm_mask_bool = Ok selection ->
    forall i valid, text_mask !! i = Some valid -> true ∈ valid ->
    exists row, selection !! i = Some row /\ true ∈ row.

(** A rank-3 tensor of shape [(batch, positions, 1)]. *)
Definition has_shape (t : list (list (list bool))) (batch positions : nat) : Prop :=
  length t = batch
  /\ Forall (fun row => length row = positions /\ Forall (fun cell => length cell = 1%nat) row) t.

(** [m] leaves attribute [k] as it was. *)
Definition frames {A} (k : string) (m : M A) : Prop :=
  forall self, (m self).1 !! k = self !! k.

(** The names [DIET.__init__] assigns. *)
Definition init_names : list string :=
  ["data_signature"; "tf_label_data"; "_num_tags"; "config"; "_tf_layers"; "training";
   "_optimizer"; "intent_acc"; "intent_loss"; "mask_loss"; "mask_acc"; "entity_loss";
   "entity_f1"; "all_labels_embed"; "batch_tuple_sizes"].

(** Data for one batch of two examples, and the DIET object built on it. *)
Definition example_label_data : gmap string (list Array) :=
  add_mask "label_mask" "label_features"
    (add_features "label_features" [DenseArray [mkFeatures 1 2; mkFeatures 1 2]] ∅).

Definition example_model_data : gmap string (list Array) :=
  add_mask "label_mask" "label_features"
    (add_mask "text_mask" "text_features"
       (add_features "tag_ids" [TagIdArray [[0; 0; 0]; [0; 0]]%nat]
          (add_features "label_ids" [LabelIdArray [1; 0]%nat]
             (add_features "label_features" [DenseArray [mkFeatures 1 2; mkFeatures 1 2]]
                (add_features "text_features"
                   [SparseArray [mkFeatures 3 7; mkFeatures 2 7]; DenseArray []] ∅))))).

Definition no_sizes (md : gmap string (list Array)) : gmap string nat := ∅.

Definition example_diet : obj :=
  match DIET no_tensors grouped_by_signature ∅ (get_signature example_model_data)
          example_label_data {[0%nat := "O"]} two_epoch_config with
  | Ok self => self
  | Raise _ => ∅
  end.

(** The object after [set_training_phase(False)] and [build_for_predict]. *)
Definition example_diet_for_predict : obj :=
  (run_method grouped_by_signature no_sizes (call_build_for_predict example_model_data)
     (run_method grouped_by_signature no_sizes (call_set_training_phase false)
        example_diet).1).1.

Definition example_encoded : Tensor * Tensor :=
  match predict_encode grouped_by_signature example_diet_for_predict [] with
  | Ok r => r
  | Raise _ => (TBool false, TBool false)
  end.

Definition is_fit (e : Event) : bool :=
  match e with
  | Fit _ _ _ _ _ _ _ => true
  | _ => false
  end.

(** The skip rule read as skipping the intent objective only: with intent
    classification and another objective enabled and fewer than two label
    ids, training still builds and fits a model. *)
Definition other_objectives_still_train : Prop :=
  forall (rng : Type) (rng_of_seed : Z -> rng) (os_entropy : rng)
         (set_order : gset string -> list string)
         (determine_token_labels : Token -> option (list Entity) -> string)
         (prepare_batch : gmap string (list Array) -> list Tensor)
         (batch_to_model_data_format :
            list Tensor -> gmap string (list FeatureSignature) ->
            gmap string (list BatchTensor))
         (base : obj)
         (iter_batches : rng -> gmap string (list Array) -> nat -> string ->
                         list (list nat) * rng)
         (td : TrainingData) (w : World rng) (md : gmap string (list Array)),
    (forall s, set_order s ≡ₚ elements s) ->
    INTENT_CLASSIFICATION (component_config (self w)) = true ->
    ENTITY_RECOGNITION (component_config (self w)) = true
    \/ MASKED_LM (component_config (self w)) = true ->
    (preprocess_train_data rng set_order determine_token_labels td w).2 = Ok md ->
    (count_unique_ids (md_get "label_ids" md) < 2)%nat ->
    let r := train rng rng_of_seed os_entropy set_order determine_token_labels
               prepare_batch batch_to_model_data_format base iter_batches td w in
    r.2 = Ok tt
    /\ is_Some (model (self r.1))
    /\ exists e, e ∈ events r.1 /\ is_fit e = true.

(** The model data prepared from the one-intent corpus. *)
Definition one_intent_model_data : gmap string (list Array) :=
  match (preprocess_train_data unit elements outside_token_labels corpus_one_intent
           fresh_world).2 with
  | Ok md => md
  | Raise _ => ∅
  end.

(** A classifier configured with a fixed seed, in two processes whose
    generators are in different states. *)
Definition seeded_config : Config :=
  mkConfig [] [] false 256 2 4 "timing" 256 [64%nat; 256%nat] "balanced" 2 (Some 42)
    (1 # 1000)%Q 512 20 20 20 "inner" "softmax" (8 # 10)%Q (-4 # 10)%Q true true
    (2 # 1000)%Q (8 # 10)%Q (2 # 10)%Q true 20 0 true true false false.

Definition seeded_classifier : Classifier :=
  mkClassifier seeded_config None None None None None None 0 None.

Definition reversed_elements (s : gset string) : list string := reverse (elements s).

Definition counting_batches (g : Z) (md : gmap string (list Array)) (size : nat)
    (strategy : string) : list (list nat) * Z :=
  ([[Z.to_nat g; size]], g + 1).

(** A classifier holding a model, a prediction function and the inverted
    label dictionary of the two-intent corpus. *)
Definition scoring_classifier : Classifier :=
  mkClassifier two_epoch_config (Some (<[1%nat := "greet"]> {[0%nat := "bye"]}))
    (Some {[0%nat := "O"]}) (Some example_diet)
    (Some (fun _ => Ok (mkOut (Some [(2 # 10)%Q; (7 # 10)%Q]) None)))
    None None 1 None.

(** ** Predicates used in the statements *)

(** An entity produced by the span loop over tokens [toks] and tags [tgs]. *)
Definition span_of (toks : list Token) (tgs : list string) (e : Entity) : Prop :=
  (exists tag, entity e = Some tag /\ tag ≠ "O" /\ tag ∈ tgs)
  /\ extractor e = Some "DIET"
  /\ (exists t, t ∈ toks /\ start e = tok_start t)
  /\ (exists t, t ∈ toks /\ end_ e = tok_end t).


(** [m] leaves the component [f] of the classifier as it was. *)
Definition keeps {rng X A} (f : Classifier -> X) (m : ST (World rng) A) : Prop :=
  forall w, f (self (m w).1) = f (self w).


(** [w'] is [w] with error log records appended, and nothing else changed. *)
Definition logged_errors {rng} (w w' : World rng) : Prop :=
  self w' = self w /\ np_rng w' = np_rng w
  /\ exists logs, events w' = (events w ++ logs)%list
                  /\ Forall (fun e => exists msg, e = Log "ERROR" msg) logs.

(** The entries of a message that [process] does not own: the text, the
    tokens and the features. *)
Definition upstream_fields (m : Message)
    : string * option (list Token)
      * (option Features * option Features * option Features * option Features) :=
  (text m, tokens m,
   (text_sparse_features m, text_dense_features m,
    intent_sparse_features m, intent_dense_features m)).

(** ** DIET: the training step *)

(** The calls [metric.update_state(value)] made so far: the name of the
    metric and the value passed. *)
Abbreviation Updates := (list (string * Tensor)).

(** [self.<a>.update_state(value)]. *)
Definition update_state (self : obj) (a : string) (value : Tensor) : ST Updates unit :=
  fun updates =>
    match getattr self a with
    | Ok (AMetric metric_name) => ((updates ++ [(metric_name, value)])%list, Ok tt)
    | Ok _ => (updates, Raise (AttributeError "update_state"))
    | Raise e => (updates, Raise e)
    end.

(** [self._tf_layers[k].<method>]: the layer whose method is called. *)
Definition tf_layer_method (self : obj) (k method_name : string) : result layer :=
  d ← get_tf_layers self;
  e ← getitem d k;
  match e with
  | Layer NoLayer | Layers _ => Raise (AttributeError method_name)
  | Layer l => Ok l
  end.

Definition _intent_loss (self : obj) (a b : Tensor) : result Tensor :=
  '(all_labels_embed, all_labels) ← _build_all_b self;
  l ← tf_sublayer self "embed" "text";
  a_embed ← call_layer l [a];
  l ← tf_sublayer self "embed" "label";
  b_embed ← call_layer l [b];
  l ← tf_layer self "loss_label";
  call_layer l [a_embed; b_embed; b; all_labels_embed; all_labels].

Definition _entity_loss (self : obj) (a c mask sequence_lengths : Tensor)
    : result (Tensor * Tensor) :=
  let sequence_lengths := TOp "sub" [sequence_lengths; TOp "one" []] in
  let c := TOp "cast_int32" [TOp "feature_0" [c]] in
  l ← tf_sublayer self "embed" "logits";
  logits ← call_layer l [a];
  _ ← tf_layer_method self "crf" "loss";
  let loss := TOp "crf_loss" [logits; c; sequence_lengths] in
  crf ← tf_layer self "crf";
  pred_ids ← call_layer crf [logits; sequence_lengths];
  let mask_bool := TOp "cast_bool" [TOp "feature_0" [mask]] in
  let c_masked := TOp "boolean_mask" [c; mask_bool] in
  let pred_ids_masked := TOp "boolean_mask" [pred_ids; mask_bool] in
  num_tags ← get_num_tags self;
  let c_masked_1 :=
    TOp ("one_hot_" +:+ pretty (num_tags - 1)) [TOp "sub" [c_masked; TOp "one" []]] in
  num_tags ← get_num_tags self;
  let pred_ids_masked_1 :=
    TOp ("one_hot_" +:+ pretty (num_tags - 1)) [TOp "sub" [pred_ids_masked; TOp "one" []]] in
  l ← tf_layer self "crf_f1_score";
  f1 ← call_layer l [c_masked_1; pred_ids_masked_1];
  Ok (loss, f1).

Section TrainingStep.

Variable batch_to_model_data_format :
  list Tensor -> gmap string (list FeatureSignature) -> gmap string (list BatchTensor).
(** The run-time value of a boolean tensor. *)
Variable mask_value : Tensor -> tensor3.

(** [_train_losses_scores]: the object is only read; the metrics are
    updated. *)
Definition _train_losses_scores (self : obj) (batch_in : list Tensor) : ST Updates unit :=
  signature <~ liftM (fun _ => get_data_signature self) ;;
  let tf_batch_data := batch_to_model_data_format batch_in signature in
  text_masks <~ liftM (fun _ => getitem tf_batch_data "text_mask") ;;
  mask_text <~ liftM (fun _ => index0 text_masks) ;;
  let mask_text := bt_tensor mask_text in
  let sequence_lengths :=
    TOp "cast_int32" [TOp "reduce_sum" [TOp "feature_0" [mask_text]]] in
  text_features <~ liftM (fun _ => getitem tf_batch_data "text_features") ;;
  config <~ liftM (fun _ => get_config self) ;;
  r <~ liftM (fun _ => _create_sequence self text_features mask_text "text"
                         (MASKED_LM config)) ;;
  let '(text_transformed, text_in, lm_mask_bool_text) := r in
  config <~ liftM (fun _ => get_config self) ;;
  (if MASKED_LM config then
     r <~ liftM (fun _ =>
            match lm_mask_bool_text with
            | Some lm_mask_bool_text =>
                _mask_loss self text_transformed text_in (mask_value lm_mask_bool_text) "text"
            | None => Raise (ValueError "None values not supported.")
            end) ;;
     update_state self "mask_loss" (TOp "getitem_0" [r]) ;;;
     update_state self "mask_acc" (TOp "getitem_1" [r])
   else retM tt) ;;;
  config <~ liftM (fun _ => get_config self) ;;
  (if INTENT_CLASSIFICATION config then
     let last_index :=
       TOp "maximum" [TOp "zero" []; TOp "sub" [sequence_lengths; TOp "one" []]] in
     let cls := TOp "gather_nd" [text_transformed; last_index] in
     label_features <~ liftM (fun _ => getitem tf_batch_data "label_features") ;;
     label_masks <~ liftM (fun _ => getitem tf_batch_data "label_mask") ;;
     label_mask <~ liftM (fun _ => index0 label_masks) ;;
     label <~ liftM (fun _ => _create_bow self label_features (bt_tensor label_mask)
                                "label") ;;
     r <~ liftM (fun _ => _intent_loss self cls label) ;;
     update_state self "intent_loss" (TOp "getitem_0" [r]) ;;;
     update_state self "intent_acc" (TOp "getitem_1" [r])
   else retM tt) ;;;
  config <~ liftM (fun _ => get_config self) ;;
  (if ENTITY_RECOGNITION config then
     tag_ids <~ liftM (fun _ => getitem tf_batch_data "tag_ids") ;;
     tags <~ liftM (fun _ => index0 tag_ids) ;;
     r <~ liftM (fun _ => _entity_loss self text_transformed (bt_tensor tags) mask_text
                            sequence_lengths) ;;
     update_state self "entity_loss" r.1 ;;;
     update_state self "entity_f1" r.2
   else retM tt).

End TrainingStep.

(** A group of batch entries fits the signature a model was constructed
    with when a sparse entry occurs only where the signature has one, so
    that the dense layer for the sparse entries of the group exists. *)
Definition fits (features : list BatchTensor) (signature : list FeatureSignature) : Prop :=
  existsb bt_sparse features = true -> existsb is_sparse signature = true.

(** The batch data holds features under [key] that fit [signature], and a
    mask under [mask_key]. *)
Definition has_features (batch : gmap string (list BatchTensor)) (key mask_key : string)
    (signature : list FeatureSignature) : Prop :=
  (exists features, batch !! key = Some features /\ fits features signature)
  /\ (exists mask masks, batch !! mask_key = Some (mask :: masks)).

(** The layers [_prepare_layers] installs. *)
Definition constructed_layers (config : Config) (num_tags : Z) (text label : layer)
    : gmap string layer_entry :=
  <["sparse_dropout" := Layer (SparseDropout (DROPRATE config))]> (
  <["sparse_to_dense" := Layers (<["label" := label]> {["text" := text]})]> (
  <["ffnn" := Layers (
     <["label" := ReluFfn (HIDDEN_LAYERS_SIZES_LABEL config) (DROPRATE config) (C2 config)
                    (if SHARE_HIDDEN_LAYERS config then "text_intent" else "label")]>
     {["text" := ReluFfn (HIDDEN_LAYERS_SIZES_TEXT config) (DROPRATE config) (C2 config)
                    (if SHARE_HIDDEN_LAYERS config then "text_intent" else "text")]})]> (
  <["transformer" := Layer (
     if 0 <? NUM_TRANSFORMER_LAYERS config then
       TransformerEncoder (NUM_TRANSFORMER_LAYERS config) (TRANSFORMER_SIZE config)
         (NUM_HEADS config) (TRANSFORMER_SIZE config * 4) (MAX_SEQ_LENGTH config)
         (C2 config) (DROPRATE config) (UNIDIRECTIONAL_ENCODER config) "text_encoder"
     else IdentityEncoder)]> (
  <["input_mask" := Layer InputMask]> (
  <["loss_mask" := Layer (dot_product_loss config)]> (
  <["loss_label" := Layer (dot_product_loss config)]> (
  <["embed" := Layers (
     <["text_mask" := Embed (EMBED_DIM config) (C2 config) "text_mask"
                        (Some (SIMILARITY_TYPE config))]> (
     <["text_token" := Embed (EMBED_DIM config) (C2 config) "text_token"
                         (Some (SIMILARITY_TYPE config))]> (
     <["text" := Embed (EMBED_DIM config) (C2 config) "text"
                   (Some (SIMILARITY_TYPE config))]> (
     <["label" := Embed (EMBED_DIM config) (C2 config) "label"
                    (Some (SIMILARITY_TYPE config))]> (
     {["logits" := Embed num_tags (C2 config) "logits" None]})))))]> (
  <["crf" := Layer (CRF num_tags (C2 config))]> (
  {["crf_f1_score" := Layer (F1Score (num_tags - 1) "micro")]}))))))))).

(** The two sparse-to-dense layers [_prepare_sequence_layers] creates from
    the data signature. *)
Definition sparse_dense_layers (config : Config)
    (data_signature : gmap string (list FeatureSignature)) : result (layer * layer) :=
  text_sig ← getitem data_signature "text_features";
  text ← _create_sparse_dense_layer text_sig "text" (C2 config) (DENSE_DIM_text config);
  label_sig ← getitem data_signature "label_features";
  label ← _create_sparse_dense_layer label_sig "label" (C2 config) (DENSE_DIM_label config);
  Ok (text, label).

(** ** Concrete data for the further properties *)

(** A corpus in which an entity is annotated with the name "O". *)
Definition entity_outside : Entity :=
  mkEntity (Some "O") 0 5 None (Some "hello").

Definition example_outside_entity : Message :=
  mkMessage "hello paris" (Some "greet") (Some tokens_hello_paris)
    (Some [entity_outside; entity_paris])
    (Some (mkFeatures 3 7)) None None None None None ∅.

Definition corpus_outside_entity : TrainingData :=
  mkTrainingData [example_outside_entity] [example_outside_entity] [example_outside_entity].

Definition span_paris : Entity :=
  mkEntity (Some "city") 6 11 (Some "DIET") (Some "paris").

Definition two_intents_label_dict : gmap string nat := <["greet" := 1%nat]> {["bye" := 0%nat]}.

Definition city_tag_dict : gmap string nat := <["O" := 0%nat]> {["city" := 1%nat]}.

(** The classifier after preprocessing the two-intent corpus. *)
Definition prepared_classifier : Classifier :=
  self (preprocess_train_data unit elements outside_token_labels corpus_two_intents
          fresh_world).1.

(** The model data built from its training examples. *)
Definition two_intents_model_data : gmap string (list Array) :=
  match _create_model_data outside_token_labels prepared_classifier
          [example_greet; example_bye] (Some two_intents_label_dict) (Some city_tag_dict)
          (Some INTENT_ATTRIBUTE) with
  | Ok md => md
  | Raise _ => ∅
  end.

(** The classifier constructed from the default configuration. *)
Definition default_classifier : Classifier :=
  match EmbeddingIntentClassifier__init__ defaults None None None None None with
  | Ok classifier => classifier
  | Raise _ => fresh_classifier
  end.

(** The two-epoch configuration with masked-LM training on, and the DIET
    object built with it. *)
Definition masked_lm_config : Config :=
  mkConfig [] [] false 256 2 4 "timing" 256 [64%nat; 256%nat] "balanced" 2 None
    (1 # 1000)%Q 512 20 20 20 "inner" "softmax" (8 # 10)%Q (-4 # 10)%Q true true
    (2 # 1000)%Q (8 # 10)%Q (2 # 10)%Q true 20 0 true true true false.

Definition masked_lm_diet : obj :=
  match DIET no_tensors grouped_by_signature ∅ (get_signature example_model_data)
          example_label_data {[0%nat := "O"]} masked_lm_config with
  | Ok self => self
  | Raise _ => ∅
  end.

(** A selection mask of one sequence with one position, taken as the
    run-time value of every boolean tensor. *)
Definition one_position_mask (t : Tensor) : tensor3 := [[[true]]].

(** The signature the example model was constructed with, and a batch
    grouped by it. *)
Definition example_signature : gmap string (list FeatureSignature) :=
  get_signature example_model_data.

Definition example_text_signature : list FeatureSignature :=
  default [] (example_signature !! "text_features").

Definition example_label_signature : list FeatureSignature :=
  default [] (example_signature !! "label_features").

(** * Properties *)

(** ** Generic facts about the Python helpers *)

Lemma bind_ok {A B} (m : result A) (f : A -> result B) (a : A) :
  m = Ok a -> m ≫= f = f a.
Proof. intros ->. reflexivity. Qed.

Lemma fold_insert_list_to_map `{Countable K} {V} (items : list (K * V)) (m : gmap K V) :
  fold_left (fun d kv => <[kv.1 := kv.2]> d) items m = list_to_map (reverse items) ∪ m.
Proof.
  revert m. induction items as [|[k v] items IH]; intros m; simpl.
  - by rewrite (left_id_L ∅ (∪)).
  - rewrite IH, reverse_cons, list_to_map_app. simpl.
    rewrite <- (assoc_L (∪)). f_equal.
    by rewrite <- insert_union_l, (left_id_L ∅ (∪)).
Qed.

Lemma dict_of_items_lookup `{Countable K} {V} (items : list (K * V)) k v :
  NoDup items.*1 -> dict_of_items items !! k = Some v <-> (k, v) ∈ items.
Proof.
  intros Hnd. unfold dict_of_items.
  rewrite fold_insert_list_to_map, (right_id_L ∅ (∪)).
  rewrite <- elem_of_list_to_map.
  - by rewrite elem_of_reverse.
  - by rewrite fmap_reverse, reverse_Permutation.
Qed.

Lemma invert_dict_lookup `{Countable K, Countable V} (d : gmap K V) k v :
  (forall k1 k2 w, d !! k1 = Some w -> d !! k2 = Some w -> k1 = k2) ->
  invert_dict d !! v = Some k <-> d !! k = Some v.
Proof.
  intros Hinj. unfold invert_dict.
  rewrite dict_of_items_lookup.
  - rewrite list_elem_of_fmap. split.
    + intros [[k' v'] [[= -> ->] Hin]]. by apply elem_of_map_to_list in Hin.
    + intros Hd. exists (k, v). split; [done|]. by apply elem_of_map_to_list.
  - rewrite <- list_fmap_compose.
    apply NoDup_fmap_2_strong; [|apply NoDup_map_to_list].
    intros [k1 v1] [k2 v2] H1%elem_of_map_to_list H2%elem_of_map_to_list Heq.
    simpl in Heq. subst v2. f_equal. eauto.
Qed.

Lemma enumerate_elem_of {A} (l : list A) (s i : nat) (x : A) :
  (i, x) ∈ enumerate s l <-> exists j, i = (s + j)%nat /\ l !! j = Some x.
Proof.
  revert s. induction l as [|y l IH]; intros s; simpl.
  - split; [by intros ?%elem_of_nil | by intros (j & _ & ?)].
  - rewrite elem_of_cons, IH. split.
    + intros [[= -> ->] | (j & -> & Hj)].
      * exists 0%nat. split; [lia | done].
      * exists (S j). split; [lia | done].
    + intros ([|j] & -> & Hj); simpl in Hj.
      * left. simplify_eq. f_equal. lia.
      * right. exists j. split; [lia | done].
Qed.

Lemma enumerate_snd {A} (l : list A) (s : nat) : (enumerate s l).*2 = l.
Proof. revert s. induction l; intros s; simpl; [done | by rewrite IHl]. Qed.

(** ** Configuration check *)

(** C8: constructing the classifier raises exactly when hidden-layer
    sharing is requested and the text and label hidden-layer-size lists
    differ; on every other configuration construction returns a classifier. *)
Theorem init_raises_iff_sharing_conflict (c : Config)
    (ild itd : option (gmap nat string)) (mdl : option obj)
    (pf : option (list Tensor -> result Out)) (bts : option (gmap string nat)) :
  (SHARE_HIDDEN_LAYERS c = true /\
   HIDDEN_LAYERS_SIZES_TEXT c ≠ HIDDEN_LAYERS_SIZES_LABEL c ->
   EmbeddingIntentClassifier__init__ c ild itd mdl pf bts =
     Raise (ValueError
       "If hidden layer weights are shared,hidden_layer_sizes for text and label must coincide."))
  /\
  (~ (SHARE_HIDDEN_LAYERS c = true /\
      HIDDEN_LAYERS_SIZES_TEXT c ≠ HIDDEN_LAYERS_SIZES_LABEL c) ->
   exists classifier, EmbeddingIntentClassifier__init__ c ild itd mdl pf bts = Ok classifier).
Proof.
  unfold EmbeddingIntentClassifier__init__, _check_config_parameters.
  split.
  - intros [-> Hne]. rewrite bool_decide_eq_false_2 by done. reflexivity.
  - intros Hno. destruct (SHARE_HIDDEN_LAYERS c) eqn:Hs; simpl.
    + rewrite bool_decide_eq_true_2; [simpl; eauto|].
      destruct (decide (HIDDEN_LAYERS_SIZES_TEXT c = HIDDEN_LAYERS_SIZES_LABEL c)); [done|].
      exfalso. apply Hno. done.
    + eauto.
Qed.

(** ** Entity span merging *)

(** C5: over five tokens tagged [O, PER, PER, O, LOC] the conversion returns
    exactly two spans: PER from the start of the second token to the end of
    the third, and LOC over the fifth token; each value is the slice of the
    text between the span's offsets. *)
Theorem convert_tags_O_PER_PER_O_LOC (text : string) (t0 t1 t2 t3 t4 : Token) :
  _convert_tags_to_entities text [t0; t1; t2; t3; t4] ["O"; "PER"; "PER"; "O"; "LOC"] =
  Ok [ mkEntity (Some "PER") (tok_start t1) (tok_end t2) (Some "DIET")
         (Some (py_slice text (tok_start t1) (tok_end t2)));
       mkEntity (Some "LOC") (tok_start t4) (tok_end t4) (Some "DIET")
         (Some (py_slice text (tok_start t4) (tok_end t4))) ].
Proof. reflexivity. Qed.

(** ** Label and tag dictionaries *)

Section Dictionaries.

Variable rng : Type.
Variable set_order : gset string -> list string.
Hypothesis set_order_perm : forall s, set_order s ≡ₚ elements s.
Variable determine_token_labels : Token -> option (list Entity) -> string.

Lemma sorted_Permutation (s : gset string) : sorted set_order s ≡ₚ elements s.
Proof. unfold sorted. by rewrite merge_sort_Permutation. Qed.

Lemma sorted_NoDup (s : gset string) : NoDup (sorted set_order s).
Proof. rewrite sorted_Permutation. apply NoDup_elements. Qed.

Lemma sorted_elem_of (s : gset string) (x : string) : x ∈ sorted set_order s <-> x ∈ s.
Proof. rewrite sorted_Permutation. apply elem_of_elements. Qed.

Lemma enumerated_dict_lookup (l : list string) (first : nat) (key : string) (idx : nat) :
  NoDup l ->
  dict_of_items ((fun p => (p.2, p.1)) <$> enumerate first l) !! key = Some idx
  <-> exists j, idx = (first + j)%nat /\ l !! j = Some key.
Proof.
  intros Hnd. rewrite dict_of_items_lookup.
  - rewrite <- enumerate_elem_of, list_elem_of_fmap. split.
    + by intros [[i x] [[= -> ->] Hin]].
    + intros Hin. by exists (idx, key).
  - rewrite <- list_fmap_compose.
    replace (fst ∘ (fun p : nat * string => (p.2, p.1)) <$> enumerate first l)
      with (enumerate first l).*2; [by rewrite enumerate_snd|].
    apply list_fmap_ext. by intros ? [].
Qed.

Lemma enumerated_dict_inj (l : list string) (first : nat) (k1 k2 : string) (w : nat) :
  NoDup l ->
  dict_of_items ((fun p => (p.2, p.1)) <$> enumerate first l) !! k1 = Some w ->
  dict_of_items ((fun p => (p.2, p.1)) <$> enumerate first l) !! k2 = Some w ->
  k1 = k2.
Proof.
  intros Hnd (j1 & -> & H1)%enumerated_dict_lookup (j2 & Heq & H2)%enumerated_dict_lookup;
    [|done..].
  assert (j1 = j2) as -> by lia. congruence.
Qed.

Lemma label_id_dict_lookup (td : TrainingData) (label : string) (idx : nat) :
  _create_label_id_dict set_order td INTENT_ATTRIBUTE !! label = Some idx
  <-> sorted set_order (distinct_label_ids td INTENT_ATTRIBUTE) !! idx = Some label.
Proof.
  unfold _create_label_id_dict. rewrite enumerated_dict_lookup by apply sorted_NoDup.
  split; [by intros (j & -> & ?) | intros ?; by exists idx].
Qed.

Lemma entity_names_total (examples : list Message) :
  (forall example, example ∈ examples -> is_Some (entities example)) ->
  exists names, entity_names examples = Ok names /\
    forall example es e, example ∈ examples -> entities example = Some es -> e ∈ es ->
      entity e ∈ names.
Proof.
  induction examples as [|ex examples IH]; intros Hall; simpl.
  - exists []. split; [done|]. by intros ??? ?%elem_of_nil.
  - destruct (Hall ex) as [es Hes]; [left|]. rewrite Hes.
    destruct IH as (names & -> & Hnames).
    { intros ??. apply Hall. by right. }
    simpl. eexists. split; [done|].
    intros example es' e [->|Hin]%elem_of_cons Hes' He; rewrite elem_of_app.
    + left. rewrite Hes in Hes'. simplify_eq. by apply list_elem_of_fmap_2.
    + right. eauto.
Qed.

Lemma tag_id_dict_inj (l : list string) (k1 k2 : string) (w : nat) :
  NoDup l ->
  let d := <["O" := 0%nat]> (dict_of_items ((fun p => (p.2, p.1)) <$> enumerate 1 l)) in
  d !! k1 = Some w -> d !! k2 = Some w -> k1 = k2.
Proof.
  intros Hnd d. unfold d. rewrite !lookup_insert.
  repeat case_decide; subst; try done.
  - intros [= <-] (j & ? & _)%enumerated_dict_lookup; [lia | done].
  - intros (j & ? & _)%enumerated_dict_lookup [= <-]; [lia | done].
  - by apply enumerated_dict_inj.
Qed.

(** C6: the label dictionary and its inverse built by preprocessing are
    inverse bijections defined on every observed label; so are the tag
    dictionary and its inverse, on every observed entity tag; and the
    inverted tag dictionary maps id 0 to the outside tag "O". *)
Theorem label_and_tag_dictionaries_are_bijections (td : TrainingData) (w : World rng) :
  let label_id_dict := _create_label_id_dict set_order td INTENT_ATTRIBUTE in
  (forall label idx,
     label_id_dict !! label = Some idx <-> invert_dict label_id_dict !! idx = Some label)
  /\ (forall example label,
        example ∈ intent_examples td -> intent example = Some label ->
        exists idx, label_id_dict !! label = Some idx
                    /\ invert_dict label_id_dict !! idx = Some label)
  /\ inverted_label_dict
       (self (preprocess_train_data rng set_order determine_token_labels td w).1)
     = Some (invert_dict label_id_dict)
  /\ ((forall example, example ∈ entity_examples td -> is_Some (entities example)) ->
      exists tag_id_dict,
        _create_tag_id_dict set_order td = Ok tag_id_dict
        /\ (forall tag idx,
              tag_id_dict !! tag = Some idx <-> invert_dict tag_id_dict !! idx = Some tag)
        /\ (forall example es e tag,
              example ∈ entity_examples td -> entities example = Some es -> e ∈ es ->
              entity e = Some tag ->
              exists idx, tag_id_dict !! tag = Some idx
                          /\ invert_dict tag_id_dict !! idx = Some tag)
        /\ invert_dict tag_id_dict !! 0%nat = Some "O"
        /\ (is_ok (preprocess_train_data rng set_order determine_token_labels td w).2 = true ->
            inverted_tag_dict
              (self (preprocess_train_data rng set_order determine_token_labels td w).1)
            = Some (invert_dict tag_id_dict))).
Proof.
  intros label_id_dict.
  assert (Hlabel : forall label idx,
    label_id_dict !! label = Some idx <-> invert_dict label_id_dict !! idx = Some label).
  { intros label idx. symmetry. apply invert_dict_lookup.
    intros k1 k2 v. apply enumerated_dict_inj, sorted_NoDup. }
  split; [exact Hlabel|]. split; [|split].
  - intros example label Hin Hintent.
    assert (label ∈ sorted set_order (distinct_label_ids td INTENT_ATTRIBUTE)) as Hs.
    { apply sorted_elem_of. unfold distinct_label_ids.
      apply elem_of_list_to_set, list_elem_of_omap. by exists example. }
    apply list_elem_of_lookup in Hs as [idx Hidx].
    exists idx. rewrite <- Hlabel. split; by apply label_id_dict_lookup.
  - unfold preprocess_train_data, bindM, liftM, modify_self, modifyM, retM. simpl.
    repeat (case_match; simpl; try done).
  - intros Hall.
    destruct (entity_names_total _ Hall) as (names & Hnames & Hcover).
    unfold _create_tag_id_dict. rewrite Hnames. simpl.
    eexists. split; [reflexivity|].
    set (tags := sorted set_order (list_to_set (omap id names))).
    assert (Hnd : NoDup tags) by apply sorted_NoDup.
    assert (Htag : forall tag idx,
      (<["O" := 0%nat]> (dict_of_items ((fun p => (p.2, p.1)) <$> enumerate 1 tags)))
        !! tag = Some idx
      <-> invert_dict (<["O" := 0%nat]>
            (dict_of_items ((fun p => (p.2, p.1)) <$> enumerate 1 tags))) !! idx = Some tag).
    { intros tag idx. symmetry. apply invert_dict_lookup.
      intros k1 k2 v. by apply tag_id_dict_inj. }
    split; [exact Htag|]. split; [|split].
    + intros example es e tag Hin Hes He Htagname.
      destruct (decide (tag = "O")) as [->|Hne].
      { exists 0%nat. rewrite <- Htag. by rewrite lookup_insert_eq. }
      assert (tag ∈ tags) as Hs.
      { apply sorted_elem_of, elem_of_list_to_set, list_elem_of_omap.
        exists (Some tag). split; [|done]. rewrite <- Htagname. eauto. }
      apply list_elem_of_lookup in Hs as [j Hj].
      exists (1 + j)%nat. rewrite <- Htag. rewrite lookup_insert_ne by done.
      split; apply enumerated_dict_lookup; eauto.
    + apply Htag. by rewrite lookup_insert_eq.
    + unfold preprocess_train_data, bindM, liftM, modify_self, modifyM, retM. simpl.
      unfold _create_tag_id_dict. rewrite Hnames. simpl.
      repeat (case_match; simpl; try done).
Qed.

End Dictionaries.

(** ** DIET: attributes assigned and attributes read *)

Lemma frames_retM {A} k (a : A) : frames k (retM a).
Proof. by intros self. Qed.

Lemma frames_liftM {A} k (r : obj -> result A) : frames k (liftM r).
Proof. by intros self. Qed.

Lemma frames_raiseM {A} k (e : exn) : frames k (raiseM (A := A) e).
Proof. by intros self. Qed.

Lemma frames_bindM {A B} k (m : M A) (f : A -> M B) :
  frames k m -> (forall a, frames k (f a)) -> frames k (bindM m f).
Proof.
  intros Hm Hf self. unfold bindM. specialize (Hm self).
  destruct (m self) as [self' [a|e]]; simpl in *; [|done].
  by rewrite Hf.
Qed.

Lemma frames_setattr k a v : a ≠ k -> frames k (setattr a v).
Proof. intros Hne self. unfold setattr, modifyM. simpl. by rewrite lookup_insert_ne. Qed.

Lemma bindM_setattr {B} a v (f : unit -> M B) (self : obj) :
  bindM (setattr a v) f self = f tt (<[a := v]> self).
Proof. reflexivity. Qed.

Lemma frames_set_layer k key entry : "_tf_layers" ≠ k -> frames k (set_layer key entry).
Proof.
  intros Hne. unfold set_layer.
  apply frames_bindM; [apply frames_liftM | intros d; by apply frames_setattr].
Qed.

Lemma frames_set_sublayer k key sub l : "_tf_layers" ≠ k -> frames k (set_sublayer key sub l).
Proof.
  intros Hne. unfold set_sublayer.
  apply frames_bindM; [apply frames_liftM | intros d].
  apply frames_bindM; [apply frames_liftM | intros [?|g]].
  - apply frames_raiseM.
  - by apply frames_setattr.
Qed.

(** Membership of a literal name in a literal list of names, and its
    negation. *)
Ltac name_in :=
  unfold init_names; repeat first [apply list_elem_of_here | apply list_elem_of_further].
Ltac name_notin :=
  let H := fresh "Hin" in
  unfold init_names; intros H;
  repeat (apply elem_of_cons in H as [H|H]; [discriminate H|]);
  by apply elem_of_nil in H.

Lemma frames__prepare_layers k : "_tf_layers" ≠ k -> frames k _prepare_layers.
Proof.
  intros Hne.
  unfold _prepare_layers, _prepare_sequence_layers, _prepare_mask_lm_layers,
    _prepare_intent_classification_layers, _prepare_entity_recognition_layers.
  repeat first
    [ apply frames_retM | apply frames_liftM | apply frames_raiseM
    | apply frames_setattr; exact Hne
    | apply frames_set_layer; exact Hne
    | apply frames_set_sublayer; exact Hne
    | apply frames_bindM; [|intros ?] ].
Qed.

Section DIETProperties.

Variable prepare_batch : gmap string (list Array) -> list Tensor.
Variable batch_to_model_data_format :
  list Tensor -> gmap string (list FeatureSignature) -> gmap string (list BatchTensor).
Variable batch_tuple_sizes : gmap string (list Array) -> gmap string nat.

Local Abbreviation init :=
  (DIET__init__ prepare_batch batch_to_model_data_format).
Local Abbreviation diet_predict := (predict batch_to_model_data_format).
Local Abbreviation diet_predict_encode := (predict_encode batch_to_model_data_format).
Local Abbreviation diet_reachable := (reachable batch_to_model_data_format batch_tuple_sizes).
Local Abbreviation diet_run := (run_method batch_to_model_data_format batch_tuple_sizes).

Lemma frames_init k ds ld itd cfg : k ∉ init_names -> frames k (init ds ld itd cfg).
Proof.
  intros Hk. unfold DIET__init__.
  assert (Hne : forall a, a ∈ init_names -> a ≠ k) by (intros a Ha ->; done).
  repeat first
    [ apply frames__prepare_layers; apply Hne; name_in
    | apply frames_setattr; apply Hne; name_in
    | apply frames_bindM; [|intros ?] ].
Qed.

Lemma init_config ds ld itd cfg base :
  (init ds ld itd cfg base).1 !! "config" = Some (AConfig cfg).
Proof.
  unfold DIET__init__.
  do 4 (rewrite bindM_setattr; cbv beta).
  match goal with
  | |- (?rest ?s).1 !! _ = _ =>
      assert (Hf : frames "config" rest); [|rewrite Hf]
  end.
  - repeat first
      [ apply frames__prepare_layers; discriminate
      | apply frames_setattr; discriminate
      | apply frames_bindM; [|intros ?] ].
  - by rewrite lookup_insert_eq.
Qed.

Lemma frames_run_method k m :
  k ∉ ["training"; "batch_tuple_sizes"; "all_labels_embed"; "data_signature"] ->
  frames k (diet_run m).
Proof.
  intros Hk.
  assert (Hne : forall a,
    a ∈ ["training"; "batch_tuple_sizes"; "all_labels_embed"; "data_signature"] -> a ≠ k)
    by (intros a Ha ->; done).
  destruct m; unfold run_method, set_training_phase, build_for_predict;
    repeat first
      [ apply frames_retM | apply frames_liftM
      | apply frames_setattr; apply Hne; name_in
      | apply frames_bindM; [|intros ?] ].
Qed.

Lemma reachable_frames k self0 self :
  k ∉ ["training"; "batch_tuple_sizes"; "all_labels_embed"; "data_signature"] ->
  diet_reachable self0 self -> self !! k = self0 !! k.
Proof.
  intros Hk. induction 1 as [|self m _ IH]; [done|].
  by rewrite frames_run_method.
Qed.

Lemma DIET_frames k base ds ld itd cfg self0 :
  k ∉ init_names ->
  DIET prepare_batch batch_to_model_data_format base ds ld itd cfg = Ok self0 ->
  self0 !! k = base !! k.
Proof.
  intros Hk. unfold DIET. pose proof (frames_init k ds ld itd cfg Hk base) as Hf.
  destruct (init ds ld itd cfg base) as [self [[]|e]]; [|done].
  by intros [= <-].
Qed.

Lemma DIET_config base ds ld itd cfg self0 :
  DIET prepare_batch batch_to_model_data_format base ds ld itd cfg = Ok self0 ->
  get_config self0 = Ok cfg.
Proof.
  unfold DIET. pose proof (init_config ds ld itd cfg base) as Hc.
  destruct (init ds ld itd cfg base) as [self [[]|e]]; [|done].
  intros [= <-]. unfold get_config, getattr. simpl in Hc. by rewrite Hc.
Qed.

Lemma predict_without__embed (self : obj) (cfg : Config) (batch_in : list Tensor) :
  self !! "_embed" = None ->
  get_config self = Ok cfg ->
  INTENT_CLASSIFICATION cfg = true \/ ENTITY_RECOGNITION cfg = true ->
  is_ok (diet_predict self batch_in) = false
  /\ (forall r, diet_predict_encode self batch_in = Ok r ->
                diet_predict self batch_in = Raise (AttributeError "_embed")).
Proof.
  intros Hembed Hcfg Henabled. unfold predict.
  assert (Hattr : forall k, attr_layer self "_embed" k = Raise (AttributeError "_embed")).
  { intros k. unfold attr_layer, getattr. by rewrite Hembed. }
  destruct (diet_predict_encode self batch_in) as [[text_transformed sequence_lengths]|e];
    simpl; [|split; [done | by intros r [=]]].
  rewrite Hcfg. simpl.
  destruct (INTENT_CLASSIFICATION cfg) eqn:Hic.
  - rewrite !Hattr. simpl. split; [done | by intros].
  - simpl.
    destruct Henabled as [?|Her]; [done|]. rewrite Her, !Hattr. simpl.
    split; [done | by intros].
Qed.

(** C1: on a [DIET] object built over a base object that does not define
    them, [_embed], [_loss_label] and [_crf] stay unassigned whatever
    operations are applied; with intent classification or entity recognition
    enabled, [predict] never returns a result, and on every batch its
    encoder prefix accepts it stops at the lookup of [_embed]. *)
Theorem predict_reads_unassigned_attributes (base self0 self : obj)
    (ds : gmap string (list FeatureSignature)) (ld : gmap string (list Array))
    (itd : gmap nat string) (cfg : Config) (batch_in : list Tensor) :
  base !! "_embed" = None ->
  base !! "_loss_label" = None ->
  base !! "_crf" = None ->
  DIET prepare_batch batch_to_model_data_format base ds ld itd cfg = Ok self0 ->
  diet_reachable self0 self ->
  INTENT_CLASSIFICATION cfg = true \/ ENTITY_RECOGNITION cfg = true ->
  (self !! "_embed" = None /\ self !! "_loss_label" = None /\ self !! "_crf" = None)
  /\ is_ok (diet_predict self batch_in) = false
  /\ (forall r, diet_predict_encode self batch_in = Ok r ->
                diet_predict self batch_in = Raise (AttributeError "_embed")).
Proof.
  intros Hembed Hloss Hcrf Hinit Hreach Henabled.
  assert (H1 : self !! "_embed" = None).
  { rewrite (reachable_frames "_embed" self0 self), (DIET_frames "_embed" base ds ld itd cfg self0);
      [done | name_notin | done | name_notin | done]. }
  assert (H2 : self !! "_loss_label" = None).
  { rewrite (reachable_frames "_loss_label" self0 self),
      (DIET_frames "_loss_label" base ds ld itd cfg self0);
      [done | name_notin | done | name_notin | done]. }
  assert (H3 : self !! "_crf" = None).
  { rewrite (reachable_frames "_crf" self0 self), (DIET_frames "_crf" base ds ld itd cfg self0);
      [done | name_notin | done | name_notin | done]. }
  split; [done|].
  apply (predict_without__embed self cfg); [done| |done].
  apply DIET_config in Hinit. unfold get_config, getattr in *.
  rewrite (reachable_frames "config" self0 self); [done | name_notin | done].
Qed.

End DIETProperties.

(** ** Confidence ranking *)

#[local] Instance score_le_trans : Transitive score_le.
Proof.
  intros x y z. unfold score_le. rewrite !Qle_bool_iff. apply Qle_trans.
Qed.

#[local] Instance score_le_total : Total score_le.
Proof.
  intros x y. unfold score_le. rewrite !Qle_bool_iff.
  destruct (Qlt_le_dec x y) as [Hlt|Hle]; [left; by apply Qlt_le_weak | by right].
Qed.

Lemma mapM_result_ok {A B} (f : A -> result B) (g : A -> B) (l : list A) :
  (forall x, x ∈ l -> f x = Ok (g x)) -> mapM f l = Ok (g <$> l).
Proof.
  induction l as [|x l IH]; intros Hf; simpl; [done|].
  rewrite (Hf x) by left. simpl. rewrite IH; [done|].
  intros y Hy. apply Hf. by right.
Qed.

Lemma argsort_Permutation (a : list Q) : argsort a ≡ₚ seq 0 (length a).
Proof. unfold argsort. apply merge_sort_Permutation. Qed.

Lemma argsort_length (a : list Q) : length (argsort a) = length a.
Proof. by rewrite argsort_Permutation, length_seq. Qed.

Lemma argsort_bound (a : list Q) (i : nat) : i ∈ argsort a -> (i < length a)%nat.
Proof. rewrite argsort_Permutation, elem_of_seq. lia. Qed.

Lemma sort_reversed_view_length (a : list Q) : length (sort_reversed_view a) = length a.
Proof.
  unfold sort_reversed_view.
  by rewrite length_reverse, merge_sort_Permutation, length_reverse.
Qed.

Lemma sort_reversed_view_descending (a : list Q) :
  StronglySorted (flip score_le) (sort_reversed_view a).
Proof.
  unfold sort_reversed_view. apply Sorted_StronglySorted; [apply _|].
  apply Sorted_reverse, Sorted_merge_sort. apply _.
Qed.

Lemma StronglySorted_take {A} (R : relation A) (n : nat) (l : list A) :
  StronglySorted R l -> StronglySorted R (take n l).
Proof.
  intros Hs. rewrite <- (take_drop n l) in Hs. by apply StronglySorted_app_1_l in Hs.
Qed.

Lemma StronglySorted_weaken {A} (R1 R2 : relation A) (l : list A) :
  (forall x y, R1 x y -> R2 x y) -> StronglySorted R1 l -> StronglySorted R2 l.
Proof.
  intros Himpl. induction 1 as [|x l Hs IH Hall]; constructor; [done|].
  eapply Forall_impl; [exact Hall | auto].
Qed.

Lemma StronglySorted_fmap_inv {A B} (R : relation B) (f : A -> B) (l : list A) :
  StronglySorted R (f <$> l) -> StronglySorted (fun x y => R (f x) (f y)) l.
Proof.
  induction l as [|x l IH]; simpl; intros Hs; [constructor|].
  apply StronglySorted_inv in Hs as [Hs Hall]. constructor; [by apply IH|].
  by rewrite Forall_fmap in Hall.
Qed.

Section Ranking.

Variable rng : Type.
Variable LABEL_RANKING_LENGTH : nat.

(** C9: on a non-empty score vector [_predict_label] returns a top intent
    and a ranking; the ranking is in non-increasing order of confidence, has
    at most [LABEL_RANKING_LENGTH] entries, and (the cap being positive)
    starts with the top intent. *)
Theorem intent_ranking_sorted_and_capped (w : World rng) (out : Out)
    (scores : list Q) (d : gmap nat string) (m : obj) :
  model (self w) = Some m ->
  inverted_label_dict (self w) = Some d ->
  i_scores out = Some scores ->
  scores ≠ [] ->
  (forall i, (i < length scores)%nat -> is_Some (d !! i)) ->
  exists label ranking,
    _predict_label rng LABEL_RANKING_LENGTH (Some out) w = (w, Ok (label, ranking))
    /\ StronglySorted (fun a b => (confidence b <= confidence a)%Q) ranking
    /\ (length ranking <= LABEL_RANKING_LENGTH)%nat
    /\ ((0 < LABEL_RANKING_LENGTH)%nat -> head ranking = Some label).
Proof.
  intros Hm Hd Hs Hne Hcover.
  unfold _predict_label, bindM, liftM, retM. simpl. rewrite Hm. simpl. rewrite Hs. simpl.
  pose proof (argsort_length scores) as Hlen.
  pose proof (sort_reversed_view_length scores) as Hlen'.
  destruct (reverse (argsort scores)) as [|first_id ids] eqn:Hids.
  { apply (f_equal length) in Hids. rewrite length_reverse, Hlen in Hids.
    destruct scores; [done | discriminate]. }
  assert (Hin : forall i, i ∈ first_id :: ids -> is_Some (d !! i)).
  { intros i Hi. apply Hcover, argsort_bound.
    rewrite <- Hids, elem_of_reverse in Hi. exact Hi. }
  rewrite Hd. simpl.
  destruct (Hin first_id) as [name0 Hname0]; [left|].
  assert (Hget0 : getitem_int d first_id = Ok name0).
  { unfold getitem_int. by rewrite Hname0. }
  rewrite Hget0. simpl.
  destruct (sort_reversed_view scores) as [|conf0 confs] eqn:Hsorted.
  { simpl in Hlen'. destruct scores; [done | discriminate]. }
  simpl.
  set (ranking := take LABEL_RANKING_LENGTH (zip (first_id :: ids) (conf0 :: confs))).
  rewrite (mapM_result_ok _ (fun p : nat * Q => mkLabel (d !! p.1) p.2) ranking).
  2:{ intros [i c] Hp. simpl.
      assert (i ∈ first_id :: ids) as Hi.
      { apply subseteq_take in Hp. by apply elem_of_zip_l in Hp. }
      destruct (Hin i Hi) as [n Hn]. unfold getitem_int. by rewrite Hn. }
  simpl. eexists _, _. split; [reflexivity|]. split; [|split].
  - apply (StronglySorted_fmap_inv (fun x y => (y <= x)%Q) confidence).
    rewrite <- list_fmap_compose.
    replace (confidence ∘ (fun p : nat * Q => mkLabel (d !! p.1) p.2) <$> ranking)
      with (ranking.*2) by (apply list_fmap_ext; by intros ? []).
    unfold ranking. rewrite fmap_take. apply StronglySorted_take.
    rewrite snd_zip.
    + pose proof (sort_reversed_view_descending scores) as Hdesc.
      rewrite Hsorted in Hdesc.
      eapply StronglySorted_weaken; [|exact Hdesc].
      intros x y. unfold flip, score_le. by rewrite Qle_bool_iff.
    + apply (f_equal length) in Hids.
      rewrite length_reverse, Hlen in Hids. simpl in *. lia.
  - rewrite length_fmap. unfold ranking. rewrite length_take. lia.
  - intros Hpos. unfold ranking.
    destruct LABEL_RANKING_LENGTH as [|n]; [lia|]. simpl. by rewrite Hname0.
Qed.

End Ranking.

(** ** Inference without a usable model *)

Section Process.

Variable rng : Type.
Variable determine_token_labels : Token -> option (list Entity) -> string.
Variable add_extractor_name : list Entity -> list Entity.
Variable LABEL_RANKING_LENGTH : nat.
Variable first_batch : gmap string (list Array) -> list Tensor.

Local Abbreviation run_process :=
  (process rng determine_token_labels add_extractor_name LABEL_RANKING_LENGTH first_batch).

(** Without a model, [process] returns normally: the neutral intent and an
    empty ranking when intent classification is on, and an empty entity list
    when entity recognition is on. *)
Lemma process_without_model (w : World rng) (message : Message) :
  model (self w) = None ->
  let r := run_process (w, message) in
  r.2 = Ok tt
  /\ (INTENT_CLASSIFICATION (component_config (self w)) = true ->
      out_intent r.1.2 = Some (mkLabel None 0%Q) /\ out_intent_ranking r.1.2 = Some [])
  /\ (ENTITY_RECOGNITION (component_config (self w)) = true ->
      entities r.1.2 = Some []).
Proof.
  intros Hm.
  cbv [process bindM liftM liftW message_set modifyM retM _predict _predict_label
    _predict_entities log]; simpl.
  rewrite Hm. simpl.
  destruct (INTENT_CLASSIFICATION (component_config (self w))) eqn:Hic;
    simpl; rewrite ?Hm; simpl;
    destruct (ENTITY_RECOGNITION (component_config (self w))) eqn:Her;
    simpl; rewrite ?Hm; simpl; repeat split; try done.
Qed.

(** With a model but no prediction function, [_predict] returns [None] and
    the first enabled head raises [TypeError] when it subscripts it. *)
Lemma process_without_predict_func (w : World rng) (message : Message) (m : obj) :
  model (self w) = Some m ->
  predict_func (self w) = None ->
  INTENT_CLASSIFICATION (component_config (self w)) = true
  \/ ENTITY_RECOGNITION (component_config (self w)) = true ->
  (run_process (w, message)).2 = Raise (TypeError "'NoneType' object is not subscriptable").
Proof.
  intros Hm Hp Hcfg.
  cbv [process bindM liftM liftW message_set modifyM retM _predict _predict_label
    _predict_entities log]; simpl.
  rewrite Hm, Hp. simpl.
  destruct (INTENT_CLASSIFICATION (component_config (self w))) eqn:Hic;
    simpl; rewrite ?Hm; simpl; [done|].
  destruct Hcfg as [?|Her]; [done|]. rewrite Her. simpl. rewrite Hm. done.
Qed.

Lemma _predict_entities_appends (w w' : World rng) (out : option Out)
    (message : Message) (m : obj) (es : list Entity) :
  model (self w) = Some m ->
  _predict_entities rng add_extractor_name out message w = (w', Ok es) ->
  w' = w /\ exists extracted, es = (get_or_nil (entities message) ++ extracted)%list.
Proof.
  intros Hm. cbv [_predict_entities bindM liftM]; simpl. rewrite Hm. simpl.
  destruct (out_getitem out e_ids "e_ids") as [predictions|]; simpl; [|done].
  destruct (index0 predictions) as [first_prediction|]; simpl; [|done].
  destruct (mapM _ first_prediction) as [tags|]; simpl; [|done].
  destruct (_convert_tags_to_entities _ _ tags) as [converted|]; simpl; [|done].
  intros [= <- <-]. eauto.
Qed.

(** With a model and a prediction function, the entities written back are
    the previous ones followed by the extracted ones. *)
Lemma process_appends_entities (w : World rng) (message : Message) (m : obj)
    (f : list Tensor -> result Out) :
  model (self w) = Some m ->
  predict_func (self w) = Some f ->
  ENTITY_RECOGNITION (component_config (self w)) = true ->
  let r := run_process (w, message) in
  r.2 = Ok tt ->
  exists extracted,
    entities r.1.2 = Some (get_or_nil (entities message) ++ extracted)%list.
Proof.
  intros Hm Hp Her.
  cbv [process bindM liftM liftW message_set modifyM retM _predict]; simpl.
  rewrite Hm, Hp. simpl.
  destruct (_create_model_data _ _ _ _ _ _) as [md|]; simpl; [|done].
  destruct (f (first_batch md)) as [out|]; simpl; [|done].
  assert (Hlabel : forall r w1, _predict_label rng LABEL_RANKING_LENGTH (Some out) w = (w1, r) ->
                                w1 = w).
  { intros r w1. cbv [_predict_label bindM liftM retM]; simpl. rewrite Hm. simpl.
    destruct (i_scores out) as [sims|]; simpl; [|by intros [= <- _]].
    destruct (reverse (argsort sims)); simpl; by intros [= <- _]. }
  destruct (INTENT_CLASSIFICATION (component_config (self w))); simpl.
  - destruct (_predict_label rng LABEL_RANKING_LENGTH (Some out) w) as [w1 [r|]] eqn:Hl;
      simpl; [|done].
    specialize (Hlabel _ _ eq_refl) as ->. rewrite Her. simpl.
    destruct (_predict_entities rng add_extractor_name (Some out) _ w) as [w2 [es|]] eqn:He;
      simpl; [|done].
    apply (_predict_entities_appends _ _ _ _ m) in He as [-> [extracted ->]]; [|done].
    intros _. by exists extracted.
  - rewrite Her. simpl.
    destruct (_predict_entities rng add_extractor_name (Some out) _ w) as [w2 [es|]] eqn:He;
      simpl; [|done].
    apply (_predict_entities_appends _ _ _ _ m) in He as [-> [extracted ->]]; [|done].
    intros _. by exists extracted.
Qed.

End Process.

(** ** Masked-LM selection mask *)

Lemma tf_squeeze_ok (t : list (list (list bool))) :
  Forall (Forall (fun cell => length cell = 1%nat)) t ->
  tf_squeeze t = Ok (fmap (M := list) (fmap (M := list) (hd false)) t).
Proof.
  intros Hall. unfold tf_squeeze. apply mapM_result_ok.
  intros row Hrow. apply mapM_result_ok.
  intros cell Hcell.
  rewrite Forall_forall in Hall. specialize (Hall row Hrow).
  rewrite Forall_forall in Hall. specialize (Hall cell Hcell).
  by destruct cell as [|b [|??]].
Qed.

Lemma tf_reduce_any_true (t : list (list (list bool))) :
  Forall (Forall (fun cell => length cell = 1%nat)) t ->
  tf_reduce_any t = true ->
  exists i row, fmap (M := list) (fmap (M := list) (hd false)) t !! i = Some row /\ true ∈ row.
Proof.
  intros Hall. unfold tf_reduce_any. intros (row & Hrow & Hex)%existsb_exists.
  apply existsb_exists in Hex as (cell & Hcell & Hex).
  apply existsb_exists in Hex as (b & Hb & Hid). unfold id in Hid. subst b.
  apply list_elem_of_In in Hrow, Hcell.
  rewrite Forall_forall in Hall. specialize (Hall row Hrow).
  rewrite Forall_forall in Hall. specialize (Hall cell Hcell).
  destruct cell as [|b [|??]]; try done.
  destruct Hb as [->|[]].
  apply list_elem_of_lookup in Hrow as [i Hi].
  exists i, (hd false <$> row). split.
  - by rewrite list_lookup_fmap, Hi.
  - apply list_elem_of_fmap. by exists [true].
Qed.

Lemma has_shape_cells (t : list (list (list bool))) (batch positions : nat) :
  has_shape t batch positions -> Forall (Forall (fun cell => length cell = 1%nat)) t.
Proof.
  intros [_ Hall]. eapply Forall_impl; [exact Hall|]. by intros row [_ ?].
Qed.

Lemma tf_shape_has_shape (t : list (list (list bool))) (batch positions : nat) :
  has_shape t (S batch) (S positions) -> tf_shape t = (S batch, S positions, 1%nat).
Proof.
  intros [Hlen Hall]. unfold tf_shape.
  destruct t as [|row t]; [done|]. simpl in *.
  apply Forall_cons in Hall as [[Hrow Hcells] _].
  destruct row as [|cell row]; [done|]. simpl in *.
  apply Forall_cons in Hcells as [Hcell _].
  by rewrite Hlen, Hrow, Hcell.
Qed.

(** C3, as the code has it: on a batch of shape [(batch, positions, 1)]
    with at least one sequence and one position, the selection mask of
    [_mask_loss] is computed and has a true entry somewhere in the batch: the
    draw itself when it selected anything, otherwise the all-false mask with
    position 0 of sequence 0 forced to true. *)
Theorem mask_selection_nonempty_per_batch
    (lm_mask_bool : list (list (list bool))) (batch positions : nat) :
  has_shape lm_mask_bool (S batch) (S positions) ->
  exists selection,
    _mask_loss_lm_mask_bool lm_mask_bool = Ok selection
    /\ (exists i row, selection !! i = Some row /\ true ∈ row)
    /\ (tf_reduce_any lm_mask_bool = true ->
        selection = fmap (M := list) (fmap (M := list) (hd false)) lm_mask_bool)
    /\ (tf_reduce_any lm_mask_bool = false ->
        selection = (true :: replicate positions false)
                    :: replicate batch (replicate (S positions) false)).
Proof.
  intros Hshape. unfold _mask_loss_lm_mask_bool.
  destruct (tf_reduce_any lm_mask_bool) eqn:Hany; simpl.
  - rewrite tf_squeeze_ok by (by eapply has_shape_cells).
    eexists. split; [reflexivity|]. split; [|done].
    apply tf_reduce_any_true; [by eapply has_shape_cells | done].
  - rewrite (tf_shape_has_shape _ batch positions) by done.
    assert (Hscatter : tf_scatter_nd_000 (S batch, S positions, 1%nat)
                       = Ok (([true] :: replicate positions [false])
                             :: replicate batch (replicate (S positions) [false])))
      by reflexivity.
    rewrite (bind_ok _ _ _ Hscatter). rewrite tf_squeeze_ok.
    + simpl. eexists. split; [reflexivity|]. split; [|split; [done|]].
      * exists 0%nat. eexists. split; [reflexivity|]. left.
      * intros _. f_equal.
        -- f_equal. by rewrite fmap_replicate.
        -- rewrite fmap_replicate. simpl. by rewrite fmap_replicate.
    + constructor.
      * constructor; [done|]. apply Forall_replicate. done.
      * apply Forall_replicate. constructor; [done|]. by apply Forall_replicate.
Qed.

(** ** Training *)

Lemma sorted_order_irrelevant (order1 order2 : gset string -> list string) (s : gset string) :
  (forall s, order1 s ≡ₚ elements s) ->
  (forall s, order2 s ≡ₚ elements s) ->
  sorted order1 s = sorted order2 s.
Proof.
  intros H1 H2. unfold sorted.
  apply (Sorted_unique String.le).
  - apply Sorted_merge_sort. apply _.
  - apply Sorted_merge_sort. apply _.
  - by rewrite !merge_sort_Permutation, H1, H2.
Qed.

Section Training.

Variable rng : Type.
Variable rng_of_seed : Z -> rng.
Variable determine_token_labels : Token -> option (list Entity) -> string.
Variable prepare_batch : gmap string (list Array) -> list Tensor.
Variable batch_to_model_data_format :
  list Tensor -> gmap string (list FeatureSignature) -> gmap string (list BatchTensor).
Variable base : obj.
Variable iter_batches :
  rng -> gmap string (list Array) -> nat -> string -> list (list nat) * rng.

Lemma preprocess_train_data_world (set_order : gset string -> list string)
    (td : TrainingData) (s : Classifier) (g : rng) (ev : list Event) :
  let r := preprocess_train_data rng set_order determine_token_labels td (mkWorld s g ev) in
  np_rng r.1 = g /\ events r.1 = ev
  /\ model (self r.1) = model s
  /\ component_config (self r.1) = component_config s.
Proof.
  cbv [preprocess_train_data bindM liftM modify_self modifyM retM]. simpl.
  repeat (case_match; simpl; try done).
Qed.

Lemma preprocess_train_data_result (set_order : gset string -> list string)
    (td : TrainingData) (s : Classifier) (g1 g2 : rng) (ev1 ev2 : list Event) :
  (preprocess_train_data rng set_order determine_token_labels td (mkWorld s g1 ev1)).2
  = (preprocess_train_data rng set_order determine_token_labels td (mkWorld s g2 ev2)).2
  /\ self (preprocess_train_data rng set_order determine_token_labels td (mkWorld s g1 ev1)).1
     = self (preprocess_train_data rng set_order determine_token_labels td (mkWorld s g2 ev2)).1.
Proof.
  cbv [preprocess_train_data bindM liftM modify_self modifyM retM]. simpl.
  repeat (case_match; simpl; try done).
Qed.

Section OneRun.

Variable os_entropy : rng.
Variable set_order : gset string -> list string.

Local Abbreviation run_train :=
  (train rng rng_of_seed os_entropy set_order determine_token_labels prepare_batch
     batch_to_model_data_format base iter_batches).
Local Abbreviation run_preprocess :=
  (preprocess_train_data rng set_order determine_token_labels).

(** C2, as the code has it: with intent classification enabled and fewer
    than two distinct label ids in the prepared data, [train] logs an error
    and returns normally before any model is built or fitted: the model is
    left as it was and nothing but the two log records is emitted. *)
Theorem train_skips_all_objectives_without_two_labels (td : TrainingData)
    (w : World rng) (md : gmap string (list Array)) :
  INTENT_CLASSIFICATION (component_config (self w)) = true ->
  (run_preprocess td w).2 = Ok md ->
  (count_unique_ids (md_get "label_ids" md) < 2)%nat ->
  (run_train td w).2 = Ok tt
  /\ model (self (run_train td w).1) = model (self w)
  /\ events (run_train td w).1
     = (events w ++
        [Log "DEBUG" "Started training embedding classifier.";
         Log "ERROR"
           "Can not train intent classifier. Need at least 2 different classes. Skipping training of classifier."])%list.
Proof.
  intros Hic Hpre Hfew. destruct w as [s g ev]. simpl in *.
  unfold train.
  cbv [bindM log liftM np_random_seed modifyM]. cbn [self np_rng events].
  set (g' := match RANDOM_SEED (component_config s) with
             | Some seed => rng_of_seed seed
             | None => os_entropy
             end).
  set (ev' := (ev ++ [Log "DEBUG" "Started training embedding classifier."])%list).
  pose proof (preprocess_train_data_world set_order td s g' ev') as (Hg & Hev & Hm & Hc).
  pose proof (preprocess_train_data_result set_order td s g' g ev' ev) as [Hr _].
  rewrite Hpre in Hr.
  destruct (run_preprocess td (mkWorld s g' ev')) as [w' r]. simpl in *. subst r.
  rewrite Hc, Hic.
  assert (Hlabels : _check_enough_labels md = false).
  { unfold _check_enough_labels. apply bool_decide_eq_false. lia. }
  rewrite Hlabels. simpl. rewrite Hm, Hev. unfold ev'.
  by rewrite <- (assoc_L (++)).
Qed.

End OneRun.

(** C10: two training runs on the same corpus from classifiers in the same
    state, with the same integer seed configured, end in the same state with
    the same outcome (the same label and tag dictionaries, the same model,
    the same batches in every epoch), whatever the set iteration order, the
    entropy and the earlier generator state of either process. *)
Theorem training_is_deterministic_given_seed
    (order1 order2 : gset string -> list string) (entropy1 entropy2 : rng)
    (td : TrainingData) (w1 w2 : World rng) (seed : Z) :
  (forall s, order1 s ≡ₚ elements s) ->
  (forall s, order2 s ≡ₚ elements s) ->
  self w1 = self w2 ->
  events w1 = events w2 ->
  RANDOM_SEED (component_config (self w1)) = Some seed ->
  _create_label_id_dict order1 td INTENT_ATTRIBUTE
  = _create_label_id_dict order2 td INTENT_ATTRIBUTE
  /\ _create_tag_id_dict order1 td = _create_tag_id_dict order2 td
  /\ train rng rng_of_seed entropy1 order1 determine_token_labels prepare_batch
       batch_to_model_data_format base iter_batches td w1
     = train rng rng_of_seed entropy2 order2 determine_token_labels prepare_batch
         batch_to_model_data_format base iter_batches td w2.
Proof.
  intros H1 H2 Hself Hevents Hseed.
  assert (Hlabel : _create_label_id_dict order1 td INTENT_ATTRIBUTE
                   = _create_label_id_dict order2 td INTENT_ATTRIBUTE).
  { unfold _create_label_id_dict. by rewrite (sorted_order_irrelevant order1 order2). }
  assert (Htag : _create_tag_id_dict order1 td = _create_tag_id_dict order2 td).
  { unfold _create_tag_id_dict.
    destruct (entity_names (entity_examples td)); simpl; [|done].
    by rewrite (sorted_order_irrelevant order1 order2). }
  split; [exact Hlabel|]. split; [exact Htag|].
  destruct w1 as [s g1 ev], w2 as [s2 g2 ev2]. simpl in *. subst s2 ev2.
  assert (Hpre : preprocess_train_data rng order1 determine_token_labels td
                 = preprocess_train_data rng order2 determine_token_labels td).
  { unfold preprocess_train_data. by rewrite Hlabel, Htag. }
  unfold train. rewrite Hpre.
  cbv [bindM log liftM np_random_seed modifyM]. cbn [self np_rng events].
  rewrite Hseed. reflexivity.
Qed.

End Training.

(** ** Entity span conversion in general *)

Lemma set_last_end_snoc (before : list Entity) (e : Entity) (stop : Z) :
  set_last_end (before ++ [e])%list stop
  = Ok (before ++ [mkEntity (entity e) (start e) stop (extractor e) (value e)])%list.
Proof.
  unfold set_last_end. rewrite reverse_snoc. by rewrite reverse_cons, reverse_involutive.
Qed.

Lemma nonempty_snoc {A} (l : list A) : l ≠ [] -> exists before x, l = (before ++ [x])%list.
Proof.
  intros Hne. destruct (reverse l) as [|x r] eqn:Hr.
  - apply (f_equal reverse) in Hr. rewrite reverse_involutive in Hr. done.
  - exists (reverse r), x. rewrite <- reverse_cons, <- Hr. by rewrite reverse_involutive.
Qed.

Lemma _convert_tags_loop_spec (toks : list Token) (tgs : list string)
    (pairs : list (Token * string)) (last_tag : string) (entities : list Entity) :
  (last_tag ≠ "O" -> entities ≠ []) ->
  Forall (fun p => p.1 ∈ toks /\ p.2 ∈ tgs) pairs ->
  Forall (span_of toks tgs) entities ->
  exists es,
    _convert_tags_loop pairs last_tag entities = Ok es
    /\ Forall (span_of toks tgs) es
    /\ (length entities <= length es <= length entities + length pairs)%nat
    /\ (es = [] <-> entities = [] /\ Forall (fun p => p.2 = "O") pairs).
Proof.
  revert last_tag entities.
  induction pairs as [|[token tag] pairs IH]; intros last_tag entities Hlast Hin Hwf; simpl.
  - exists entities. repeat split; auto; try lia. by intros [-> _].
  - apply Forall_cons in Hin as [[Htok Htag] Hin]. simpl in Htok, Htag.
    case_bool_decide as Ho.
    + subst tag.
      destruct (IH "O" entities) as (es & Hes & Hwf' & Hlen & Hnil); [done..|].
      exists es. split; [done|]. split; [done|]. split; [simpl; lia|].
      rewrite Hnil. rewrite Forall_cons. simpl. tauto.
    + case_bool_decide as Hsame; simpl.
      * subst last_tag.
        destruct (nonempty_snoc entities (Hlast Ho)) as (before & e & ->).
        rewrite set_last_end_snoc. simpl.
        apply Forall_app in Hwf as [Hbefore He].
        apply Forall_singleton in He as (Htg & Hex & Hst & _).
        destruct (IH tag (before ++ [mkEntity (entity e) (start e) (tok_end token)
                                      (extractor e) (value e)])%list)
          as (es & Hes & Hwf' & Hlen & Hnil).
        { intros _. by destruct before. }
        { done. }
        { apply Forall_app. split; [done|]. apply Forall_singleton.
          repeat split; simpl; eauto. }
        exists es. split; [done|]. split; [done|].
        rewrite !length_app in *. simpl in *. split; [lia|].
        split.
        -- intros Hes'. apply Hnil in Hes' as [Hes' _]. by destruct before.
        -- intros [Hes' _]. by destruct before.
      * destruct (IH tag (entities ++ [mkEntity (Some tag) (tok_start token) (tok_end token)
                                        (Some "DIET") None])%list)
          as (es & Hes & Hwf' & Hlen & Hnil).
        { intros _. by destruct entities. }
        { done. }
        { apply Forall_app. split; [done|]. apply Forall_singleton.
          repeat split; simpl; eauto. }
        exists es. split; [done|]. split; [done|].
        rewrite !length_app in *. simpl in *. split; [lia|].
        split.
        -- intros Hes'. apply Hnil in Hes' as [Hes' _]. by destruct entities.
        -- intros [_ Hall]. apply Forall_cons in Hall as [Hall _]. done.
Qed.

Lemma _convert_tags_loop_prefix (pairs : list (Token * string)) (last_tag : string)
    (pre entities : list Entity) :
  (last_tag ≠ "O" -> entities ≠ []) ->
  _convert_tags_loop pairs last_tag (pre ++ entities)%list
  = fmap (M := result) (app pre) (_convert_tags_loop pairs last_tag entities).
Proof.
  revert last_tag entities.
  induction pairs as [|[token tag] pairs IH]; intros last_tag entities Hlast; simpl; [done|].
  case_bool_decide as Ho; [by apply IH|].
  case_bool_decide as Hsame; simpl.
  - subst last_tag.
    destruct (nonempty_snoc entities (Hlast Ho)) as (before & e & ->).
    rewrite (assoc_L (++)), !set_last_end_snoc. simpl.
    rewrite <- (assoc_L (++)). apply IH. intros _. by destruct before.
  - rewrite <- (assoc_L (++)). apply IH. intros _. by destruct entities.
Qed.

Lemma _convert_tags_loop_app (pairs1 pairs2 : list (Token * string)) (token : Token)
    (last_tag : string) (entities : list Entity) :
  _convert_tags_loop (pairs1 ++ (token, "O") :: pairs2)%list last_tag entities
  = _convert_tags_loop pairs1 last_tag entities ≫= fun es1 =>
    fmap (M := result) (app es1) (_convert_tags_loop pairs2 "O" []).
Proof.
  revert last_tag entities.
  induction pairs1 as [|[tok tag] pairs1 IH]; intros last_tag entities; simpl.
  - rewrite <- (_convert_tags_loop_prefix pairs2 "O" entities []) by done.
    by rewrite (right_id_L [] app).
  - case_bool_decide; [by apply IH|].
    case_bool_decide; simpl; [|by apply IH].
    destruct (set_last_end entities (tok_end tok)) as [es|]; simpl; [by apply IH | done].
Qed.

(** Conversion never raises; the spans are at most as many as the tagged
    tokens. *)
Theorem convert_tags_never_raises (text : string) (tokens : list Token) (tags : list string) :
  exists es,
    _convert_tags_to_entities text tokens tags = Ok es
    /\ (length es <= Nat.min (length tokens) (length tags))%nat.
Proof.
  unfold _convert_tags_to_entities.
  destruct (_convert_tags_loop_spec tokens tags (zip tokens tags) "O" [])
    as (es & -> & _ & Hlen & _); [done| |constructor|].
  - apply Forall_forall. intros [t g] Hin. split.
    + by apply elem_of_zip_l in Hin.
    + by apply elem_of_zip_r in Hin.
  - simpl. eexists. split; [reflexivity|].
    rewrite length_map. rewrite length_zip in Hlen. simpl in Hlen. lia.
Qed.

(** Every span returned carries a tag other than "O" taken from the tag
    sequence, the extractor name "DIET", offsets taken from the tokens, and
    the slice of the text between its offsets as value. *)
Theorem convert_tags_spans_well_formed (text : string) (tokens : list Token)
    (tags : list string) (es : list Entity) (e : Entity) :
  _convert_tags_to_entities text tokens tags = Ok es ->
  e ∈ es ->
  span_of tokens tags e /\ value e = Some (py_slice text (start e) (end_ e)).
Proof.
  unfold _convert_tags_to_entities.
  destruct (_convert_tags_loop_spec tokens tags (zip tokens tags) "O" [])
    as (es0 & -> & Hwf & _ & _); [done| |constructor|].
  - apply Forall_forall. intros [t g] Hin. split.
    + by apply elem_of_zip_l in Hin.
    + by apply elem_of_zip_r in Hin.
  - simpl. intros [= <-] Hin.
    apply list_elem_of_In, in_map_iff in Hin as (e0 & <- & Hin0).
    apply list_elem_of_In in Hin0.
    rewrite Forall_forall in Hwf. specialize (Hwf e0 Hin0).
    split; [exact Hwf | reflexivity].
Qed.

(** No span is returned exactly when every tagged token is tagged "O"; in
    particular for an empty token or tag list. *)
Theorem convert_tags_empty_iff_all_outside (text : string) (tokens : list Token)
    (tags : list string) :
  _convert_tags_to_entities text tokens tags = Ok []
  <-> Forall (fun p => p.2 = "O") (zip tokens tags).
Proof.
  unfold _convert_tags_to_entities.
  destruct (_convert_tags_loop_spec tokens tags (zip tokens tags) "O" [])
    as (es0 & -> & _ & _ & Hnil); [done| |constructor|].
  - apply Forall_forall. intros [t g] Hin. split.
    + by apply elem_of_zip_l in Hin.
    + by apply elem_of_zip_r in Hin.
  - simpl. split.
    + intros [= Hmap]. apply map_eq_nil in Hmap. by apply Hnil in Hmap as [_ ?].
    + intros Hall. assert (es0 = []) as -> by (by apply Hnil). reflexivity.
Qed.

(** A token tagged "O" splits the conversion: the spans of the whole
    sequence are those of the part before it followed by those of the part
    after it. *)
Theorem convert_tags_splits_at_outside (text : string) (tokens1 tokens2 : list Token)
    (token : Token) (tags1 tags2 : list string) :
  length tokens1 = length tags1 ->
  _convert_tags_to_entities text (tokens1 ++ token :: tokens2) (tags1 ++ "O" :: tags2)
  = _convert_tags_to_entities text tokens1 tags1 ≫= fun es1 =>
    _convert_tags_to_entities text tokens2 tags2 ≫= fun es2 =>
    Ok (es1 ++ es2)%list.
Proof.
  intros Hlen. unfold _convert_tags_to_entities.
  rewrite (zip_with_app pair tokens1 (token :: tokens2) tags1 ("O" :: tags2) Hlen). simpl.
  rewrite _convert_tags_loop_app.
  destruct (_convert_tags_loop (zip tokens1 tags1) "O" []) as [es1|]; simpl; [|done].
  destruct (_convert_tags_loop (zip tokens2 tags2) "O" []) as [es2|]; simpl; [|done].
  by rewrite map_app.
Qed.

(** ** Shape of the label and tag dictionaries *)

Lemma dict_of_items_size `{Countable K} {V} (items : list (K * V)) :
  NoDup items.*1 -> size (dict_of_items items) = length items.
Proof.
  intros Hnd. unfold dict_of_items.
  rewrite fold_insert_list_to_map, (right_id_L ∅ (∪)).
  rewrite map_size_list_to_map, length_reverse; [done|].
  by rewrite fmap_reverse, reverse_Permutation.
Qed.

Lemma enumerated_dict_size (l : list string) (first : nat) :
  NoDup l ->
  size (dict_of_items ((fun p => (p.2, p.1)) <$> enumerate first l)) = length l.
Proof.
  intros Hnd. rewrite dict_of_items_size.
  - rewrite length_fmap. rewrite <- (enumerate_snd l first) at 2. by rewrite length_fmap.
  - rewrite <- list_fmap_compose.
    replace (fst ∘ (fun p : nat * string => (p.2, p.1)) <$> enumerate first l)
      with (enumerate first l).*2; [by rewrite enumerate_snd|].
    apply list_fmap_ext. by intros ? [].
Qed.

Lemma StronglySorted_lookup_le {A} (R : relation A) `{!Reflexive R} (l : list A)
    (i j : nat) (x y : A) :
  StronglySorted R l -> (i <= j)%nat -> l !! i = Some x -> l !! j = Some y -> R x y.
Proof.
  intros Hs. revert i j. induction Hs as [|z l Hs IH Hall]; intros i j Hij Hi Hj; [done|].
  destruct i as [|i], j as [|j]; simpl in *; simplify_eq; try lia.
  - reflexivity.
  - rewrite Forall_forall in Hall. apply Hall. by eapply list_elem_of_lookup_2.
  - eapply IH; [|done..]. lia.
Qed.

Section DictionaryShape.

Variable rng : Type.
Variable set_order : gset string -> list string.
Hypothesis set_order_perm : forall s, set_order s ≡ₚ elements s.
Variable determine_token_labels : Token -> option (list Entity) -> string.

Lemma sorted_StronglySorted (s : gset string) :
  StronglySorted String.le (sorted set_order s).
Proof. unfold sorted. apply StronglySorted_merge_sort; apply _. Qed.

Lemma sorted_length (s : gset string) : length (sorted set_order s) = size s.
Proof. by rewrite (sorted_Permutation set_order set_order_perm). Qed.

(** The label ids are the positions of the labels in ascending order: they
    fill the range below the number of distinct labels and follow the order
    of the label names. *)
Theorem label_ids_enumerate_sorted_labels (td : TrainingData) :
  let d := _create_label_id_dict set_order td INTENT_ATTRIBUTE in
  size d = size (distinct_label_ids td INTENT_ATTRIBUTE)
  /\ (forall label idx, d !! label = Some idx -> (idx < size d)%nat)
  /\ (forall idx, (idx < size d)%nat -> exists label, d !! label = Some idx)
  /\ (forall label1 label2 idx1 idx2,
        d !! label1 = Some idx1 -> d !! label2 = Some idx2 ->
        ((idx1 <= idx2)%nat <-> String.le label1 label2)).
Proof.
  intros d.
  assert (Hsize : size d = size (distinct_label_ids td INTENT_ATTRIBUTE)).
  { unfold d, _create_label_id_dict.
    rewrite enumerated_dict_size by (by apply sorted_NoDup). apply sorted_length. }
  assert (Hlookup : forall label idx,
    d !! label = Some idx
    <-> sorted set_order (distinct_label_ids td INTENT_ATTRIBUTE) !! idx = Some label)
    by (intros; by apply label_id_dict_lookup).
  split; [exact Hsize|]. split; [|split].
  - intros label idx Hd. apply Hlookup in Hd. apply lookup_lt_Some in Hd.
    by rewrite sorted_length, <- Hsize in Hd.
  - intros idx Hidx. rewrite Hsize, <- sorted_length in Hidx.
    apply lookup_lt_is_Some in Hidx as [label Hl]. exists label. by apply Hlookup.
  - intros label1 label2 idx1 idx2 H1%Hlookup H2%Hlookup. split.
    + intros Hle. eapply (StronglySorted_lookup_le String.le); [apply sorted_StronglySorted|..];
        done.
    + intros Hle. destruct (decide (idx1 <= idx2)%nat) as [|Hgt]; [done|].
      assert (String.le label2 label1) as Hle'.
      { eapply (StronglySorted_lookup_le String.le); [apply sorted_StronglySorted| |done..].
        lia. }
      assert (label1 = label2) as -> by (by apply (anti_symm String.le)).
      assert (idx1 = idx2); [|lia].
      eapply NoDup_lookup; [by apply sorted_NoDup|done..].
Qed.

Lemma invert_dict_size `{Countable K, Countable V} (d : gmap K V) :
  (forall k1 k2 w, d !! k1 = Some w -> d !! k2 = Some w -> k1 = k2) ->
  size (invert_dict d) = size d.
Proof.
  intros Hinj. unfold invert_dict. rewrite dict_of_items_size.
  - by rewrite length_fmap, length_map_to_list.
  - rewrite <- list_fmap_compose.
    apply NoDup_fmap_2_strong; [|apply NoDup_map_to_list].
    intros [k1 v1] [k2 v2] H1%elem_of_map_to_list H2%elem_of_map_to_list Heq.
    simpl in Heq. subst v2. f_equal. eauto.
Qed.

Lemma tag_id_dict_unfold (td : TrainingData) (names : list (option string)) :
  entity_names (entity_examples td) = Ok names ->
  _create_tag_id_dict set_order td
  = Ok (<["O" := 0%nat]>
          (dict_of_items ((fun p => (p.2, p.1)) <$>
             enumerate 1 (sorted set_order (list_to_set (omap id names)))))).
Proof. intros Hn. unfold _create_tag_id_dict. by rewrite Hn. Qed.

(** When no entity is annotated with the name "O", the tag ids fill the
    range below the size of the dictionary: "O" has id 0 and the annotated
    tags have the ids from 1 on. *)
Theorem tag_ids_fill_range_without_annotated_outside (td : TrainingData)
    (names : list (option string)) (d : gmap string nat) :
  entity_names (entity_examples td) = Ok names ->
  _create_tag_id_dict set_order td = Ok d ->
  Some "O" ∉ names ->
  d !! "O" = Some 0%nat
  /\ size d = S (size (list_to_set (omap id names) : gset string))
  /\ (forall idx, (idx < size d)%nat <-> exists tag, d !! tag = Some idx).
Proof.
  intros Hn Hd HO. rewrite (tag_id_dict_unfold td names Hn) in Hd. injection Hd as <-.
  set (S := list_to_set (omap id names) : gset string).
  set (tags := sorted set_order S).
  assert (Hnd : NoDup tags) by (by apply sorted_NoDup).
  assert (HnotO : "O" ∉ tags).
  { unfold tags. rewrite (sorted_elem_of set_order set_order_perm). unfold S.
    rewrite elem_of_list_to_set, list_elem_of_omap.
    intros ([x|] & Hin & Hx); simplify_eq/=. done. }
  assert (Hfresh : dict_of_items ((fun p => (p.2, p.1)) <$> enumerate 1 tags) !! "O" = None).
  { destruct (dict_of_items _ !! "O") as [idx|] eqn:Hl; [|done].
    apply enumerated_dict_lookup in Hl as (j & _ & Hj); [|done].
    exfalso. apply HnotO. by eapply list_elem_of_lookup_2. }
  assert (Hsize : size (<["O" := 0%nat]>
                    (dict_of_items ((fun p => (p.2, p.1)) <$> enumerate 1 tags)))
                  = Datatypes.S (size S)).
  { rewrite map_size_insert_None by done.
    rewrite enumerated_dict_size by done. unfold tags. by rewrite sorted_length. }
  split; [by rewrite lookup_insert_eq|]. split; [exact Hsize|].
  intros idx. rewrite Hsize, <- (sorted_length S). fold tags. split.
  - intros Hidx. destruct idx as [|j].
    + exists "O". by rewrite lookup_insert_eq.
    + assert (j < length tags)%nat as Hj by lia.
      apply lookup_lt_is_Some in Hj as [tag Htag]. exists tag.
      rewrite lookup_insert_ne.
      * apply enumerated_dict_lookup; [done|]. by exists j.
      * intros <-. apply HnotO. by eapply list_elem_of_lookup_2.
  - intros [tag Htag]. rewrite lookup_insert in Htag. case_decide.
    + simplify_eq. lia.
    + apply enumerated_dict_lookup in Htag as (j & -> & Hj); [|done].
      apply lookup_lt_Some in Hj. lia.
Qed.

(** When an entity is annotated with the name "O" and another annotated
    name sorts after it, the dictionary gives some tag the id that equals
    its own size, one past the range of its size. *)
Theorem tag_id_reaches_size_with_annotated_outside (td : TrainingData)
    (names : list (option string)) (d : gmap string nat) (later : string) :
  entity_names (entity_examples td) = Ok names ->
  _create_tag_id_dict set_order td = Ok d ->
  Some "O" ∈ names ->
  Some later ∈ names -> later ≠ "O" -> String.le "O" later ->
  exists tag, d !! tag = Some (size d).
Proof.
  intros Hn Hd HO Hlater Hne Hle.
  rewrite (tag_id_dict_unfold td names Hn) in Hd. injection Hd as <-.
  set (S := list_to_set (omap id names) : gset string).
  set (tags := sorted set_order S).
  assert (Hnd : NoDup tags) by (by apply sorted_NoDup).
  assert (Hin : forall x, Some x ∈ names -> x ∈ tags).
  { intros x Hx. unfold tags. rewrite (sorted_elem_of set_order set_order_perm). unfold S.
    rewrite elem_of_list_to_set, list_elem_of_omap. by exists (Some x). }
  apply Hin in HO, Hlater.
  apply list_elem_of_lookup in HO as [j Hj], Hlater as [k Hk].
  assert (j < k)%nat as Hjk.
  { destruct (decide (j < k)%nat) as [|Hge]; [done|]. exfalso.
    assert (String.le later "O") as Hle'.
    { eapply (StronglySorted_lookup_le String.le); [apply sorted_StronglySorted| |done..].
      lia. }
    apply Hne. by apply (anti_symm String.le). }
  assert (HO_old : dict_of_items ((fun p => (p.2, p.1)) <$> enumerate 1 tags) !! "O"
                   = Some (Datatypes.S j)).
  { apply enumerated_dict_lookup; [done|]. by exists j. }
  assert (Hsize : size (<["O" := 0%nat]>
                    (dict_of_items ((fun p => (p.2, p.1)) <$> enumerate 1 tags)))
                  = length tags).
  { rewrite map_size_insert_Some by done. by apply enumerated_dict_size. }
  rewrite Hsize.
  pose proof (lookup_lt_Some _ _ _ Hk) as Hlen.
  destruct (lookup_lt_is_Some_2 tags (length tags - 1)) as [tag Htag]; [lia|].
  exists tag. rewrite lookup_insert_ne.
  - apply enumerated_dict_lookup; [done|]. exists (length tags - 1)%nat. split; [lia|done].
  - intros <-. assert (j = length tags - 1)%nat by (eapply NoDup_lookup; done). lia.
Qed.

(** After a successful preprocessing the classifier's number of tags is the
    size of the tag dictionary, and it is at least 1. *)
Theorem preprocess_sets_num_tags (td : TrainingData) (w : World rng) (d : gmap string nat) :
  _create_tag_id_dict set_order td = Ok d ->
  is_ok (preprocess_train_data rng set_order determine_token_labels td w).2 = true ->
  num_tags (self (preprocess_train_data rng set_order determine_token_labels td w).1) = size d
  /\ (1 <= size d)%nat.
Proof.
  intros Hd Hok.
  assert (Hinj : forall k1 k2 v, d !! k1 = Some v -> d !! k2 = Some v -> k1 = k2).
  { unfold _create_tag_id_dict in Hd.
    destruct (entity_names (entity_examples td)) as [names|]; simpl in Hd; [|done].
    injection Hd as <-. intros k1 k2 v. apply tag_id_dict_inj. by apply sorted_NoDup. }
  assert (Hpos : (1 <= size d)%nat).
  { unfold _create_tag_id_dict in Hd.
    destruct (entity_names (entity_examples td)) as [names|]; simpl in Hd; [|done].
    injection Hd as <-.
    assert (size (<["O" := 0%nat]> (dict_of_items ((fun p => (p.2, p.1)) <$>
              enumerate 1 (sorted set_order (list_to_set (omap id names)))))) ≠ 0%nat);
      [|lia].
    intros Hz%map_size_empty_iff. by apply insert_non_empty in Hz. }
  split; [|exact Hpos].
  revert Hok.
  unfold preprocess_train_data, bindM, liftM, modify_self, modifyM, retM. simpl.
  rewrite Hd. simpl.
  repeat (case_match; simpl; try done).
  all: intros _; by apply invert_dict_size.
Qed.

End DictionaryShape.

(** ** Label data *)

Lemma mapM_result_Forall {A B} (f : A -> result B) (P : B -> Prop) (l : list A) :
  (forall x, x ∈ l -> exists y, f x = Ok y /\ P y) ->
  exists ys, mapM f l = Ok ys /\ length ys = length l /\ Forall P ys.
Proof.
  induction l as [|x l IH]; intros Hf; simpl.
  - exists []. by repeat split.
  - destruct (Hf x) as (y & Hy & HP); [left|]. rewrite Hy. simpl.
    destruct IH as (ys & -> & Hlen & Hall).
    { intros z Hz. apply Hf. by right. }
    simpl. exists (y :: ys). repeat split; [simpl; lia | by constructor].
Qed.

Lemma _extract_labels_loop_ok (examples : list Message) (attribute : Attribute)
    (sparse dense : list Features) :
  Forall (fun e => is_ok (_extract_and_add_features e attribute) = true) examples ->
  exists r, _extract_labels_loop examples attribute sparse dense = Ok r.
Proof.
  revert sparse dense. induction examples as [|e examples IH]; intros sparse dense Hall; simpl.
  - by eexists.
  - apply Forall_cons in Hall as [He Hall].
    destruct (_extract_and_add_features e attribute) as [[s d]|]; [|done]. simpl.
    by apply IH.
Qed.

Lemma _find_example_for_label_Some (label : string) (examples : list Message)
    (attribute : Attribute) (example : Message) :
  example ∈ examples -> get_attribute example attribute = Some label ->
  exists found, _find_example_for_label label examples attribute = Some found
                /\ found ∈ examples /\ get_attribute found attribute = Some label.
Proof.
  intros Hin Hget. unfold _find_example_for_label.
  destruct (List.find _ examples) as [found|] eqn:Hfind.
  - apply find_some in Hfind as [Hf Hb]. apply bool_decide_eq_true in Hb.
    exists found. by rewrite <- list_elem_of_In in Hf.
  - eapply find_none in Hfind; [|by apply list_elem_of_In].
    apply bool_decide_eq_false in Hfind. done.
Qed.

Section LabelData.

Variable set_order : gset string -> list string.
Hypothesis set_order_perm : forall s, set_order s ≡ₚ elements s.

Lemma labels_example_of_own_dictionary (td : TrainingData)
    (dec : forall x y : nat * option Message, Decision (idx_le x y)) :
  let d := _create_label_id_dict set_order td INTENT_ATTRIBUTE in
  exists labels_example,
    mapM (fun p : nat * option Message =>
            match p.2 with
            | Some example => Ok example
            | None => Raise (AttributeError "get")
            end)
      (@merge_sort _ idx_le dec
         ((fun kv => (kv.2, _find_example_for_label kv.1 (intent_examples td) INTENT_ATTRIBUTE))
            <$> map_to_list d))
    = Ok labels_example
    /\ length labels_example = size d
    /\ Forall (fun e => e ∈ intent_examples td) labels_example.
Proof.
  intros d.
  destruct (mapM_result_Forall
    (fun p : nat * option Message =>
       match p.2 with
       | Some example => Ok example
       | None => Raise (AttributeError "get")
       end)
    (fun e => e ∈ intent_examples td)
    (@merge_sort _ idx_le dec
       ((fun kv => (kv.2, _find_example_for_label kv.1 (intent_examples td) INTENT_ATTRIBUTE))
          <$> map_to_list d))) as (ys & Hys & Hlen & Hall).
  - intros [idx found] Hin. rewrite merge_sort_Permutation in Hin.
    apply list_elem_of_fmap in Hin as ([label idx'] & [= -> ->] & Hin).
    apply elem_of_map_to_list in Hin. simpl.
    apply (label_id_dict_lookup set_order set_order_perm) in Hin.
    apply list_elem_of_lookup_2, (sorted_elem_of set_order set_order_perm) in Hin.
    unfold distinct_label_ids in Hin.
    apply elem_of_list_to_set, list_elem_of_omap in Hin as (example & Hex & Hlabel).
    destruct (_find_example_for_label_Some label (intent_examples td) INTENT_ATTRIBUTE example)
      as (found & -> & Hfound & _); [done..|].
    by exists found.
  - exists ys. split; [done|]. split; [|done].
    by rewrite Hlen, merge_sort_Permutation, length_fmap, length_map_to_list.
Qed.

(** The label data of a corpus is built for the label dictionary of the
    same corpus without a missing example: it can only fail on an intent
    example whose sparse and dense label features disagree in length. *)
Theorem label_data_created_for_own_dictionary (td : TrainingData) :
  (forall example, example ∈ intent_examples td ->
     is_ok (_extract_and_add_features example INTENT_ATTRIBUTE) = true) ->
  exists label_data,
    _create_label_data td (_create_label_id_dict set_order td INTENT_ATTRIBUTE)
      INTENT_ATTRIBUTE = Ok label_data.
Proof.
  intros Hok. unfold _create_label_data.
  match goal with
  | |- context [@merge_sort _ idx_le ?dec _] =>
      destruct (labels_example_of_own_dictionary td dec) as (labels_example & Heq & _ & Hall)
  end.
  cbv zeta in Heq. rewrite Heq. simpl.
  destruct (_check_labels_features_exist labels_example INTENT_ATTRIBUTE); simpl; [|by eexists].
  unfold _extract_labels_precomputed_features.
  destruct (_extract_labels_loop_ok labels_example INTENT_ATTRIBUTE [] []) as [[s d] ->].
  - eapply Forall_impl; [exact Hall|]. intros e He. by apply Hok.
  - simpl. by eexists.
Qed.

(** Without label features on the intent examples, the label data is the
    one-hot fallback: one row of shape (1, n) per label and a mask of length
    1 per label, for n >= 1 labels. *)
Theorem label_data_one_hot_fallback (td : TrainingData) :
  let d := _create_label_id_dict set_order td INTENT_ATTRIBUTE in
  (forall example, example ∈ intent_examples td ->
     intent_sparse_features example = None /\ intent_dense_features example = None) ->
  (1 <= size d)%nat ->
  exists label_data,
    _create_label_data td d INTENT_ATTRIBUTE = Ok label_data
    /\ md_get "label_features" label_data
       = [DenseArray (replicate (size d) (mkFeatures 1 (size d)))]
    /\ md_get "label_mask" label_data = [MaskArray (replicate (size d) 1%nat)].
Proof.
  intros d Hnone Hpos. unfold _create_label_data.
  match goal with
  | |- context [@merge_sort _ idx_le ?dec _] =>
      destruct (labels_example_of_own_dictionary td dec) as (labels_example & Heq & Hlen & Hall)
  end.
  cbv zeta in Heq, Hlen. fold d in Heq, Hlen. rewrite Heq. simpl.
  assert (Hcheck : _check_labels_features_exist labels_example INTENT_ATTRIBUTE = false).
  { destruct labels_example as [|e rest]; [simpl in Hlen; lia|].
    apply Forall_cons in Hall as [He _]. destruct (Hnone e He) as [Hs Hd].
    simpl. by rewrite Hs, Hd. }
  rewrite Hcheck. simpl. unfold _compute_default_label_features. rewrite Hlen.
  eexists. split; [reflexivity|].
  unfold add_features. simpl.
  destruct (size d) as [|n] eqn:Hn; [lia|].
  simpl. unfold add_mask, md_get. rewrite lookup_insert_eq. simpl.
  rewrite lookup_insert_ne by done. rewrite !lookup_insert_eq. simpl.
  split; [done|]. by rewrite fmap_replicate.
Qed.

End LabelData.

(** ** Model data *)

Lemma mapM_result_Forall_inv {A B} (f : A -> result B) (P : B -> Prop) (l : list A) :
  (forall x y, f x = Ok y -> P y) ->
  (exists e, mapM f l = Raise e)
  \/ (exists ys, mapM f l = Ok ys /\ length ys = length l /\ Forall P ys).
Proof.
  intros Hf. induction l as [|x l IH]; simpl.
  - right. exists []. by repeat split.
  - destruct (f x) as [y|e] eqn:Hx; simpl; [|left; by eexists].
    destruct IH as [[e ->]|(ys & -> & Hlen & Hall)]; simpl; [left; by eexists|].
    right. exists (y :: ys). repeat split; [simpl; lia|]. constructor; eauto.
Qed.

Lemma md_get_add_features_ne (key k : string) (features : list Array)
    (md : gmap string (list Array)) :
  key ≠ k -> md_get k (add_features key features md) = md_get k md.
Proof.
  intros Hne. unfold add_features, md_get.
  destruct (filter _ features); [done|]. by rewrite lookup_insert_ne.
Qed.

Lemma md_get_add_features_eq (key : string) (a : Array) (md : gmap string (list Array)) :
  array_empty a = false -> md_get key (add_features key [a] md) = [a].
Proof.
  intros Ha. unfold add_features, md_get.
  rewrite filter_cons_True by done. rewrite filter_nil. by rewrite lookup_insert_eq.
Qed.

Lemma md_get_add_mask_ne (key from_key k : string) (md : gmap string (list Array)) :
  key ≠ k -> md_get k (add_mask key from_key md) = md_get k md.
Proof.
  intros Hne. unfold add_mask.
  destruct (md_get from_key md) as [|[] ?]; try done; unfold md_get; by rewrite lookup_insert_ne.
Qed.

Section ModelDataFacts.

Variable determine_token_labels : Token -> option (list Entity) -> string.

Local Abbreviation create_model_data := (_create_model_data determine_token_labels).

(** The data built for a prediction holds the text features of the message
    and their mask and nothing else, whatever the state of the classifier;
    it is empty for a message without text features, and building it raises
    exactly when sparse and dense text features disagree in length. *)
Theorem model_data_for_prediction (classifier : Classifier) (message : Message) :
  create_model_data classifier [message] None None None
  = match text_sparse_features message, text_dense_features message with
    | Some s, Some d =>
        if bool_decide (seq_len s = seq_len d)
        then Ok (<["text_mask" := [MaskArray [seq_len s]]]>
                   {["text_features" := [SparseArray [s]; DenseArray [d]]]})
        else Raise (ValueError
               "Sequence dimensions for sparse and dense features don't coincide.")
    | Some s, None =>
        Ok (<["text_mask" := [MaskArray [seq_len s]]]> {["text_features" := [SparseArray [s]]]})
    | None, Some d =>
        Ok (<["text_mask" := [MaskArray [seq_len d]]]> {["text_features" := [DenseArray [d]]]})
    | None, None => Ok ∅
    end.
Proof.
  unfold _create_model_data, _create_model_data_loop, _extract_and_add_features. simpl.
  destruct (text_sparse_features message) as [s|], (text_dense_features message) as [d|];
    simpl; [case_bool_decide; simpl|..]; reflexivity.
Qed.

Lemma _create_model_data_loop_aligned (classifier : Classifier) (examples : list Message)
    (label_dict tag_dict : gmap string nat) (acc acc' : Collected) :
  label_dict ≠ ∅ -> tag_dict ≠ ∅ ->
  ENTITY_RECOGNITION (component_config classifier) = true ->
  Forall (fun e => truthy (intent e) = true) examples ->
  _create_model_data_loop determine_token_labels classifier examples (Some label_dict)
    (Some tag_dict) (Some INTENT_ATTRIBUTE) acc = Ok acc' ->
  exists ids rows,
    label_ids acc' = (label_ids acc ++ ids)%list
    /\ tag_ids acc' = (tag_ids acc ++ rows)%list
    /\ Forall2 (fun e id => exists label, intent e = Some label /\ label_dict !! label = Some id)
         examples ids
    /\ Forall2 (fun e row => exists ts, tokens e = Some ts /\ length row = length ts
                  /\ Forall (fun id => exists tag, tag_dict !! tag = Some id) row)
         examples rows.
Proof.
  intros Hld Htd Her. revert acc.
  induction examples as [|e examples IH]; intros acc Hall; simpl.
  - intros [= <-]. exists [], []. by rewrite !(right_id_L [] app).
  - apply Forall_cons in Hall as [Htruthy Hall].
    destruct (_extract_and_add_features e TEXT_ATTRIBUTE) as [[s d]|]; simpl; [|done].
    rewrite Htruthy.
    destruct (_extract_and_add_features e INTENT_ATTRIBUTE) as [[s' d']|]; simpl; [|done].
    rewrite (bool_decide_eq_false_2 (label_dict = ∅)) by done.
    rewrite (bool_decide_eq_false_2 (tag_dict = ∅)) by done.
    destruct (intent e) as [label|] eqn:Hintent; [|by simpl in Htruthy]. simpl.
    destruct (getitem label_dict label) as [id|] eqn:Hid; simpl; [|done].
    assert (label_dict !! label = Some id) as Hid'.
    { unfold getitem in Hid. destruct (label_dict !! label); by simplify_eq. }
    rewrite Her. simpl.
    destruct (tokens e) as [ts|] eqn:Hts; [|done].
    destruct (mapM_result_Forall_inv
                (fun t => getitem tag_dict (determine_token_labels t (entities e)))
                (fun id => exists tag, tag_dict !! tag = Some id) ts) as [Hm|(row & Hm & Hlen & Hrow)].
    { intros t tid. unfold getitem. destruct (tag_dict !! _) eqn:Ht; [|done].
      intros [= <-]. eauto. }
    { destruct Hm as [err Hm]. rewrite Hm. done. }
    rewrite Hm. simpl. intros Hloop.
    apply IH in Hloop as (ids & rows & Hids & Hrows & Hf1 & Hf2); [|done].
    simpl in Hids, Hrows.
    exists (id :: ids), (row :: rows).
    rewrite <- !(assoc_L (++)) in *. simpl in *.
    split; [done|]. split; [done|]. split.
    + constructor; [|done]. eauto.
    + constructor; [|done]. exists ts. eauto.
Qed.

(** For training data in which every example carries an intent, with
    non-empty dictionaries and entity recognition on, the data built has one
    label id per example, the id its intent has in the label dictionary, and
    one row of tag ids per example, as long as the example's token list,
    with ids taken from the tag dictionary. *)
Theorem training_model_data_aligned (classifier : Classifier) (examples : list Message)
    (label_dict tag_dict : gmap string nat) (md : gmap string (list Array)) :
  label_dict ≠ ∅ -> tag_dict ≠ ∅ ->
  ENTITY_RECOGNITION (component_config classifier) = true ->
  examples ≠ [] ->
  Forall (fun e => truthy (intent e) = true) examples ->
  create_model_data classifier examples (Some label_dict) (Some tag_dict)
    (Some INTENT_ATTRIBUTE) = Ok md ->
  exists ids rows,
    md_get "label_ids" md = [LabelIdArray ids]
    /\ md_get "tag_ids" md = [TagIdArray rows]
    /\ Forall2 (fun e id => exists label, intent e = Some label /\ label_dict !! label = Some id)
         examples ids
    /\ Forall2 (fun e row => exists ts, tokens e = Some ts /\ length row = length ts
                  /\ Forall (fun id => exists tag, tag_dict !! tag = Some id) row)
         examples rows.
Proof.
  intros Hld Htd Her Hne Hall. unfold _create_model_data.
  destruct (_create_model_data_loop _ _ _ _ _ _ _) as [acc|] eqn:Hloop; simpl; [|done].
  apply _create_model_data_loop_aligned in Hloop as (ids & rows & Hids & Hrows & Hf1 & Hf2);
    [|done..].
  simpl in Hids, Hrows. rewrite Hids, Hrows.
  assert (ids ≠ []) as Hids_ne.
  { destruct Hf1; [done|discriminate]. }
  assert (rows ≠ []) as Hrows_ne.
  { destruct Hf2; [done|discriminate]. }
  match goal with
  | |- (?m ≫= _) = _ -> _ => destruct m as [md0|]; simpl; [|done]
  end.
  intros [= <-]. exists ids, rows.
  rewrite !md_get_add_mask_ne by done.
  rewrite md_get_add_features_ne by done.
  rewrite md_get_add_features_eq by (simpl; by rewrite bool_decide_eq_false_2).
  rewrite md_get_add_features_eq by (simpl; by rewrite bool_decide_eq_false_2).
  done.
Qed.

End ModelDataFacts.

(** ** What training leaves untouched, and what a completed run leaves *)

Lemma keeps_retM {rng X A} (f : Classifier -> X) (a : A) : keeps (rng := rng) f (retM a).
Proof. by intros w. Qed.

Lemma keeps_liftM {rng X A} (f : Classifier -> X) (r : World rng -> result A) :
  keeps f (liftM r).
Proof. by intros w. Qed.

Lemma keeps_bindM {rng X A B} (f : Classifier -> X) (m : ST (World rng) A)
    (k : A -> ST (World rng) B) :
  keeps f m -> (forall a, keeps f (k a)) -> keeps f (bindM m k).
Proof.
  intros Hm Hk w. unfold bindM. specialize (Hm w).
  destruct (m w) as [w' [a|e]]; simpl in *; [|done].
  by rewrite Hk.
Qed.

Lemma keeps_modify_self {rng X} (f : Classifier -> X) (g : Classifier -> Classifier) :
  (forall s, f (g s) = f s) -> keeps (rng := rng) f (modify_self rng g).
Proof. intros Hg w. unfold modify_self, modifyM. simpl. apply Hg. Qed.

Lemma keeps_log {rng X} (f : Classifier -> X) (level msg : string) :
  keeps (rng := rng) f (log rng level msg).
Proof. by intros w. Qed.

Lemma keeps_emit {rng X} (f : Classifier -> X) (e : Event) :
  keeps (rng := rng) f (emit rng e).
Proof. by intros w. Qed.

Lemma fit_epochs_length {rng}
    (iter_batches : rng -> gmap string (list Array) -> nat -> string -> list (list nat) * rng)
    (g : rng) (md : gmap string (list Array)) (sizes : list nat) (strategy : string)
    (epochs remaining epoch : nat) :
  length (fit_epochs rng iter_batches g md sizes strategy epochs remaining epoch).1 = remaining.
Proof.
  revert g epoch. induction remaining as [|n IH]; intros g epoch; simpl; [done|].
  destruct (iter_batches g md _ strategy) as [batches g'].
  specialize (IH g' (S epoch)).
  destruct (fit_epochs rng iter_batches g' md sizes strategy epochs n (S epoch)) as [rest g''].
  simpl in *. by rewrite IH.
Qed.

Section TrainingFacts.

Variable rng : Type.
Variable rng_of_seed : Z -> rng.
Variable os_entropy : rng.
Variable set_order : gset string -> list string.
Variable determine_token_labels : Token -> option (list Entity) -> string.
Variable prepare_batch : gmap string (list Array) -> list Tensor.
Variable batch_to_model_data_format :
  list Tensor -> gmap string (list FeatureSignature) -> gmap string (list BatchTensor).
Variable base : obj.
Variable iter_batches :
  rng -> gmap string (list Array) -> nat -> string -> list (list nat) * rng.

Local Abbreviation run_train :=
  (train rng rng_of_seed os_entropy set_order determine_token_labels prepare_batch
     batch_to_model_data_format base iter_batches).
Local Abbreviation run_preprocess :=
  (preprocess_train_data rng set_order determine_token_labels).

Lemma keeps_preprocess {X} (f : Classifier -> X) (td : TrainingData) :
  (forall v s, f (set_inverted_label_dict v s) = f s) ->
  (forall v s, f (set_inverted_tag_dict v s) = f s) ->
  (forall v s, f (set__label_data v s) = f s) ->
  (forall v s, f (set_num_tags v s) = f s) ->
  keeps f (run_preprocess td).
Proof.
  intros H1 H2 H3 H4. unfold preprocess_train_data.
  repeat first
    [ apply keeps_retM | apply keeps_liftM
    | apply keeps_modify_self; intros; auto
    | apply keeps_bindM; [|intros ?] ].
Qed.

Lemma keeps_train {X} (f : Classifier -> X) (td : TrainingData) :
  (forall v s, f (set_inverted_label_dict v s) = f s) ->
  (forall v s, f (set_inverted_tag_dict v s) = f s) ->
  (forall v s, f (set__label_data v s) = f s) ->
  (forall v s, f (set_num_tags v s) = f s) ->
  (forall v s, f (set_data_example v s) = f s) ->
  (forall v s, f (set_model v s) = f s) ->
  keeps f (run_train td).
Proof.
  intros H1 H2 H3 H4 H5 H6. unfold train.
  apply keeps_bindM; [apply keeps_log | intros _].
  apply keeps_bindM; [apply keeps_liftM | intros config].
  apply keeps_bindM; [by intros w | intros _].
  apply keeps_bindM; [by apply keeps_preprocess | intros md].
  apply keeps_bindM; [apply keeps_liftM | intros config'].
  destruct (INTENT_CLASSIFICATION config' && negb (_check_enough_labels md));
    [apply keeps_log|].
  repeat first
    [ apply keeps_retM | apply keeps_liftM | apply keeps_emit
    | apply keeps_modify_self; intros; auto
    | apply keeps_bindM; [|intros ?] ].
  intros w. unfold fit. simpl.
  by destruct (fit_epochs _ _ _ _ _ _ _ _ _).
Qed.

(** Training never installs a prediction function and never changes the
    configuration or the recorded batch tuple sizes, whether it completes,
    skips or raises. *)
Theorem train_keeps_predict_func (td : TrainingData) (w : World rng) :
  predict_func (self (run_train td w).1) = predict_func (self w)
  /\ component_config (self (run_train td w).1) = component_config (self w)
  /\ batch_tuple_sizes (self (run_train td w).1) = batch_tuple_sizes (self w).
Proof.
  split; [|split]; by apply (keeps_train _ td).
Qed.

(** A training run that returns normally either skipped (intent
    classification on, fewer than two label ids, model untouched) or built
    the model from the signature of the prepared data, kept the first row of
    every array as data example, and called [fit] exactly once, with the
    configured epochs, batch sizes, evaluation settings, strategy and seed,
    drawing one list of batches per epoch. *)
Theorem train_completed_run (td : TrainingData) (w : World rng) :
  (run_train td w).2 = Ok tt ->
  exists md,
    (run_preprocess td w).2 = Ok md
    /\ ((INTENT_CLASSIFICATION (component_config (self w)) = true
         /\ _check_enough_labels md = false
         /\ model (self (run_train td w).1) = model (self w))
        \/ (exists diet batches,
              (INTENT_CLASSIFICATION (component_config (self w)) = false
               \/ _check_enough_labels md = true)
              /\ model (self (run_train td w).1) = Some diet
              /\ DIET prepare_batch batch_to_model_data_format base (get_signature md)
                   (default ∅ (_label_data (self (run_train td w).1)))
                   (default ∅ (inverted_tag_dict (self (run_train td w).1)))
                   (component_config (self w)) = Ok diet
              /\ data_example (self (run_train td w).1)
                 = Some (fmap (M := gmap string) (fmap (M := list) array_take1) md)
              /\ events (run_train td w).1
                 = (events w ++
                    [Log "DEBUG" "Started training embedding classifier.";
                     TfSeed (RANDOM_SEED (component_config (self w)));
                     Fit (EPOCHS (component_config (self w)))
                       (BATCH_SIZES (component_config (self w)))
                       (EVAL_NUM_EXAMPLES (component_config (self w)))
                       (EVAL_NUM_EPOCHS (component_config (self w)))
                       (BATCH_STRATEGY (component_config (self w)))
                       (RANDOM_SEED (component_config (self w))) batches])%list
              /\ length batches = Z.to_nat (EPOCHS (component_config (self w))))).
Proof.
  destruct w as [s g ev]. simpl.
  unfold train.
  cbv [bindM log liftM np_random_seed modifyM emit modify_self]. cbn [self np_rng events].
  set (g' := match RANDOM_SEED (component_config s) with
             | Some seed => rng_of_seed seed
             | None => os_entropy
             end).
  set (ev' := (ev ++ [Log "DEBUG" "Started training embedding classifier."])%list).
  pose proof (preprocess_train_data_world rng determine_token_labels set_order td s g' ev')
    as (Hg & Hev & Hm & Hc).
  pose proof (preprocess_train_data_result rng determine_token_labels set_order td s g' g ev' ev)
    as [Hr _].
  destruct (run_preprocess td (mkWorld s g' ev')) as [[s1 g1 ev1] [md|e]]; simpl in *;
    [|done].
  subst g1 ev1. rewrite Hc. intros Hok. exists md. split; [done|].
  destruct (INTENT_CLASSIFICATION (component_config s)) eqn:Hic; simpl in *.
  - destruct (_check_enough_labels md) eqn:Hlabels; simpl in *.
    + right. revert Hok. rewrite Hc.
      destruct (DIET _ _ _ _ _ _ _) as [diet|] eqn:Hdiet; simpl; [|done].
      unfold fit. simpl.
      pose proof (fit_epochs_length iter_batches g' md (BATCH_SIZES (component_config s))
                    (BATCH_STRATEGY (component_config s)) (Z.to_nat (EPOCHS (component_config s)))
                    (Z.to_nat (EPOCHS (component_config s))) 0) as Hlen.
      destruct (fit_epochs _ _ _ _ _ _ _ _ _) as [batches g2]. simpl in *.
      intros _. exists diet, batches. split; [by right|]. split; [done|]. split; [done|].
      split; [done|]. split; [|done].
      unfold ev'. by rewrite <- !(assoc_L (++)).
    + left. by rewrite Hm.
  - right. revert Hok. rewrite Hc.
    destruct (DIET _ _ _ _ _ _ _) as [diet|] eqn:Hdiet; simpl; [|done].
    unfold fit. simpl.
    pose proof (fit_epochs_length iter_batches g' md (BATCH_SIZES (component_config s))
                  (BATCH_STRATEGY (component_config s)) (Z.to_nat (EPOCHS (component_config s)))
                  (Z.to_nat (EPOCHS (component_config s))) 0) as Hlen.
    destruct (fit_epochs _ _ _ _ _ _ _ _ _) as [batches g2]. simpl in *.
    intros _. exists diet, batches. split; [by left|]. split; [done|]. split; [done|].
    split; [done|]. split; [|done].
    unfold ev'. by rewrite <- !(assoc_L (++)).
Qed.

End TrainingFacts.

(** ** What processing leaves untouched *)

Lemma logged_errors_refl {rng} (w : World rng) : logged_errors w w.
Proof.
  split; [done|]. split; [done|]. exists []. by rewrite (right_id_L [] app).
Qed.

Lemma logged_errors_trans {rng} (w1 w2 w3 : World rng) :
  logged_errors w1 w2 -> logged_errors w2 w3 -> logged_errors w1 w3.
Proof.
  intros (Hs1 & Hg1 & l1 & He1 & Hl1) (Hs2 & Hg2 & l2 & He2 & Hl2).
  split; [congruence|]. split; [congruence|].
  exists (l1 ++ l2)%list. split; [|by apply Forall_app].
  by rewrite He2, He1, (assoc_L (++)).
Qed.

Section ProcessFacts.

Variable rng : Type.
Variable determine_token_labels : Token -> option (list Entity) -> string.
Variable add_extractor_name : list Entity -> list Entity.
Variable LABEL_RANKING_LENGTH : nat.
Variable first_batch : gmap string (list Array) -> list Tensor.

Local Abbreviation run_process :=
  (process rng determine_token_labels add_extractor_name LABEL_RANKING_LENGTH first_batch).

Lemma _predict_label_logged (out : option Out) (w : World rng) :
  logged_errors w (_predict_label rng LABEL_RANKING_LENGTH out w).1.
Proof.
  cbv [_predict_label bindM liftM retM log modifyM]. cbn [self].
  destruct (model (self w)); simpl.
  - destruct (out_getitem out i_scores "i_scores") as [sims|]; simpl;
      [|apply logged_errors_refl].
    destruct (reverse (argsort sims)); simpl; apply logged_errors_refl.
  - split; [done|]. split; [done|]. eexists. split; [reflexivity|].
    apply Forall_singleton. by eexists.
Qed.

Lemma _predict_entities_logged (out : option Out) (message : Message) (w : World rng) :
  logged_errors w (_predict_entities rng add_extractor_name out message w).1.
Proof.
  cbv [_predict_entities bindM liftM retM log modifyM]. cbn [self].
  destruct (model (self w)); simpl; [apply logged_errors_refl|].
  split; [done|]. split; [done|]. eexists. split; [reflexivity|].
  apply Forall_singleton. by eexists.
Qed.

(** Processing a message never changes the classifier or the random
    generator, whatever its outcome: it can only append error records to the
    log. *)
Theorem process_leaves_classifier (w : World rng) (message : Message) :
  logged_errors w (run_process (w, message)).1.1.
Proof.
  cbv [process bindM liftM liftW message_set modifyM retM]. cbn [fst snd].
  destruct (_predict _ _ (self w) message) as [out|]; simpl; [|apply logged_errors_refl].
  destruct (INTENT_CLASSIFICATION (component_config (self w))) eqn:Hic; simpl.
  - pose proof (_predict_label_logged out w) as Hl.
    destruct (_predict_label rng LABEL_RANKING_LENGTH out w) as [w1 [r|]]; simpl in *;
      [|done].
    destruct Hl as (Hs & Hl). rewrite Hs.
    destruct (ENTITY_RECOGNITION (component_config (self w))); simpl;
      [|by split].
    match goal with
    | |- context [_predict_entities rng add_extractor_name out ?m w1] =>
        pose proof (_predict_entities_logged out m w1) as He;
        destruct (_predict_entities rng add_extractor_name out m w1) as [w2 [es|]]
    end; simpl in *; (eapply logged_errors_trans; [|exact He]); by split.
  - destruct (ENTITY_RECOGNITION (component_config (self w))); simpl;
      [|apply logged_errors_refl].
    pose proof (_predict_entities_logged out message w) as He.
    by destruct (_predict_entities rng add_extractor_name out message w) as [w2 [es|]].
Qed.

(** Processing never touches the text, the tokens or the features of a
    message; with intent classification off it leaves what is stored under
    the intent and the intent ranking as it was, and with entity recognition
    off it leaves the entities as they were. *)
Theorem process_leaves_upstream_fields (w : World rng) (message : Message) :
  let message' := (run_process (w, message)).1.2 in
  upstream_fields message' = upstream_fields message
  /\ (INTENT_CLASSIFICATION (component_config (self w)) = false ->
      intent message' = intent message
      /\ out_intent message' = out_intent message
      /\ out_intent_ranking message' = out_intent_ranking message)
  /\ (ENTITY_RECOGNITION (component_config (self w)) = false ->
      entities message' = entities message).
Proof.
  cbv [process bindM liftM liftW message_set modifyM retM]. cbn [fst snd].
  destruct (_predict _ _ (self w) message) as [out|]; simpl; [|done].
  destruct (INTENT_CLASSIFICATION (component_config (self w))) eqn:Hic; simpl.
  - pose proof (_predict_label_logged out w) as Hl.
    destruct (_predict_label rng LABEL_RANKING_LENGTH out w) as [w1 [r|]]; simpl in *;
      [|done].
    destruct Hl as (Hs & Hl). rewrite Hs.
    destruct (ENTITY_RECOGNITION (component_config (self w))); simpl; [|done].
    match goal with
    | |- context [_predict_entities rng add_extractor_name out ?m w1] =>
        destruct (_predict_entities rng add_extractor_name out m w1) as [w2 [es|]]
    end; simpl; done.
  - destruct (ENTITY_RECOGNITION (component_config (self w))); simpl; [|done].
    by destruct (_predict_entities rng add_extractor_name out message w) as [w2 [es|]].
Qed.

End ProcessFacts.

(** ** Ranked labels and their scores *)

#[local] Instance score_le_refl : Reflexive score_le.
Proof. intros x. unfold score_le. rewrite Qle_bool_iff. apply Qle_refl. Qed.

#[local] Instance index_le_trans (a : list Q) : Transitive (index_le a).
Proof. intros i j k. unfold index_le. apply transitivity. Qed.

#[local] Instance index_le_total (a : list Q) : Total (index_le a).
Proof. intros i j. unfold index_le. apply total. apply _. Qed.

Lemma filter_none {A} (P : A -> Prop) `{forall x, Decision (P x)} (l : list A) :
  Forall (fun x => ~ P x) l -> filter P l = [].
Proof.
  induction 1 as [|x l Hx _ IH]; [done|]. by rewrite filter_cons_False.
Qed.

(** In a list in descending order the entries above a threshold form a
    prefix. *)
Lemma descending_above_threshold (l : list Q) (t : Q) (k : nat) (x : Q) :
  StronglySorted (flip score_le) l ->
  l !! k = Some x ->
  (~ score_le x t <-> (k < length (filter (fun y => ~ score_le y t) l))%nat).
Proof.
  intros Hs. revert k. induction Hs as [|y l Hs IH Hall]; intros k Hk; [done|].
  destruct (decide (score_le y t)) as [Hy|Hy].
  - rewrite filter_cons_False by auto.
    rewrite (filter_none (fun z => ~ score_le z t) l).
    + simpl. split; [|lia]. intros Hx. exfalso. apply Hx.
      destruct k as [|k]; simpl in Hk; simplify_eq; [done|].
      rewrite Forall_forall in Hall.
      transitivity y; [|done]. apply Hall. by eapply list_elem_of_lookup_2.
    + eapply Forall_impl; [exact Hall|]. intros z Hz Hn. apply Hn.
      by transitivity y.
  - rewrite filter_cons_True by done. simpl.
    destruct k as [|k]; simpl in Hk; simplify_eq.
    + split; [lia | done].
    + rewrite (IH k Hk). lia.
Qed.

(** Two descending lists with the same entries agree position by position,
    up to equality of rationals. *)
Lemma descending_pointwise (l1 l2 : list Q) (k : nat) (x y : Q) :
  StronglySorted (flip score_le) l1 ->
  StronglySorted (flip score_le) l2 ->
  l1 ≡ₚ l2 ->
  l1 !! k = Some x -> l2 !! k = Some y -> (x == y)%Q.
Proof.
  intros Hs1 Hs2 Hperm Hx Hy.
  assert (Hle : forall l l' a b,
    StronglySorted (flip score_le) l -> StronglySorted (flip score_le) l' -> l ≡ₚ l' ->
    l !! k = Some a -> l' !! k = Some b -> score_le a b).
  { intros l l' a b Hl Hl' Hp Ha Hb.
    destruct (decide (score_le a b)) as [|Hn]; [done|]. exfalso.
    apply (descending_above_threshold l b k a Hl Ha) in Hn.
    rewrite Hp in Hn.
    apply (descending_above_threshold l' b k b Hl' Hb) in Hn. by apply Hn. }
  apply Qle_antisym; apply Qle_bool_iff.
  - by apply (Hle l1 l2).
  - by apply (Hle l2 l1).
Qed.

Lemma argsort_values_descending (scores : list Q) :
  StronglySorted (flip score_le)
    ((fun i => nth i scores 0%Q) <$> reverse (argsort scores)).
Proof.
  rewrite fmap_reverse. apply Sorted_StronglySorted; [apply _|].
  apply Sorted_reverse.
  apply (Sorted_fmap _ (index_le scores) score_le); [done|].
  unfold argsort. apply Sorted_merge_sort. apply _.
Qed.

Lemma fmap_nth_seq {A} (l : list A) (d : A) :
  (fun i => nth i l d) <$> seq 0 (length l) = l.
Proof.
  induction l as [|x l IH]; [done|]. simpl. f_equal.
  rewrite <- fmap_S_seq, <- list_fmap_compose. exact IH.
Qed.

Lemma argsort_values_Permutation (scores : list Q) :
  (fun i => nth i scores 0%Q) <$> reverse (argsort scores) ≡ₚ scores.
Proof.
  rewrite reverse_Permutation, argsort_Permutation. by rewrite fmap_nth_seq.
Qed.

Lemma sort_reversed_view_Permutation (scores : list Q) :
  sort_reversed_view scores ≡ₚ scores.
Proof.
  unfold sort_reversed_view.
  by rewrite reverse_Permutation, merge_sort_Permutation, reverse_Permutation.
Qed.

(** The k-th sorted score is the score of the k-th label id. *)
Lemma sorted_scores_match_ids (scores : list Q) (k idx : nat) (c : Q) :
  reverse (argsort scores) !! k = Some idx ->
  sort_reversed_view scores !! k = Some c ->
  (c == nth idx scores 0)%Q.
Proof.
  intros Hidx Hc.
  apply (descending_pointwise (sort_reversed_view scores)
           ((fun i => nth i scores 0%Q) <$> reverse (argsort scores)) k).
  - apply sort_reversed_view_descending.
  - apply argsort_values_descending.
  - by rewrite sort_reversed_view_Permutation, argsort_values_Permutation.
  - done.
  - by rewrite list_lookup_fmap, Hidx.
Qed.

Section RankingFacts.

Variable rng : Type.
Variable LABEL_RANKING_LENGTH : nat.

(** On a non-empty score vector the ranking lists, without repetition, the
    label ids with the highest scores: each entry carries the name of its
    label id and that label's own score; the ranking has as many entries as
    there are scores, up to [LABEL_RANKING_LENGTH]; and no score exceeds
    the confidence of the top intent. *)
Theorem ranking_pairs_labels_with_their_scores (w : World rng) (out : Out)
    (scores : list Q) (d : gmap nat string) (m : obj) :
  model (self w) = Some m ->
  inverted_label_dict (self w) = Some d ->
  i_scores out = Some scores ->
  scores ≠ [] ->
  (forall i, (i < length scores)%nat -> is_Some (d !! i)) ->
  exists label ranking ids,
    _predict_label rng LABEL_RANKING_LENGTH (Some out) w = (w, Ok (label, ranking))
    /\ NoDup ids
    /\ length ids = Nat.min (length scores) LABEL_RANKING_LENGTH
    /\ Forall2 (fun idx entry =>
                  (idx < length scores)%nat
                  /\ name entry = d !! idx
                  /\ (confidence entry == nth idx scores 0)%Q) ids ranking
    /\ (forall i, (i < length scores)%nat -> (nth i scores 0 <= confidence label)%Q).
Proof.
  intros Hm Hd Hs Hne Hcover.
  unfold _predict_label, bindM, liftM, retM. simpl. rewrite Hm. simpl. rewrite Hs. simpl.
  pose proof (argsort_length scores) as Hlen.
  pose proof (sort_reversed_view_length scores) as Hlen'.
  pose proof (sorted_scores_match_ids scores) as Hmatch.
  pose proof (sort_reversed_view_descending scores) as Hdesc.
  pose proof (sort_reversed_view_Permutation scores) as Hperm.
  assert (Hnd : NoDup (reverse (argsort scores))).
  { rewrite reverse_Permutation, argsort_Permutation. apply NoDup_seq. }
  assert (Hbound : forall i, i ∈ reverse (argsort scores) -> (i < length scores)%nat).
  { intros i Hi. apply argsort_bound. by rewrite elem_of_reverse in Hi. }
  assert (Hlen_ids : length (reverse (argsort scores)) = length scores)
    by (by rewrite length_reverse).
  destruct (reverse (argsort scores)) as [|first_id ids] eqn:Hids.
  { simpl in Hlen_ids. destruct scores; [done | discriminate]. }
  rewrite Hd. simpl.
  destruct (Hcover first_id) as [name0 Hname0]; [apply Hbound; left|].
  assert (Hget0 : getitem_int d first_id = Ok name0).
  { unfold getitem_int. by rewrite Hname0. }
  rewrite Hget0. simpl.
  destruct (sort_reversed_view scores) as [|conf0 confs] eqn:Hsorted.
  { simpl in Hlen'. destruct scores; [done | discriminate]. }
  simpl.
  set (pairs := take LABEL_RANKING_LENGTH (zip (first_id :: ids) (conf0 :: confs))).
  rewrite (mapM_result_ok _ (fun p : nat * Q => mkLabel (d !! p.1) p.2) pairs).
  2:{ intros [i c] Hp. simpl.
      assert (i ∈ first_id :: ids) as Hi.
      { apply subseteq_take in Hp. by apply elem_of_zip_l in Hp. }
      destruct (Hcover i (Hbound i Hi)) as [n Hn]. unfold getitem_int. by rewrite Hn. }
  simpl. eexists _, _, (take LABEL_RANKING_LENGTH (first_id :: ids)).
  split; [reflexivity|]. split; [|split; [|split]].
  - exact (sublist_NoDup _ _ Hnd (sublist_take _ _)).  
  - rewrite length_take, Hlen_ids. lia.
  - apply Forall2_same_length_lookup. split.
    + rewrite length_fmap. unfold pairs. rewrite !length_take, length_zip.
      simpl in *. lia.
    + intros k idx entry Hk Hentry.
      rewrite list_lookup_fmap in Hentry.
      destruct (pairs !! k) as [[i c]|] eqn:Hp; [|done]. simpl in Hentry.
      injection Hentry as <-. simpl.
      unfold pairs in Hp. rewrite lookup_take_Some in Hp. destruct Hp as [Hp Hlt].
      rewrite lookup_take_Some in Hk. destruct Hk as [Hk _].
      apply lookup_zip_with_Some in Hp as (i' & c' & [= <- <-] & Hi & Hc).
      rewrite Hi in Hk. injection Hk as ->.
      split; [apply Hbound; by eapply list_elem_of_lookup_2|].
      split; [done|]. by apply (Hmatch k).
  - intros i Hi.
    assert (nth i scores 0%Q ∈ conf0 :: confs) as Hin.
    { rewrite Hperm. apply list_elem_of_In, nth_In. exact Hi. }
    apply elem_of_cons in Hin as [->|Hin]; [apply Qle_refl|].
    apply StronglySorted_inv in Hdesc as [_ Hall].
    rewrite Forall_forall in Hall. specialize (Hall _ Hin).
    unfold flip, score_le in Hall. by apply Qle_bool_iff.
Qed.

End RankingFacts.

(** ** DIET: the sparse-to-dense layers *)

Lemma default_last_cons {A} (d d' : A) (l : list A) :
  default d' (last (d :: l)) = default d (last l).
Proof. destruct l as [|x l]; [done|]. rewrite last_cons. by destruct (last (x :: l)). Qed.

Lemma _create_sparse_dense_layer_loop_closed (data_signature : list FeatureSignature)
    (sparse : bool) (dense_dim : nat) :
  _create_sparse_dense_layer_loop data_signature sparse dense_dim
  = if forallb (fun fs => is_sparse fs || bool_decide (shape fs ≠ [])) data_signature
    then Ok (sparse || existsb is_sparse data_signature,
             default dense_dim
               (last (omap (fun fs => if is_sparse fs then None else last (shape fs))
                        data_signature)))
    else Raise (IndexError "tuple index out of range").
Proof.
  revert sparse dense_dim.
  induction data_signature as [|fs rest IH]; intros sparse dense_dim; simpl.
  - by rewrite orb_false_r.
  - destruct (is_sparse fs) eqn:Hsp; simpl.
    + rewrite IH. by rewrite orb_true_r.
    + unfold shape_last. destruct (last (shape fs)) as [d|] eqn:Hlast; simpl.
      * rewrite bool_decide_eq_true_2 by (by intros Hnil; rewrite Hnil in Hlast).
        rewrite IH.
        destruct (forallb _ rest); [|done]. do 2 f_equal.
        symmetry. apply default_last_cons.
      * apply last_None in Hlast. rewrite Hlast. by rewrite bool_decide_eq_false_2 by (by intros ?).
Qed.

Lemma _create_sparse_dense_layer_closed (data_signature : list FeatureSignature)
    (layer_name : string) (reg_lambda : Q) (dense_dim : nat) :
  _create_sparse_dense_layer data_signature layer_name reg_lambda dense_dim
  = if forallb (fun fs => is_sparse fs || bool_decide (shape fs ≠ [])) data_signature
    then Ok (if existsb is_sparse data_signature
             then DenseForSparse
                    (default dense_dim
                       (last (omap (fun fs => if is_sparse fs then None else last (shape fs))
                                data_signature)))
                    reg_lambda layer_name
             else NoLayer)
    else Raise (IndexError "tuple index out of range").
Proof.
  unfold _create_sparse_dense_layer. rewrite _create_sparse_dense_layer_loop_closed.
  destruct (forallb _ data_signature); [|done]. simpl.
  by destruct (existsb is_sparse data_signature).
Qed.

(** The sparse-to-dense layer in closed form.  It raises exactly when a
    dense feature has an empty shape; otherwise a layer is created exactly
    when a feature is sparse, and its units are the last dimension of the
    last dense feature, or the configured dimension without dense features. *)
Theorem sparse_dense_layer_closed_form (data_signature : list FeatureSignature)
    (layer_name : string) (reg_lambda : Q) (dense_dim : nat) :
  _create_sparse_dense_layer data_signature layer_name reg_lambda dense_dim
  = if forallb (fun fs => is_sparse fs || bool_decide (shape fs ≠ [])) data_signature
    then Ok (if existsb is_sparse data_signature
             then DenseForSparse
                    (default dense_dim
                       (last (omap (fun fs => if is_sparse fs then None else last (shape fs))
                                data_signature)))
                    reg_lambda layer_name
             else NoLayer)
    else Raise (IndexError "tuple index out of range").
Proof.
  unfold _create_sparse_dense_layer. rewrite _create_sparse_dense_layer_loop_closed.
  destruct (forallb _ data_signature); [|reflexivity]. simpl.
  by destruct (existsb is_sparse data_signature).
Qed.

(** ** DIET: what the constructor installs, and the training step *)

Lemma bindM_liftM {S A B} (r : S -> result A) (f : A -> ST S B) (s : S) :
  bindM (liftM r) f s = match r s with Ok a => f a s | Raise e => (s, Raise e) end.
Proof. reflexivity. Qed.

Lemma bindM_assoc {S A B C} (m : ST S A) (f : A -> ST S B) (g : B -> ST S C) (s : S) :
  bindM (bindM m f) g s = bindM m (fun a => bindM (f a) g) s.
Proof. unfold bindM. by destruct (m s) as [s' [a|e]]. Qed.

Section PrepareLayers.

Variable s : obj.
Variable config : Config.
Variable data_signature : gmap string (list FeatureSignature).
Variable num_tags : Z.
Hypothesis s_config : s !! "config" = Some (AConfig config).
Hypothesis s_signature : s !! "data_signature" = Some (ASignature data_signature).
Hypothesis s_num_tags : s !! "_num_tags" = Some (AInt num_tags).

Local Abbreviation with_layers d := (<["_tf_layers" := ATfLayers d]> s).

Lemma with_layers_config d : get_config (with_layers d) = Ok config.
Proof. unfold get_config, getattr. by rewrite lookup_insert_ne, s_config. Qed.

Lemma with_layers_signature d : get_data_signature (with_layers d) = Ok data_signature.
Proof. unfold get_data_signature, getattr. by rewrite lookup_insert_ne, s_signature. Qed.

Lemma with_layers_num_tags d : get_num_tags (with_layers d) = Ok num_tags.
Proof. unfold get_num_tags, getattr. by rewrite lookup_insert_ne, s_num_tags. Qed.

Lemma with_layers_set_layer {B} k v (f : unit -> M B) d :
  bindM (set_layer k v) f (with_layers d) = f tt (with_layers (<[k := v]> d)).
Proof.
  unfold set_layer, bindM, liftM, get_tf_layers, getattr, setattr, modifyM.
  rewrite lookup_insert_eq. simpl. by rewrite insert_insert_eq.
Qed.

Lemma with_layers_set_sublayer {B} k sub l g (f : unit -> M B) d :
  d !! k = Some (Layers g) ->
  bindM (set_sublayer k sub l) f (with_layers d)
  = f tt (with_layers (<[k := Layers (<[sub := l]> g)]> d)).
Proof.
  intros Hk.
  unfold set_sublayer, bindM, liftM, get_tf_layers, getattr, setattr, modifyM, getitem.
  rewrite lookup_insert_eq. simpl. rewrite Hk. simpl. by rewrite insert_insert_eq.
Qed.

Lemma _prepare_layers_run :
  _prepare_layers s
  = match sparse_dense_layers config data_signature with
    | Ok (text, label) =>
        (with_layers (constructed_layers config num_tags text label), Ok tt)
    | Raise e =>
        (with_layers {["sparse_dropout" := Layer (SparseDropout (DROPRATE config))]}, Raise e)
    end.
Proof.
  unfold _prepare_layers, sparse_dense_layers.
  rewrite bindM_setattr.
  unfold _prepare_sequence_layers.
  rewrite bindM_assoc, bindM_liftM, with_layers_config.
  rewrite bindM_assoc, with_layers_set_layer.
  rewrite bindM_assoc, bindM_liftM, with_layers_signature.
  rewrite bindM_assoc, bindM_liftM.
  destruct (getitem data_signature "text_features") as [text_sig|e]; simpl; [|done].
  rewrite bindM_assoc, bindM_liftM.
  destruct (_create_sparse_dense_layer text_sig "text" (C2 config) (DENSE_DIM_text config))
    as [text|e]; simpl; [|done].
  rewrite bindM_assoc, bindM_liftM.
  destruct (getitem data_signature "label_features") as [label_sig|e]; simpl; [|done].
  rewrite bindM_assoc, bindM_liftM.
  destruct (_create_sparse_dense_layer label_sig "label" (C2 config) (DENSE_DIM_label config))
    as [label|e]; simpl; [|done].
  rewrite bindM_assoc, with_layers_set_layer.
  rewrite bindM_assoc, with_layers_set_layer.
  rewrite with_layers_set_layer.
  rewrite with_layers_set_layer.
  unfold _prepare_mask_lm_layers.
  rewrite bindM_assoc, bindM_liftM, with_layers_config.
  rewrite bindM_assoc, with_layers_set_layer.
  rewrite bindM_assoc, (with_layers_set_sublayer _ _ _ ∅) by reflexivity.
  rewrite bindM_assoc, (with_layers_set_sublayer _ _ _ _) by reflexivity.
  rewrite with_layers_set_layer.
  unfold _prepare_intent_classification_layers.
  rewrite bindM_assoc, bindM_liftM, with_layers_config.
  rewrite bindM_assoc, (with_layers_set_sublayer _ _ _ _) by reflexivity.
  rewrite bindM_assoc, (with_layers_set_sublayer _ _ _ _) by reflexivity.
  rewrite with_layers_set_layer.
  unfold _prepare_entity_recognition_layers.
  rewrite bindM_liftM, with_layers_config.
  rewrite bindM_liftM, with_layers_num_tags.
  rewrite (with_layers_set_sublayer _ _ _ _) by reflexivity.
  rewrite with_layers_set_layer.
  unfold set_layer. rewrite bindM_liftM. unfold get_tf_layers, getattr.
  rewrite lookup_insert_eq. simpl. unfold setattr, modifyM. rewrite insert_insert_eq.
  reflexivity.
Qed.

End PrepareLayers.

Section Construction.

Variable prepare_batch : gmap string (list Array) -> list Tensor.
Variable batch_to_model_data_format :
  list Tensor -> gmap string (list FeatureSignature) -> gmap string (list BatchTensor).
Variable batch_tuple_sizes : gmap string (list Array) -> gmap string nat.

Local Abbreviation construct := (DIET prepare_batch batch_to_model_data_format).
Local Abbreviation diet_reachable := (reachable batch_to_model_data_format batch_tuple_sizes).
Local Abbreviation diet_run := (run_method batch_to_model_data_format batch_tuple_sizes).

Ltac lookup_attr :=
  repeat (rewrite lookup_insert_ne by discriminate); rewrite lookup_insert_eq.

(** What the constructor leaves, attribute by attribute. *)
Lemma DIET_attributes base ds ld itd cfg self0 :
  construct base ds ld itd cfg = Ok self0 ->
  exists text label,
    sparse_dense_layers cfg ds = Ok (text, label)
    /\ self0 !! "_tf_layers"
       = Some (ATfLayers (constructed_layers cfg (Z.of_nat (size itd)) text label))
    /\ self0 !! "config" = Some (AConfig cfg)
    /\ self0 !! "_num_tags" = Some (AInt (Z.of_nat (size itd)))
    /\ self0 !! "data_signature" = Some (ASignature ds)
    /\ self0 !! "tf_label_data"
       = Some (ABatchData (batch_to_model_data_format (prepare_batch ld) (get_signature ld)))
    /\ self0 !! "training" = Some (ATensor (TBool true))
    /\ (forall a n, (a, n) ∈ [("intent_acc", "i_acc"); ("intent_loss", "i_loss");
                              ("mask_loss", "m_loss"); ("mask_acc", "m_acc");
                              ("entity_loss", "e_loss"); ("entity_f1", "e_f1")] ->
                    self0 !! a = Some (AMetric n)).
Proof.
  unfold DIET, DIET__init__.
  do 4 (rewrite bindM_setattr; cbv beta).
  unfold bindM at 1.
  rewrite (_prepare_layers_run _ cfg ds (Z.of_nat (size itd)));
    [|by lookup_attr..].
  destruct (sparse_dense_layers cfg ds) as [[text label]|e]; [|done].
  cbv [bindM setattr modifyM]. intros [= <-].
  exists text, label. split; [done|].
  repeat split; try by lookup_attr.
  intros a n Hin.
  repeat (apply elem_of_cons in Hin as [[= -> ->]|Hin]; [by lookup_attr|]).
  by apply elem_of_nil in Hin.
Qed.

Lemma DIET_succeeds base ds ld itd cfg :
  is_ok (construct base ds ld itd cfg) = is_ok (sparse_dense_layers cfg ds).
Proof.
  unfold DIET, DIET__init__.
  do 4 (rewrite bindM_setattr; cbv beta).
  unfold bindM at 1.
  rewrite (_prepare_layers_run _ cfg ds (Z.of_nat (size itd)));
    [|by lookup_attr..].
  by destruct (sparse_dense_layers cfg ds) as [[text label]|e].
Qed.

End Construction.

Lemma is_ok_true {A} (r : result A) : is_ok r = true <-> exists a, r = Ok a.
Proof. destruct r; simpl; split; eauto; try done. by intros [? ?]. Qed.

Lemma call_layer_ok (l : layer) (args : list Tensor) :
  l ≠ NoLayer -> call_layer l args = Ok (TCall l args).
Proof. by destruct l. Qed.

Section OnLayers.

Variable self : obj.
Variable config : Config.
Variable num_tags : Z.
Variable text label : layer.
Variable training : Tensor.
Hypothesis self_layers :
  get_tf_layers self = Ok (constructed_layers config num_tags text label).
Hypothesis self_config : get_config self = Ok config.
Hypothesis self_training : get_training self = Ok training.
Hypothesis self_num_tags : get_num_tags self = Ok num_tags.

Lemma tf_layer_constructed (k : string) (l : layer) :
  constructed_layers config num_tags text label !! k = Some (Layer l) ->
  tf_layer self k = Ok l.
Proof. intros Hk. unfold tf_layer, getitem. rewrite self_layers. simpl. by rewrite Hk. Qed.

Lemma tf_sublayer_constructed (k sub : string) (g : gmap string layer) (l : layer) :
  constructed_layers config num_tags text label !! k = Some (Layers g) ->
  g !! sub = Some l ->
  tf_sublayer self k sub = Ok l.
Proof.
  intros Hk Hsub. unfold tf_sublayer, getitem. rewrite self_layers. simpl. rewrite Hk.
  simpl. by rewrite Hsub.
Qed.

Lemma _combine_loop_ok (features : list BatchTensor) (layer_key : string) (l : layer)
    (sparse_dropout : bool) :
  tf_sublayer self "sparse_to_dense" layer_key = Ok l ->
  (existsb bt_sparse features = true -> l ≠ NoLayer) ->
  exists dense_features,
    _combine_loop self features layer_key sparse_dropout = Ok dense_features.
Proof.
  intros Hl. induction features as [|f rest IH]; intros Hsparse; simpl; [by eexists|].
  destruct IH as [ds Hds].
  { intros Hrest. apply Hsparse. simpl. rewrite Hrest. by rewrite orb_true_r. }
  rewrite Hds.
  destruct (bt_sparse f) eqn:Hf; simpl; [|by eexists].
  rewrite Hl. simpl.
  assert (Hne : l ≠ NoLayer) by (apply Hsparse; simpl; by rewrite Hf).
  destruct sparse_dropout; simpl.
  - rewrite (tf_layer_constructed "sparse_dropout" (SparseDropout (DROPRATE config)))
      by reflexivity.
    simpl. rewrite self_training. simpl. rewrite call_layer_ok by done. by eexists.
  - rewrite call_layer_ok by done. by eexists.
Qed.

Lemma _create_bow_ok (features : list BatchTensor) (mask : Tensor) (layer_key : string)
    (l ffnn : layer) :
  tf_sublayer self "sparse_to_dense" layer_key = Ok l ->
  (existsb bt_sparse features = true -> l ≠ NoLayer) ->
  tf_sublayer self "ffnn" layer_key = Ok ffnn -> ffnn ≠ NoLayer ->
  exists t, _create_bow self features mask layer_key = Ok t.
Proof.
  intros Hl Hsparse Hffnn Hne. unfold _create_bow, _combine_sparse_dense_features.
  destruct (_combine_loop_ok features layer_key l false Hl Hsparse) as [ds ->]. simpl.
  rewrite Hffnn. simpl. rewrite self_training. simpl. rewrite call_layer_ok by done.
  by eexists.
Qed.

Lemma _create_sequence_ok (features : list BatchTensor) (mask : Tensor) (l : layer)
    (masked_lm_loss : bool) :
  tf_sublayer self "sparse_to_dense" "text" = Ok l ->
  (existsb bt_sparse features = true -> l ≠ NoLayer) ->
  exists transformed x lm_mask_bool,
    _create_sequence self features mask "text" masked_lm_loss
    = Ok (transformed, x, lm_mask_bool)
    /\ (masked_lm_loss = true -> is_Some lm_mask_bool).
Proof.
  intros Hl Hsparse. unfold _create_sequence, _combine_sparse_dense_features.
  rewrite self_config. simpl.
  destruct (_combine_loop_ok features "text" l (SPARSE_INPUT_DROPOUT config) Hl Hsparse)
    as [ds ->]. simpl.
  assert (Htr : exists tr, tf_layer self "transformer" = Ok tr /\ tr ≠ NoLayer).
  { eexists. split; [by apply tf_layer_constructed|].
    by destruct (0 <? NUM_TRANSFORMER_LAYERS config). }
  destruct Htr as (tr & Htr & Hne).
  destruct masked_lm_loss; simpl.
  - rewrite (tf_layer_constructed "input_mask" InputMask) by reflexivity. simpl.
    rewrite self_training. simpl. rewrite Htr. simpl.
    rewrite call_layer_ok by done. simpl. do 3 eexists. split; [reflexivity|]. by eexists.
  - rewrite Htr. simpl. rewrite self_training. simpl.
    rewrite call_layer_ok by done. simpl. do 3 eexists. split; [reflexivity|]. done.
Qed.

Lemma _create_sequence_mask (features : list BatchTensor) (mask : Tensor)
    (r : Tensor * Tensor * option Tensor) :
  _create_sequence self features mask "text" true = Ok r -> is_Some r.2.
Proof.
  unfold _create_sequence. rewrite self_config. simpl.
  destruct (_combine_sparse_dense_features _ _ _ _ _); simpl; [|done].
  destruct (tf_layer self "input_mask"); simpl; [|done].
  rewrite self_training. simpl.
  destruct (call_layer _ _); simpl; [|done].
  destruct (tf_layer self "transformer"); simpl; [|done].
  destruct (call_layer _ _); simpl; [|done].
  intros [= <-]. by eexists.
Qed.

Lemma _mask_loss_without_attribute (a_transformed a : Tensor) (lm_mask_bool : tensor3) :
  self !! "_loss_mask" = None ->
  _mask_loss self a_transformed a lm_mask_bool "text"
  = _mask_loss_lm_mask_bool lm_mask_bool ≫= fun _ => Raise (AttributeError "_loss_mask").
Proof.
  intros Hnone. unfold _mask_loss.
  change ("text" +:+ "_mask") with "text_mask".
  change ("text" +:+ "_token") with "text_token".
  rewrite (tf_sublayer_constructed "embed" "text_mask" _ _ eq_refl eq_refl).
  rewrite (tf_sublayer_constructed "embed" "text_token" _ _ eq_refl eq_refl).
  destruct (_mask_loss_lm_mask_bool lm_mask_bool) as [selection|e]; simpl; [|done].
  unfold getattr. by rewrite Hnone.
Qed.

Lemma _entity_loss_ok (a c mask sequence_lengths : Tensor) :
  exists loss f1, _entity_loss self a c mask sequence_lengths = Ok (loss, f1).
Proof.
  unfold _entity_loss.
  rewrite (tf_sublayer_constructed "embed" "logits" _ _ eq_refl eq_refl). simpl.
  unfold tf_layer_method, getitem. rewrite self_layers. simpl.
  rewrite (tf_layer_constructed "crf" _ eq_refl). simpl.
  rewrite self_num_tags. simpl.
  rewrite (tf_layer_constructed "crf_f1_score" _ eq_refl). simpl.
  by do 2 eexists.
Qed.

Lemma _build_all_b_ok (tf_label_data : gmap string (list BatchTensor))
    (label_features : list BatchTensor) (label_mask : BatchTensor)
    (label_masks : list BatchTensor) :
  get_tf_label_data self = Ok tf_label_data ->
  tf_label_data !! "label_features" = Some label_features ->
  tf_label_data !! "label_mask" = Some (label_mask :: label_masks) ->
  (existsb bt_sparse label_features = true -> label ≠ NoLayer) ->
  exists all_labels_embed all_labels, _build_all_b self = Ok (all_labels_embed, all_labels).
Proof.
  intros Hld Hf Hm Hsparse. unfold _build_all_b, getitem. rewrite Hld. simpl.
  rewrite Hf, Hm. simpl.
  destruct (_create_bow_ok label_features (bt_tensor label_mask) "label" label
              (ReluFfn (HIDDEN_LAYERS_SIZES_LABEL config) (DROPRATE config) (C2 config)
                 (if SHARE_HIDDEN_LAYERS config then "text_intent" else "label")))
    as [t ->]; [by eapply tf_sublayer_constructed | done
               | by eapply tf_sublayer_constructed | done |].
  simpl. rewrite (tf_sublayer_constructed "embed" "label" _ _ eq_refl eq_refl). simpl.
  by do 2 eexists.
Qed.

Lemma _intent_loss_ok (a b : Tensor) :
  is_ok (_build_all_b self) = true ->
  exists r, _intent_loss self a b = Ok r.
Proof.
  intros Hb. unfold _intent_loss.
  destruct (_build_all_b self) as [[all_labels_embed all_labels]|]; [|done]. simpl.
  rewrite (tf_sublayer_constructed "embed" "text" _ _ eq_refl eq_refl). simpl.
  rewrite (tf_sublayer_constructed "embed" "label" _ _ eq_refl eq_refl). simpl.
  rewrite (tf_layer_constructed "loss_label" _ eq_refl). simpl.
  by eexists.
Qed.

End OnLayers.

Section ConstructedModel.

Variable prepare_batch : gmap string (list Array) -> list Tensor.
Variable batch_to_model_data_format :
  list Tensor -> gmap string (list FeatureSignature) -> gmap string (list BatchTensor).
Variable batch_tuple_sizes : gmap string (list Array) -> gmap string nat.
Variable mask_value : Tensor -> tensor3.

Local Abbreviation construct := (DIET prepare_batch batch_to_model_data_format).
Local Abbreviation diet_reachable := (reachable batch_to_model_data_format batch_tuple_sizes).
Local Abbreviation diet_run := (run_method batch_to_model_data_format batch_tuple_sizes).
Local Abbreviation train_step := (_train_losses_scores batch_to_model_data_format mask_value).

(** With the layer constructors and the methods of the base classes taken
    as returning, the constructor returns exactly when the data signature
    has text and label features none of whose dense entries has an empty
    shape, whatever the base object, the label data, the tags and the
    configuration: its only failures are the two signature lookups and the
    last dimension of an empty shape. *)
Theorem DIET_constructs_iff_signature_complete (base : obj)
    (ds : gmap string (list FeatureSignature)) (ld : gmap string (list Array))
    (itd : gmap nat string) (cfg : Config) :
  is_ok (construct base ds ld itd cfg) = true
  <-> exists text_sig label_sig,
        ds !! "text_features" = Some text_sig
        /\ ds !! "label_features" = Some label_sig
        /\ Forall (fun fs => is_sparse fs = false -> shape fs ≠ []) (text_sig ++ label_sig)%list.
Proof.
  rewrite (DIET_succeeds prepare_batch batch_to_model_data_format).
  unfold sparse_dense_layers, getitem.
  assert (Hall : forall l, forallb (fun fs => is_sparse fs || bool_decide (shape fs ≠ [])) l = true
                           <-> Forall (fun fs => is_sparse fs = false -> shape fs ≠ []) l).
  { intros l. rewrite forallb_forall, Forall_forall. setoid_rewrite <- list_elem_of_In.
    apply forall_proper. intros fs. apply forall_proper. intros _.
    rewrite orb_true_iff, bool_decide_eq_true.
    destruct (is_sparse fs); split; auto; intros [?|?]; done. }
  destruct (ds !! "text_features") as [text_sig|]; simpl;
    [|split; [done | by intros (? & ? & ? & _)]].
  rewrite _create_sparse_dense_layer_closed.
  destruct (forallb _ text_sig) eqn:Ht; simpl.
  - destruct (ds !! "label_features") as [label_sig|]; simpl;
      [|split; [done | by intros (? & ? & _ & ? & _)]].
    rewrite _create_sparse_dense_layer_closed.
    destruct (forallb _ label_sig) eqn:Hl; simpl.
    + split; [intros _|done]. exists text_sig, label_sig. split; [done|]. split; [done|].
      apply Forall_app. split; by apply Hall.
    + split; [done|]. intros (ts & ls & [= <-] & [= <-] & [_ Hls]%Forall_app).
      apply Hall in Hls. congruence.
  - split; [done|]. intros (ts & ls & [= <-] & _ & [Hts _]%Forall_app).
    apply Hall in Hts. congruence.
Qed.

Lemma reachable_training (self0 self : obj) :
  (exists t, self0 !! "training" = Some (ATensor t)) ->
  diet_reachable self0 self ->
  exists t, self !! "training" = Some (ATensor t).
Proof.
  intros H0. induction 1 as [|self m _ IH]; [done|].
  destruct m; simpl.
  - unfold set_training_phase, setattr, modifyM. simpl. rewrite lookup_insert_eq. by eexists.
  - assert (Hf : frames "training" (build_for_predict batch_tuple_sizes model_data)).
    { unfold build_for_predict.
      repeat first [ apply frames_liftM | apply frames_setattr; discriminate
                   | apply frames_bindM; [|intros ?] ]. }
    by rewrite Hf.
  - unfold setattr, modifyM. simpl. by rewrite lookup_insert_ne.
  - cbv [bindM liftM retM]. by destruct (predict _ self batch_in).
Qed.

Lemma reachable_data_signature (self0 self : obj) :
  (exists sig, self0 !! "data_signature" = Some (ASignature sig)) ->
  diet_reachable self0 self ->
  exists sig, self !! "data_signature" = Some (ASignature sig).
Proof.
  intros H0. induction 1 as [|self m _ IH]; [done|].
  destruct m; simpl.
  - unfold set_training_phase, setattr, modifyM. simpl. by rewrite lookup_insert_ne.
  - assert (Hf : frames "data_signature" (build_for_predict batch_tuple_sizes model_data)).
    { unfold build_for_predict.
      repeat first [ apply frames_liftM | apply frames_setattr; discriminate
                   | apply frames_bindM; [|intros ?] ]. }
    by rewrite Hf.
  - unfold setattr, modifyM. simpl. rewrite lookup_insert_eq. by eexists.
  - cbv [bindM liftM retM]. by destruct (predict _ self batch_in).
Qed.

Lemma reachable_attributes (base self0 self : obj)
    (ds : gmap string (list FeatureSignature)) (ld : gmap string (list Array))
    (itd : gmap nat string) (cfg : Config) :
  construct base ds ld itd cfg = Ok self0 ->
  diet_reachable self0 self ->
  exists text label,
    sparse_dense_layers cfg ds = Ok (text, label)
    /\ get_tf_layers self
       = Ok (constructed_layers cfg (Z.of_nat (size itd)) text label)
    /\ get_config self = Ok cfg
    /\ get_num_tags self = Ok (Z.of_nat (size itd))
    /\ get_tf_label_data self
       = Ok (batch_to_model_data_format (prepare_batch ld) (get_signature ld))
    /\ (exists t, get_training self = Ok t)
    /\ (exists sig, get_data_signature self = Ok sig)
    /\ (forall a n, (a, n) ∈ [("intent_acc", "i_acc"); ("intent_loss", "i_loss");
                              ("mask_loss", "m_loss"); ("mask_acc", "m_acc");
                              ("entity_loss", "e_loss"); ("entity_f1", "e_f1")] ->
                    getattr self a = Ok (AMetric n)).
Proof.
  intros Hinit Hreach.
  destruct (DIET_attributes prepare_batch batch_to_model_data_format base ds ld itd cfg self0
              Hinit)
    as (text & label & Hsd & Hlayers & Hconfig & Hnum & Hsig & Hld & Htr & Hmetrics).
  assert (Hframe : forall k,
    k ∉ ["training"; "batch_tuple_sizes"; "all_labels_embed"; "data_signature"] ->
    self !! k = self0 !! k).
  { intros k Hk.
    by apply (reachable_frames batch_to_model_data_format batch_tuple_sizes k self0 self). }
  exists text, label. split; [done|].
  unfold get_tf_layers, get_config, get_num_tags, get_tf_label_data, get_training,
    get_data_signature, getattr.
  rewrite !Hframe by name_notin. rewrite Hlayers, Hconfig, Hnum, Hld. simpl.
  do 4 (split; [done|]).
  split.
  { destruct (reachable_training self0 self) as [t ->]; [by eexists | done | by eexists]. }
  split.
  { destruct (reachable_data_signature self0 self) as [sig ->];
      [by eexists | done | by eexists]. }
  intros a n Hin. rewrite Hframe.
  - by rewrite (Hmetrics a n Hin).
  - repeat (apply elem_of_cons in Hin as [[= -> ->]|Hin]; [name_notin|]).
    by apply elem_of_nil in Hin.
Qed.


(** Every state of a constructed model holds the layers the constructor
    installed, its configuration, its number of tags, its label data and
    its six metrics; its training flag and data signature stay a tensor and
    a signature. *)
Theorem constructed_model_keeps_layers (base self0 self : obj)
    (ds : gmap string (list FeatureSignature)) (ld : gmap string (list Array))
    (itd : gmap nat string) (cfg : Config) :
  construct base ds ld itd cfg = Ok self0 ->
  diet_reachable self0 self ->
  exists text label,
    sparse_dense_layers cfg ds = Ok (text, label)
    /\ get_tf_layers self
       = Ok (constructed_layers cfg (Z.of_nat (size itd)) text label)
    /\ get_config self = Ok cfg
    /\ get_num_tags self = Ok (Z.of_nat (size itd))
    /\ get_tf_label_data self
       = Ok (batch_to_model_data_format (prepare_batch ld) (get_signature ld))
    /\ (exists t, get_training self = Ok t)
    /\ (exists sig, get_data_signature self = Ok sig)
    /\ (forall a n, (a, n) ∈ [("intent_acc", "i_acc"); ("intent_loss", "i_loss");
                              ("mask_loss", "m_loss"); ("mask_acc", "m_acc");
                              ("entity_loss", "e_loss"); ("entity_f1", "e_f1")] ->
                    getattr self a = Ok (AMetric n)).
Proof.
  intros Hinit Hreach.
  destruct (reachable_attributes base self0 self ds ld itd cfg Hinit Hreach)
    as (text & label & Hlayers & Hattributes).
  by exists text, label.
Qed.

Lemma update_state_ok (self : obj) (a n : string) (value : Tensor) (updates : Updates) :
  getattr self a = Ok (AMetric n) ->
  update_state self a value updates = ((updates ++ [(n, value)])%list, Ok tt).
Proof. intros Ha. unfold update_state. by rewrite Ha. Qed.

Lemma bindM_update_state {B} (self : obj) (a n : string) (value : Tensor)
    (f : unit -> ST Updates B) (updates : Updates) :
  getattr self a = Ok (AMetric n) ->
  bindM (update_state self a value) f updates = f tt (updates ++ [(n, value)])%list.
Proof. intros Ha. unfold bindM. by rewrite (update_state_ok _ _ _ _ _ Ha). Qed.

Lemma reachable_without_attribute (k : string) (base self0 self : obj)
    (ds : gmap string (list FeatureSignature)) (ld : gmap string (list Array))
    (itd : gmap nat string) (cfg : Config) :
  k ∉ init_names ->
  base !! k = None ->
  construct base ds ld itd cfg = Ok self0 ->
  diet_reachable self0 self ->
  self !! k = None.
Proof.
  intros Hk Hbase Hinit Hreach.
  rewrite (reachable_frames batch_to_model_data_format batch_tuple_sizes k self0 self),
    (DIET_frames prepare_batch batch_to_model_data_format k base ds ld itd cfg self0);
    try done.
  intros Hin. apply Hk. unfold init_names.
  repeat (apply elem_of_cons in Hin as [->|Hin]; [name_in|]).
  by apply elem_of_nil in Hin.
Qed.

(** The masked-LM loss of a constructed model never returns: once the
    selection mask is formed it looks up the attribute [_loss_mask], which
    the constructor does not assign (the loss layer is stored under
    [_tf_layers["loss_mask"]]). *)
Theorem mask_loss_raises_on_constructed_model (base self0 self : obj)
    (ds : gmap string (list FeatureSignature)) (ld : gmap string (list Array))
    (itd : gmap nat string) (cfg : Config) (a_transformed a : Tensor)
    (lm_mask_bool : tensor3) :
  base !! "_loss_mask" = None ->
  construct base ds ld itd cfg = Ok self0 ->
  diet_reachable self0 self ->
  tf_layer self "loss_mask" = Ok (dot_product_loss cfg)
  /\ _mask_loss self a_transformed a lm_mask_bool "text"
     = _mask_loss_lm_mask_bool lm_mask_bool ≫= fun _ => Raise (AttributeError "_loss_mask").
Proof.
  intros Hbase Hinit Hreach.
  destruct (reachable_attributes base self0 self ds ld itd cfg Hinit Hreach)
    as (text & label & _ & Hlayers & _).
  split.
  - by apply (tf_layer_constructed self cfg (Z.of_nat (size itd)) text label Hlayers).
  - apply (_mask_loss_without_attribute self cfg (Z.of_nat (size itd)) text label Hlayers).
    apply (reachable_without_attribute "_loss_mask" base self0 self ds ld itd cfg);
      [name_notin | done..].
Qed.

(** With masked-LM training configured, a training step on a constructed
    model never completes, whatever the batch, and updates no metric. *)
Theorem train_step_with_masked_lm_never_completes (base self0 self : obj)
    (ds : gmap string (list FeatureSignature)) (ld : gmap string (list Array))
    (itd : gmap nat string) (cfg : Config) (batch_in : list Tensor) (updates : Updates) :
  base !! "_loss_mask" = None ->
  construct base ds ld itd cfg = Ok self0 ->
  diet_reachable self0 self ->
  MASKED_LM cfg = true ->
  is_ok (train_step self batch_in updates).2 = false
  /\ (train_step self batch_in updates).1 = updates.
Proof.
  intros Hbase Hinit Hreach Hmasked.
  destruct (reachable_attributes base self0 self ds ld itd cfg Hinit Hreach)
    as (text & label & _ & Hlayers & Hconfig & _ & _ & [training Htraining] & _).
  assert (Hnone : self !! "_loss_mask" = None).
  { apply (reachable_without_attribute "_loss_mask" base self0 self ds ld itd cfg);
      [name_notin | done..]. }
  unfold _train_losses_scores.
  rewrite bindM_liftM. destruct (get_data_signature self) as [sig|]; [|done].
  rewrite bindM_liftM. destruct (getitem _ "text_mask") as [text_masks|]; [|done].
  rewrite bindM_liftM. destruct (index0 text_masks) as [mask_text|]; [|done].
  rewrite bindM_liftM. destruct (getitem _ "text_features") as [text_features|]; [|done].
  rewrite bindM_liftM, Hconfig. cbv beta iota. rewrite Hmasked.
  rewrite bindM_liftM.
  destruct (_create_sequence self text_features (bt_tensor mask_text) "text" true)
    as [[[text_transformed text_in] lm_mask_bool_text]|] eqn:Hseq; [|done].
  apply (_create_sequence_mask self cfg training Hconfig Htraining) in Hseq as [lm Hlm].
  simpl in Hlm. subst lm_mask_bool_text.
  rewrite bindM_liftM. cbv beta iota. rewrite Hmasked.
  rewrite !bindM_assoc, bindM_liftM.
  rewrite (_mask_loss_without_attribute self cfg (Z.of_nat (size itd)) text label Hlayers)
    by done.
  by destruct (_mask_loss_lm_mask_bool (mask_value lm)).
Qed.

Lemma sparse_dense_layer_exists (signature : list FeatureSignature) (layer_name : string)
    (reg_lambda : Q) (dense_dim : nat) (l : layer) (features : list BatchTensor) :
  _create_sparse_dense_layer signature layer_name reg_lambda dense_dim = Ok l ->
  fits features signature ->
  existsb bt_sparse features = true -> l ≠ NoLayer.
Proof.
  rewrite _create_sparse_dense_layer_closed. intros Hl Hfits Hsparse.
  destruct (forallb _ signature); [|done]. rewrite (Hfits Hsparse) in Hl.
  by injection Hl as <-.
Qed.

Ltac lift_step := etrans; [apply bindM_liftM|]; cbv beta iota.
Ltac assoc_step := etrans; [apply bindM_assoc|]; cbv beta iota.
Ltac update_step H := etrans; [apply (bindM_update_state _ _ _ _ _ _ H)|]; cbv beta iota.

(** With masked-LM training off, a training step on a constructed model
    finds every attribute, key and layer it looks up, provided the batch
    holds a text mask and text features that fit the signature, label
    features and a label mask in the batch and in the label data when
    intent classification is on, and tag ids when entity recognition is on.
    Tensor operations and layer calls being taken as returning, it then
    updates the intent loss and accuracy and the entity loss and F1 score,
    in this order, each when its objective is on, and no other metric. *)
Theorem train_step_without_masked_lm_completes (base self0 self : obj)
    (ds sig : gmap string (list FeatureSignature)) (ld : gmap string (list Array))
    (itd : gmap nat string) (cfg : Config) (batch_in : list Tensor) (updates : Updates)
    (text_sig label_sig : list FeatureSignature) :
  construct base ds ld itd cfg = Ok self0 ->
  diet_reachable self0 self ->
  MASKED_LM cfg = false ->
  ds !! "text_features" = Some text_sig ->
  ds !! "label_features" = Some label_sig ->
  get_data_signature self = Ok sig ->
  has_features (batch_to_model_data_format batch_in sig) "text_features" "text_mask"
    text_sig ->
  (INTENT_CLASSIFICATION cfg = true ->
   has_features (batch_to_model_data_format batch_in sig) "label_features" "label_mask"
     label_sig
   /\ has_features (batch_to_model_data_format (prepare_batch ld) (get_signature ld))
        "label_features" "label_mask" label_sig) ->
  (ENTITY_RECOGNITION cfg = true ->
   exists tags rest, batch_to_model_data_format batch_in sig !! "tag_ids" = Some (tags :: rest)) ->
  exists new,
    train_step self batch_in updates = ((updates ++ new)%list, Ok tt)
    /\ new.*1 = ((if INTENT_CLASSIFICATION cfg then ["i_loss"; "i_acc"] else []) ++
                 (if ENTITY_RECOGNITION cfg then ["e_loss"; "e_f1"] else []))%list.
Proof.
  intros Hinit Hreach Hmasked Hts Hls Hsig
    [(text_features & Htf & Htfits) (mask_text & masks & Hmask)] Hintent Hentity.
  destruct (reachable_attributes base self0 self ds ld itd cfg Hinit Hreach)
    as (text & label & Hsd & Hlayers & Hconfig & Hnum & Hld & [training Htraining] & _
        & Hmetrics).
  unfold sparse_dense_layers, getitem in Hsd. rewrite Hts, Hls in Hsd. simpl in Hsd.
  destruct (_create_sparse_dense_layer text_sig _ _ _) as [text'|] eqn:Htext; [|done].
  destruct (_create_sparse_dense_layer label_sig _ _ _) as [label'|] eqn:Hlabel; [|done].
  simpl in Hsd. injection Hsd as -> ->.
  assert (Hsub : forall k sub g l,
    constructed_layers cfg (Z.of_nat (size itd)) text label !! k = Some (Layers g) ->
    g !! sub = Some l -> tf_sublayer self k sub = Ok l).
  { intros k sub g l.
    by apply (tf_sublayer_constructed self cfg (Z.of_nat (size itd)) text label Hlayers). }
  unfold _train_losses_scores.
  rewrite bindM_liftM, Hsig.
  rewrite bindM_liftM. unfold getitem at 1. rewrite Hmask.
  rewrite bindM_liftM. cbn [index0].
  rewrite bindM_liftM. unfold getitem at 1. rewrite Htf.
  rewrite bindM_liftM, Hconfig. cbv beta iota. rewrite Hmasked.
  destruct (_create_sequence_ok self cfg (Z.of_nat (size itd)) text label training
              Hlayers Hconfig Htraining text_features (bt_tensor mask_text) text false)
    as (text_transformed & text_in & lm & Hseq & _).
  { by apply (Hsub "sparse_to_dense" "text" _ _ eq_refl). }
  { by apply (sparse_dense_layer_exists text_sig "text" (C2 cfg) (DENSE_DIM_text cfg)). }
  rewrite bindM_liftM, Hseq. cbv beta iota.
  rewrite bindM_liftM. cbv beta iota. rewrite Hmasked.
  unfold bindM at 1. unfold retM at 1.
  rewrite bindM_liftM. cbv beta iota.
  set (cls := TOp "gather_nd"
                [text_transformed;
                 TOp "maximum"
                   [TOp "zero" [];
                    TOp "sub"
                      [TOp "cast_int32"
                         [TOp "reduce_sum" [TOp "feature_0" [bt_tensor mask_text]]];
                       TOp "one" []]]]).
  set (sequence_lengths :=
         TOp "cast_int32" [TOp "reduce_sum" [TOp "feature_0" [bt_tensor mask_text]]]).
  assert (Hi : INTENT_CLASSIFICATION cfg = true ->
    exists label_features label_mask label_masks label0 r,
      batch_to_model_data_format batch_in sig !! "label_features" = Some label_features
      /\ batch_to_model_data_format batch_in sig !! "label_mask"
         = Some (label_mask :: label_masks)
      /\ _create_bow self label_features (bt_tensor label_mask) "label" = Ok label0
      /\ _intent_loss self cls label0 = Ok r).
  { intros Hic.
    destruct (Hintent Hic)
      as [[(label_features & Hlf & Hlfits) (label_mask & label_masks & Hlm)]
          [(all_features & Haf & Hafits) (all_mask & all_masks & Ham)]].
    destruct (_create_bow_ok self cfg (Z.of_nat (size itd)) text label training
                Hlayers Htraining label_features (bt_tensor label_mask) "label" label
                (ReluFfn (HIDDEN_LAYERS_SIZES_LABEL cfg) (DROPRATE cfg) (C2 cfg)
                   (if SHARE_HIDDEN_LAYERS cfg then "text_intent" else "label")))
      as [label0 Hbow].
    { by apply (Hsub "sparse_to_dense" "label" _ _ eq_refl). }
    { by apply (sparse_dense_layer_exists label_sig "label" (C2 cfg) (DENSE_DIM_label cfg)). }
    { by apply (Hsub "ffnn" "label" _ _ eq_refl). }
    { done. }
    destruct (_intent_loss_ok self cfg (Z.of_nat (size itd)) text label Hlayers cls label0)
      as [r Hr].
    { apply is_ok_true.
      destruct (_build_all_b_ok self cfg (Z.of_nat (size itd)) text label training
                  Hlayers Htraining _ all_features all_mask all_masks Hld Haf Ham)
        as (e1 & e2 & He).
      - by apply (sparse_dense_layer_exists label_sig "label" (C2 cfg)
                    (DENSE_DIM_label cfg)).
      - by eexists. }
    by exists label_features, label_mask, label_masks, label0, r. }
  assert (He : ENTITY_RECOGNITION cfg = true ->
    exists tags rest loss f1,
      batch_to_model_data_format batch_in sig !! "tag_ids" = Some (tags :: rest)
      /\ _entity_loss self text_transformed (bt_tensor tags) (bt_tensor mask_text)
           sequence_lengths = Ok (loss, f1)).
  { intros Her. destruct (Hentity Her) as (tags & rest & Htags).
    destruct (_entity_loss_ok self cfg (Z.of_nat (size itd)) text label Hlayers Hnum
                text_transformed (bt_tensor tags) (bt_tensor mask_text) sequence_lengths)
      as (loss & f1 & Hloss).
    by exists tags, rest, loss, f1. }
  assert (Hil := Hmetrics "intent_loss" "i_loss" ltac:(name_in)).
  assert (Hia := Hmetrics "intent_acc" "i_acc" ltac:(name_in)).
  assert (Hel := Hmetrics "entity_loss" "e_loss" ltac:(name_in)).
  assert (Hef := Hmetrics "entity_f1" "e_f1" ltac:(name_in)).
  clear Hintent Hentity Hmetrics.
  destruct (INTENT_CLASSIFICATION cfg) eqn:Hic; destruct (ENTITY_RECOGNITION cfg) eqn:Her.
  - destruct (Hi eq_refl) as (label_features & label_mask & label_masks & label0 & r
                             & Hlf & Hlm & Hbow & Hr).
    destruct (He eq_refl) as (tags & rest & loss & f1 & Htags & Hloss).
    exists [("i_loss", TOp "getitem_0" [r]); ("i_acc", TOp "getitem_1" [r]);
            ("e_loss", loss); ("e_f1", f1)].
    split; [|reflexivity].
    cbv beta iota. assoc_step.
    lift_step. unfold getitem at 1. rewrite Hlf. cbv beta iota. assoc_step.
    lift_step. unfold getitem at 1. rewrite Hlm. cbv beta iota. assoc_step.
    lift_step. cbn [index0]. assoc_step.
    lift_step. rewrite Hbow. cbv beta iota. assoc_step.
    lift_step. rewrite Hr. cbv beta iota. assoc_step.
    update_step Hil. update_step Hia.
    lift_step. rewrite Her. cbv beta iota.
    lift_step. unfold getitem at 1. rewrite Htags. cbv beta iota.
    lift_step. cbn [index0].
    lift_step. rewrite Hloss. cbv beta iota.
    update_step Hel. rewrite (update_state_ok _ _ _ _ _ Hef).
    by rewrite <- !(assoc_L (++)).
  - destruct (Hi eq_refl) as (label_features & label_mask & label_masks & label0 & r
                             & Hlf & Hlm & Hbow & Hr).
    exists [("i_loss", TOp "getitem_0" [r]); ("i_acc", TOp "getitem_1" [r])].
    split; [|reflexivity].
    cbv beta iota. assoc_step.
    lift_step. unfold getitem at 1. rewrite Hlf. cbv beta iota. assoc_step.
    lift_step. unfold getitem at 1. rewrite Hlm. cbv beta iota. assoc_step.
    lift_step. cbn [index0]. assoc_step.
    lift_step. rewrite Hbow. cbv beta iota. assoc_step.
    lift_step. rewrite Hr. cbv beta iota. assoc_step.
    update_step Hil. update_step Hia.
    lift_step. rewrite Her. unfold retM.
    by rewrite <- !(assoc_L (++)).
  - destruct (He eq_refl) as (tags & rest & loss & f1 & Htags & Hloss).
    exists [("e_loss", loss); ("e_f1", f1)].
    split; [|reflexivity].
    cbv beta iota. unfold bindM at 1. unfold retM at 1.
    lift_step. rewrite Her. cbv beta iota.
    lift_step. unfold getitem at 1. rewrite Htags. cbv beta iota.
    lift_step. cbn [index0].
    lift_step. rewrite Hloss. cbv beta iota.
    update_step Hel. rewrite (update_state_ok _ _ _ _ _ Hef).
    by rewrite <- !(assoc_L (++)).
  - exists []. split; [|reflexivity].
    cbv beta iota. unfold bindM at 1. unfold retM at 1.
    lift_step. rewrite Her. unfold retM. by rewrite (right_id_L [] (++)).
Qed.



End ConstructedModel.

Section BuildForPredict.

Variable prepare_batch : gmap string (list Array) -> list Tensor.
Variable batch_to_model_data_format :
  list Tensor -> gmap string (list FeatureSignature) -> gmap string (list BatchTensor).
Variable batch_tuple_sizes : gmap string (list Array) -> gmap string nat.

Local Abbreviation construct := (DIET prepare_batch batch_to_model_data_format).
Local Abbreviation diet_reachable := (reachable batch_to_model_data_format batch_tuple_sizes).

(** On a constructed model whose label data holds label features that fit
    the signature and a label mask, [build_for_predict] returns, records the
    batch tuple sizes of the data it is given, stores a tensor with the
    embeddings of all labels, and leaves every other attribute as it was. *)
Theorem build_for_predict_stores_label_embeddings (base self0 self : obj)
    (ds : gmap string (list FeatureSignature)) (ld model_data : gmap string (list Array))
    (itd : gmap nat string) (cfg : Config) (label_sig : list FeatureSignature) :
  construct base ds ld itd cfg = Ok self0 ->
  diet_reachable self0 self ->
  ds !! "label_features" = Some label_sig ->
  has_features (batch_to_model_data_format (prepare_batch ld) (get_signature ld))
    "label_features" "label_mask" label_sig ->
  let r := build_for_predict batch_tuple_sizes model_data self in
  r.2 = Ok tt
  /\ r.1 !! "batch_tuple_sizes" = Some (ASizes (batch_tuple_sizes model_data))
  /\ (exists t, r.1 !! "all_labels_embed" = Some (ATensor t))
  /\ (forall k, k ≠ "batch_tuple_sizes" -> k ≠ "all_labels_embed" -> r.1 !! k = self !! k).
Proof.
  intros Hinit Hreach Hls [(features & Hf & Hfits) (mask & masks & Hm)].
  destruct (reachable_attributes prepare_batch batch_to_model_data_format batch_tuple_sizes
              base self0 self ds ld itd cfg Hinit Hreach)
    as (text & label & Hsd & Hlayers & Hconfig & _ & Hld & [training Htraining] & _).
  unfold sparse_dense_layers, getitem in Hsd. rewrite Hls in Hsd.
  destruct (ds !! "text_features") as [text_sig|]; simpl in Hsd; [|done].
  destruct (_create_sparse_dense_layer text_sig _ _ _) as [text'|]; simpl in Hsd; [|done].
  destruct (_create_sparse_dense_layer label_sig _ _ _) as [label'|] eqn:Hlabel;
    simpl in Hsd; [|done].
  injection Hsd as -> ->.
  set (self' := <["batch_tuple_sizes" := ASizes (batch_tuple_sizes model_data)]> self).
  destruct (_build_all_b_ok self' cfg (Z.of_nat (size itd)) text label training)
    with (tf_label_data := batch_to_model_data_format (prepare_batch ld) (get_signature ld))
         (label_features := features) (label_mask := mask) (label_masks := masks)
    as (all_labels_embed & all_labels & Hb).
  - revert Hlayers. unfold get_tf_layers, getattr, self'. by rewrite lookup_insert_ne.
  - revert Htraining. unfold get_training, getattr, self'. by rewrite lookup_insert_ne.
  - revert Hld. unfold get_tf_label_data, getattr, self'. by rewrite lookup_insert_ne.
  - done.
  - done.
  - by apply (sparse_dense_layer_exists label_sig "label" (C2 cfg) (DENSE_DIM_label cfg)).
  - unfold build_for_predict. rewrite bindM_setattr. fold self'.
    rewrite bindM_liftM, Hb. unfold setattr, modifyM. cbn [fst snd]. unfold self'.
    split; [done|]. split.
    + by rewrite lookup_insert_ne, lookup_insert_eq.
    + split.
      * rewrite lookup_insert_eq. by eexists.
      * intros k Hk1 Hk2. unfold self'. by rewrite !lookup_insert_ne.
Qed.

End BuildForPredict.

(** ** The checked configuration *)

Lemma _check_config_parameters_fixed (c c' : Config) :
  _check_config_parameters c = Ok c' -> _check_config_parameters c' = Ok c'.
Proof.
  unfold _check_config_parameters.
  destruct (SHARE_HIDDEN_LAYERS c && _) eqn:Hshare; [done|].
  intros [= <-].
  destruct c as [hl_text hl_label share tsize nlayers heads pos maxlen bsizes bstrategy
                 epochs seed lr ddt ddl embed numneg sim loss mupos muneg maxsim scale
                 c2 cemb droprate uni evalepochs evalexamples ic er mlm sid].
  cbn [SIMILARITY_TYPE LOSS_TYPE EVAL_NUM_EPOCHS EPOCHS SHARE_HIDDEN_LAYERS
       HIDDEN_LAYERS_SIZES_TEXT HIDDEN_LAYERS_SIZES_LABEL] in *.
  repeat first
    [ progress cbn [SIMILARITY_TYPE LOSS_TYPE EVAL_NUM_EPOCHS EPOCHS SHARE_HIDDEN_LAYERS
                    HIDDEN_LAYERS_SIZES_TEXT HIDDEN_LAYERS_SIZES_LABEL
                    set_SIMILARITY_TYPE set_EVAL_NUM_EPOCHS]
    | rewrite Hshare
    | case_bool_decide
    | match goal with
      | |- context [?x <? 1] => destruct (x <? 1) eqn:?
      end
    | done ].
Qed.

(** A classifier that was constructed holds a checked configuration:
    sharing hidden layers implies equal layer sizes, an ["auto"]
    similarity is resolved for the softmax and margin losses, the
    evaluation cadence is at least 1 when the number of epochs is, and
    constructing a classifier again from this configuration leaves it
    as it is. *)
Theorem constructed_config_is_checked (given : Config)
    (ild itd : option (gmap nat string)) (m : option obj)
    (pf : option (list Tensor -> result Out)) (sizes : option (gmap string nat))
    (classifier : Classifier) :
  EmbeddingIntentClassifier__init__ given ild itd m pf sizes = Ok classifier ->
  let c := component_config classifier in
  (SHARE_HIDDEN_LAYERS c = true -> HIDDEN_LAYERS_SIZES_TEXT c = HIDDEN_LAYERS_SIZES_LABEL c)
  /\ (LOSS_TYPE c = "softmax" \/ LOSS_TYPE c = "margin" -> SIMILARITY_TYPE c ≠ "auto")
  /\ (1 <= EPOCHS c -> 1 <= EVAL_NUM_EPOCHS c)
  /\ EmbeddingIntentClassifier__init__ c ild itd m pf sizes = Ok classifier.
Proof.
  unfold EmbeddingIntentClassifier__init__.
  destruct (_check_config_parameters given) as [c|] eqn:Hcheck; [|done]. simpl.
  intros [= <-]. simpl. rewrite (_check_config_parameters_fixed given c Hcheck). simpl.
  split; [|split; [|split]]; [| | |done].
  - unfold _check_config_parameters in Hcheck.
    destruct (SHARE_HIDDEN_LAYERS given) eqn:Hs; simpl in Hcheck.
    + case_bool_decide as Heq; [|done]. simpl in Hcheck. injection Hcheck as <-.
      intros _.
      repeat first [ case_bool_decide | destruct (_ <? 1) | exact Heq ].
    + injection Hcheck as <-. intros Hshare. exfalso. revert Hshare.
      repeat first [ case_bool_decide | destruct (_ <? 1) ]; simpl; congruence.
  - unfold _check_config_parameters in Hcheck.
    destruct (SHARE_HIDDEN_LAYERS given && _); [done|]. injection Hcheck as <-.
    repeat first [ case_bool_decide | destruct (_ <? 1) ]; simpl;
      intros [?|?]; congruence.
  - unfold _check_config_parameters in Hcheck.
    destruct (SHARE_HIDDEN_LAYERS given && _); [done|]. injection Hcheck as <-.
    repeat first [ case_bool_decide
                 | match goal with
                   | |- context [?x <? 1] => destruct (Z.ltb_spec x 1)
                   end ]; simpl in *; lia.
Qed.

(** ** Instances *)

Lemma init_raises_iff_sharing_conflict_witness :
  EmbeddingIntentClassifier__init__ config_sharing_conflict None None None None None =
    Raise (ValueError
      "If hidden layer weights are shared,hidden_layer_sizes for text and label must coincide.")
  /\ exists classifier,
       EmbeddingIntentClassifier__init__ defaults None None None None None = Ok classifier.
Proof.
  split.
  - apply (proj1 (init_raises_iff_sharing_conflict config_sharing_conflict
                    None None None None None)).
    split; [reflexivity | discriminate].
  - apply (proj2 (init_raises_iff_sharing_conflict defaults None None None None None)).
    intros [H _]. discriminate H.
Defined.

(** C7, at an input where the code departs from it: right after training
    the classifier holds a model but no prediction function; [_predict]
    treats this as "no trained model" and returns [None], yet processing a
    message raises [TypeError] instead of yielding the neutral result. *)
Theorem process_after_train_raises :
  (exists m, model (self trained_world) = Some m)
  /\ predict_func (self trained_world) = None
  /\ _predict outside_token_labels no_tensors (self trained_world) message_with_entity
     = Ok None
  /\ (process unit outside_token_labels name_extractor 10 no_tensors
        (trained_world, message_with_entity)).2
     = Raise (TypeError "'NoneType' object is not subscriptable").
Proof.
  assert (Hm : exists m, model (self trained_world) = Some m).
  { assert (Hb : from_option (fun _ => true) false (model (self trained_world)) = true)
      by (vm_compute; reflexivity).
    destruct (model (self trained_world)); [eauto | discriminate Hb]. }
  assert (Hp : predict_func (self trained_world) = None) by (vm_compute; reflexivity).
  split; [exact Hm|]. split; [exact Hp|]. destruct Hm as [m Hm]. split.
  - unfold _predict. rewrite Hm, Hp. reflexivity.
  - apply (process_without_predict_func _ _ _ _ _ _ _ m); [exact Hm | exact Hp |].
    left. vm_compute. reflexivity.
Qed.

(** C4, at an input where the code departs from it: a classifier without
    a model, entity recognition enabled, processing a message that already
    carries one entity writes back the empty list. *)
Theorem process_without_model_drops_entities :
  model fresh_classifier = None
  /\ ENTITY_RECOGNITION (component_config fresh_classifier) = true
  /\ entities message_with_entity = Some [entity_prior]
  /\ (process unit outside_token_labels name_extractor 10 no_tensors
        (fresh_world, message_with_entity)).2 = Ok tt
  /\ entities (process unit outside_token_labels name_extractor 10 no_tensors
                 (fresh_world, message_with_entity)).1.2 = Some [].
Proof.
  repeat split; vm_compute; reflexivity.
Qed.

Lemma mask_selection_nonempty_per_batch_witness :
  has_shape [[[false]; [false]]; [[false]; [false]]] 2 2
  /\ exists selection,
       _mask_loss_lm_mask_bool [[[false]; [false]]; [[false]; [false]]] = Ok selection
       /\ (exists i row, selection !! i = Some row /\ true ∈ row)
       /\ (tf_reduce_any [[[false]; [false]]; [[false]; [false]]] = true ->
           selection = fmap (M := list) (fmap (M := list) (hd false))
                         [[[false]; [false]]; [[false]; [false]]])
       /\ (tf_reduce_any [[[false]; [false]]; [[false]; [false]]] = false ->
           selection = (true :: replicate 1 false) :: replicate 1 (replicate 2 false)).
Proof.
  assert (Hshape : has_shape [[[false]; [false]]; [[false]; [false]]] 2 2).
  { split; [reflexivity|]. repeat constructor. }
  split; [exact Hshape|].
  exact (mask_selection_nonempty_per_batch _ 1 1 Hshape).
Defined.

(** In a batch of two one-token sequences where the draw selected the token
    of the first sequence only, the mask is left as drawn and the second
    sequence has no selected position. *)
Lemma second_sequence_without_masked_position :
  _mask_loss_lm_mask_bool [[[true]]; [[false]]] = Ok [[true]; [false]]
  /\ ~ every_sequence_has_a_masked_position.
Proof.
  split; [reflexivity|].
  intros Hall.
  destruct (Hall [[true]; [true]] [[[true]]; [[false]]] [[true]; [false]]) with
    (i := 1%nat) (valid := [true]) as (row & Hrow & Htrue).
  - repeat constructor; eexists; (split; [reflexivity|]); done.
  - reflexivity.
  - reflexivity.
  - left.
  - simpl in Hrow. injection Hrow as <-.
    apply elem_of_cons in Htrue as [Ht|Ht]; [discriminate Ht | by apply elem_of_nil in Ht].
Qed.

Lemma predict_reads_unassigned_attributes_witness :
  DIET no_tensors grouped_by_signature ∅ (get_signature example_model_data)
    example_label_data {[0%nat := "O"]} two_epoch_config = Ok example_diet
  /\ predict_encode grouped_by_signature example_diet_for_predict [] = Ok example_encoded
  /\ (example_diet_for_predict !! "_embed" = None
      /\ example_diet_for_predict !! "_loss_label" = None
      /\ example_diet_for_predict !! "_crf" = None)
  /\ is_ok (predict grouped_by_signature example_diet_for_predict []) = false
  /\ predict grouped_by_signature example_diet_for_predict [] = Raise (AttributeError "_embed").
Proof.
  assert (Hinit : DIET no_tensors grouped_by_signature ∅ (get_signature example_model_data)
                    example_label_data {[0%nat := "O"]} two_epoch_config = Ok example_diet)
    by (vm_compute; reflexivity).
  assert (Hencode : predict_encode grouped_by_signature example_diet_for_predict []
                    = Ok example_encoded)
    by (vm_compute; reflexivity).
  split; [exact Hinit|]. split; [exact Hencode|].
  destruct (predict_reads_unassigned_attributes no_tensors grouped_by_signature no_sizes
              ∅ example_diet example_diet_for_predict (get_signature example_model_data)
              example_label_data {[0%nat := "O"]} two_epoch_config [])
    as (Hnames & Hnever & Hstop).
  - reflexivity.
  - reflexivity.
  - reflexivity.
  - exact Hinit.
  - unfold example_diet_for_predict. apply reachable_step, reachable_step, reachable_init.
  - left. reflexivity.
  - split; [exact Hnames|]. split; [exact Hnever|]. exact (Hstop _ Hencode).
Defined.

Lemma train_skips_all_objectives_without_two_labels_witness :
  (train unit (fun _ => tt) tt elements outside_token_labels no_tensors
     grouped_by_signature ∅ whole_data_batches corpus_one_intent fresh_world).2 = Ok tt
  /\ model (self (train unit (fun _ => tt) tt elements outside_token_labels no_tensors
                    grouped_by_signature ∅ whole_data_batches corpus_one_intent
                    fresh_world).1) = model (self fresh_world)
  /\ events (train unit (fun _ => tt) tt elements outside_token_labels no_tensors
               grouped_by_signature ∅ whole_data_batches corpus_one_intent fresh_world).1
     = (events fresh_world ++
        [Log "DEBUG" "Started training embedding classifier.";
         Log "ERROR"
           "Can not train intent classifier. Need at least 2 different classes. Skipping training of classifier."])%list.
Proof.
  apply (train_skips_all_objectives_without_two_labels unit (fun _ => tt)
           outside_token_labels no_tensors grouped_by_signature ∅ whole_data_batches
           tt elements corpus_one_intent fresh_world one_intent_model_data).
  - reflexivity.
  - vm_compute. reflexivity.
  - vm_compute. lia.
Defined.

(** On a corpus with a single intent, with intent classification and
    entity recognition enabled, [train] returns normally without a model
    and without a call of [fit]: the entity objective is not trained. *)
Lemma train_on_one_intent_fits_nothing :
  ENTITY_RECOGNITION (component_config fresh_classifier) = true
  /\ model (self (train unit (fun _ => tt) tt elements outside_token_labels no_tensors
                    grouped_by_signature ∅ whole_data_batches corpus_one_intent
                    fresh_world).1) = None
  /\ ~ other_objectives_still_train.
Proof.
  assert (Hmodel : model (self (train unit (fun _ => tt) tt elements outside_token_labels
                                  no_tensors grouped_by_signature ∅ whole_data_batches
                                  corpus_one_intent fresh_world).1) = None)
    by (vm_compute; reflexivity).
  split; [reflexivity|]. split; [exact Hmodel|].
  intros Hall.
  destruct (Hall unit (fun _ => tt) tt elements outside_token_labels no_tensors
              grouped_by_signature ∅ whole_data_batches corpus_one_intent fresh_world
              one_intent_model_data) as (_ & [m Hm] & _).
  - intros s. reflexivity.
  - reflexivity.
  - left. reflexivity.
  - vm_compute. reflexivity.
  - vm_compute. lia.
  - rewrite Hmodel in Hm. discriminate Hm.
Qed.

Lemma training_is_deterministic_given_seed_witness :
  _create_label_id_dict elements corpus_two_intents INTENT_ATTRIBUTE
  = _create_label_id_dict reversed_elements corpus_two_intents INTENT_ATTRIBUTE
  /\ _create_tag_id_dict elements corpus_two_intents
     = _create_tag_id_dict reversed_elements corpus_two_intents
  /\ train Z id 1 elements outside_token_labels no_tensors grouped_by_signature ∅
       counting_batches corpus_two_intents (mkWorld seeded_classifier 7 [])
     = train Z id 2 reversed_elements outside_token_labels no_tensors grouped_by_signature ∅
         counting_batches corpus_two_intents (mkWorld seeded_classifier 8 []).
Proof.
  apply (training_is_deterministic_given_seed Z id outside_token_labels no_tensors
           grouped_by_signature ∅ counting_batches elements reversed_elements 1 2
           corpus_two_intents (mkWorld seeded_classifier 7 [])
           (mkWorld seeded_classifier 8 []) 42).
  - intros s. reflexivity.
  - intros s. unfold reversed_elements. apply reverse_Permutation.
  - reflexivity.
  - reflexivity.
  - reflexivity.
Defined.

Lemma label_and_tag_dictionaries_are_bijections_witness :
  (exists idx,
     _create_label_id_dict elements corpus_two_intents INTENT_ATTRIBUTE !! "greet" = Some idx
     /\ invert_dict (_create_label_id_dict elements corpus_two_intents INTENT_ATTRIBUTE) !! idx
        = Some "greet")
  /\ exists tag_id_dict,
       _create_tag_id_dict elements corpus_two_intents = Ok tag_id_dict
       /\ (exists idx, tag_id_dict !! "city" = Some idx
                       /\ invert_dict tag_id_dict !! idx = Some "city")
       /\ invert_dict tag_id_dict !! 0%nat = Some "O".
Proof.
  destruct (label_and_tag_dictionaries_are_bijections unit elements
              (fun s => reflexivity (elements s)) outside_token_labels
              corpus_two_intents fresh_world)
    as (_ & Hlabels & _ & Htags).
  split.
  - apply (Hlabels example_greet "greet"); [left | reflexivity].
  - destruct Htags as (tag_id_dict & Hdict & _ & Hobserved & Hzero & _).
    + intros example Hin. apply list_elem_of_singleton in Hin as ->. by eexists.
    + exists tag_id_dict. split; [exact Hdict|]. split; [|exact Hzero].
      apply (Hobserved example_greet [entity_paris] entity_paris "city");
        [left | reflexivity | left | reflexivity].
Defined.

Lemma intent_ranking_sorted_and_capped_witness :
  exists label ranking,
    _predict_label unit 10 (Some (mkOut (Some [(2 # 10)%Q; (7 # 10)%Q]) None))
      (mkWorld scoring_classifier tt [])
    = (mkWorld scoring_classifier tt [], Ok (label, ranking))
    /\ StronglySorted (fun a b => (confidence b <= confidence a)%Q) ranking
    /\ (length ranking <= 10)%nat
    /\ ((0 < 10)%nat -> head ranking = Some label).
Proof.
  apply (intent_ranking_sorted_and_capped unit 10 (mkWorld scoring_classifier tt [])
           (mkOut (Some [(2 # 10)%Q; (7 # 10)%Q]) None) [(2 # 10)%Q; (7 # 10)%Q]
           (<[1%nat := "greet"]> {[0%nat := "bye"]}) example_diet).
  - reflexivity.
  - reflexivity.
  - reflexivity.
  - discriminate.
  - intros i Hi. simpl in Hi.
    destruct i as [|[|i]]; [by eexists | by eexists | lia].
Defined.

Lemma convert_tags_spans_well_formed_witness :
  span_of tokens_hello_paris ["O"; "city"; "O"] span_paris
  /\ value span_paris = Some (py_slice "hello paris" (start span_paris) (end_ span_paris)).
Proof.
  apply (convert_tags_spans_well_formed "hello paris" tokens_hello_paris ["O"; "city"; "O"]
           [span_paris] span_paris).
  - reflexivity.
  - left.
Defined.

Lemma convert_tags_splits_at_outside_witness :
  _convert_tags_to_entities "hello paris"
    ([mkToken "hello" 0 5] ++ mkToken "paris" 6 11 :: [mkToken "__CLS__" 12 19])%list
    (["greeting"] ++ "O" :: ["marker"])%list
  = _convert_tags_to_entities "hello paris" [mkToken "hello" 0 5] ["greeting"] ≫= fun es1 =>
    _convert_tags_to_entities "hello paris" [mkToken "__CLS__" 12 19] ["marker"] ≫= fun es2 =>
    Ok (es1 ++ es2)%list.
Proof.
  apply (convert_tags_splits_at_outside "hello paris" [mkToken "hello" 0 5]
           [mkToken "__CLS__" 12 19] (mkToken "paris" 6 11) ["greeting"] ["marker"]).
  reflexivity.
Defined.

Lemma label_ids_enumerate_sorted_labels_witness :
  size (_create_label_id_dict elements corpus_two_intents INTENT_ATTRIBUTE)
  = size (distinct_label_ids corpus_two_intents INTENT_ATTRIBUTE).
Proof.
  apply (label_ids_enumerate_sorted_labels elements (fun s => reflexivity (elements s))
           corpus_two_intents).
Defined.

Lemma tag_ids_fill_range_without_annotated_outside_witness :
  city_tag_dict !! "O" = Some 0%nat
  /\ size city_tag_dict = S (size (list_to_set (omap id [Some "city"]) : gset string))
  /\ (forall idx, (idx < size city_tag_dict)%nat <-> exists tag, city_tag_dict !! tag = Some idx).
Proof.
  apply (tag_ids_fill_range_without_annotated_outside elements
           (fun s => reflexivity (elements s)) corpus_two_intents [Some "city"] city_tag_dict).
  - reflexivity.
  - vm_compute. reflexivity.
  - intros Hin. apply list_elem_of_singleton in Hin. discriminate Hin.
Defined.

Lemma tag_id_reaches_size_with_annotated_outside_witness :
  exists d, _create_tag_id_dict elements corpus_outside_entity = Ok d
            /\ exists tag, d !! tag = Some (size d).
Proof.
  exists (<["O" := 0%nat]> {["city" := 2%nat]}).
  split; [vm_compute; reflexivity|].
  apply (tag_id_reaches_size_with_annotated_outside elements
           (fun s => reflexivity (elements s)) corpus_outside_entity
           [Some "O"; Some "city"] (<["O" := 0%nat]> {["city" := 2%nat]}) "city").
  - reflexivity.
  - vm_compute. reflexivity.
  - left.
  - right. left.
  - discriminate.
  - vm_compute. exact I.
Defined.

Lemma preprocess_sets_num_tags_witness :
  num_tags (self (preprocess_train_data unit elements outside_token_labels
                    corpus_two_intents fresh_world).1) = size city_tag_dict
  /\ (1 <= size city_tag_dict)%nat.
Proof.
  apply (preprocess_sets_num_tags unit elements (fun s => reflexivity (elements s))
           outside_token_labels corpus_two_intents fresh_world city_tag_dict).
  - vm_compute. reflexivity.
  - vm_compute. reflexivity.
Defined.

Lemma label_data_created_for_own_dictionary_witness :
  exists label_data,
    _create_label_data corpus_two_intents
      (_create_label_id_dict elements corpus_two_intents INTENT_ATTRIBUTE)
      INTENT_ATTRIBUTE = Ok label_data.
Proof.
  apply (label_data_created_for_own_dictionary elements (fun s => reflexivity (elements s))
           corpus_two_intents).
  intros example Hin.
  apply elem_of_cons in Hin as [->|Hin]; [reflexivity|].
  apply list_elem_of_singleton in Hin as ->. reflexivity.
Defined.

Lemma label_data_one_hot_fallback_witness :
  exists label_data,
    _create_label_data corpus_two_intents
      (_create_label_id_dict elements corpus_two_intents INTENT_ATTRIBUTE)
      INTENT_ATTRIBUTE = Ok label_data
    /\ md_get "label_features" label_data
       = [DenseArray
            (replicate (size (_create_label_id_dict elements corpus_two_intents
                                INTENT_ATTRIBUTE))
               (mkFeatures 1 (size (_create_label_id_dict elements corpus_two_intents
                                      INTENT_ATTRIBUTE))))]
    /\ md_get "label_mask" label_data
       = [MaskArray (replicate (size (_create_label_id_dict elements corpus_two_intents
                                        INTENT_ATTRIBUTE)) 1%nat)].
Proof.
  apply (label_data_one_hot_fallback elements (fun s => reflexivity (elements s))
           corpus_two_intents).
  - intros example Hin.
    apply elem_of_cons in Hin as [->|Hin]; [split; reflexivity|].
    apply list_elem_of_singleton in Hin as ->. split; reflexivity.
  - vm_compute. lia.
Defined.

Lemma training_model_data_aligned_witness :
  exists ids rows,
    md_get "label_ids" two_intents_model_data = [LabelIdArray ids]
    /\ md_get "tag_ids" two_intents_model_data = [TagIdArray rows]
    /\ length ids = 2%nat /\ length rows = 2%nat.
Proof.
  destruct (training_model_data_aligned outside_token_labels prepared_classifier
              [example_greet; example_bye] two_intents_label_dict city_tag_dict
              two_intents_model_data)
    as (ids & rows & Hids & Hrows & Hl & Hr).
  - apply insert_non_empty.
  - apply insert_non_empty.
  - vm_compute. reflexivity.
  - discriminate.
  - repeat constructor.
  - vm_compute. reflexivity.
  - exists ids, rows. split; [exact Hids|]. split; [exact Hrows|].
    apply Forall2_length in Hl, Hr. split; [by rewrite <- Hl | by rewrite <- Hr].
Defined.

Lemma train_completed_run_witness :
  exists md,
    (preprocess_train_data unit elements outside_token_labels corpus_two_intents
       fresh_world).2 = Ok md.
Proof.
  destruct (train_completed_run unit (fun _ => tt) tt elements outside_token_labels
              no_tensors grouped_by_signature ∅ whole_data_batches corpus_two_intents
              fresh_world) as (md & Hmd & _).
  - vm_compute. reflexivity.
  - exists md. exact Hmd.
Defined.

Lemma ranking_pairs_labels_with_their_scores_witness :
  exists label ranking ids,
    _predict_label unit 10 (Some (mkOut (Some [(2 # 10)%Q; (7 # 10)%Q]) None))
      (mkWorld scoring_classifier tt [])
    = (mkWorld scoring_classifier tt [], Ok (label, ranking))
    /\ NoDup ids
    /\ length ids = Nat.min 2 10
    /\ Forall2 (fun idx entry =>
                  (idx < 2)%nat
                  /\ name entry = (<[1%nat := "greet"]> {[0%nat := "bye"]} : gmap nat string) !! idx
                  /\ (confidence entry == nth idx [(2 # 10)%Q; (7 # 10)%Q] 0)%Q) ids ranking
    /\ (forall i, (i < 2)%nat ->
          (nth i [(2 # 10)%Q; (7 # 10)%Q] 0 <= confidence label)%Q).
Proof.
  apply (ranking_pairs_labels_with_their_scores unit 10 (mkWorld scoring_classifier tt [])
           (mkOut (Some [(2 # 10)%Q; (7 # 10)%Q]) None) [(2 # 10)%Q; (7 # 10)%Q]
           (<[1%nat := "greet"]> {[0%nat := "bye"]}) example_diet).
  - reflexivity.
  - reflexivity.
  - reflexivity.
  - discriminate.
  - intros i Hi. simpl in Hi.
    destruct i as [|[|i]]; [by eexists | by eexists | lia].
Defined.

Lemma constructed_config_is_checked_witness :
  EmbeddingIntentClassifier__init__ (component_config default_classifier)
    None None None None None = Ok default_classifier.
Proof.
  apply (constructed_config_is_checked defaults None None None None None default_classifier).
  reflexivity.
Defined.

Lemma constructed_model_keeps_layers_witness :
  get_num_tags example_diet_for_predict
  = Ok (Z.of_nat (size ({[0%nat := "O"]} : gmap nat string))).
Proof.
  destruct (constructed_model_keeps_layers no_tensors grouped_by_signature no_sizes
              ∅ example_diet example_diet_for_predict example_signature
              example_label_data {[0%nat := "O"]} two_epoch_config)
    as (text & label & _ & _ & _ & Hnum & _).
  - reflexivity.
  - unfold example_diet_for_predict. apply reachable_step, reachable_step, reachable_init.
  - exact Hnum.
Defined.

Lemma mask_loss_raises_on_constructed_model_witness :
  tf_layer masked_lm_diet "loss_mask" = Ok (dot_product_loss masked_lm_config)
  /\ _mask_loss masked_lm_diet (TBool true) (TBool true) [[[false]]] "text"
     = Raise (AttributeError "_loss_mask").
Proof.
  apply (mask_loss_raises_on_constructed_model no_tensors grouped_by_signature no_sizes
           ∅ masked_lm_diet masked_lm_diet example_signature example_label_data
           {[0%nat := "O"]} masked_lm_config (TBool true) (TBool true) [[[false]]]).
  - reflexivity.
  - reflexivity.
  - apply reachable_init.
Defined.

Lemma train_step_with_masked_lm_never_completes_witness :
  is_ok (_train_losses_scores grouped_by_signature one_position_mask masked_lm_diet [] []).2
  = false
  /\ (_train_losses_scores grouped_by_signature one_position_mask masked_lm_diet [] []).1 = [].
Proof.
  apply (train_step_with_masked_lm_never_completes no_tensors grouped_by_signature no_sizes
           one_position_mask ∅ masked_lm_diet masked_lm_diet example_signature
           example_label_data {[0%nat := "O"]} masked_lm_config [] []).
  - reflexivity.
  - reflexivity.
  - apply reachable_init.
  - reflexivity.
Defined.

Lemma train_step_without_masked_lm_completes_witness :
  exists new,
    _train_losses_scores grouped_by_signature one_position_mask example_diet [] []
    = (([] ++ new)%list, Ok tt)
    /\ new.*1 = ["i_loss"; "i_acc"; "e_loss"; "e_f1"].
Proof.
  apply (train_step_without_masked_lm_completes no_tensors grouped_by_signature no_sizes
           one_position_mask ∅ example_diet example_diet example_signature
           example_signature example_label_data {[0%nat := "O"]} two_epoch_config [] []
           example_text_signature example_label_signature).
  - reflexivity.
  - apply reachable_init.
  - reflexivity.
  - reflexivity.
  - reflexivity.
  - reflexivity.
  - split.
    + eexists. split; [reflexivity|]. intros _. reflexivity.
    + do 2 eexists. reflexivity.
  - intros _. split; split.
    + eexists. split; [reflexivity|]. intros Hsparse. vm_compute in Hsparse.
      discriminate Hsparse.
    + do 2 eexists. reflexivity.
    + eexists. split; [reflexivity|]. intros Hsparse. vm_compute in Hsparse.
      discriminate Hsparse.
    + do 2 eexists. reflexivity.
  - intros _. do 2 eexists. reflexivity.
Defined.

Lemma build_for_predict_stores_label_embeddings_witness :
  (build_for_predict no_sizes example_model_data example_diet).2 = Ok tt
  /\ (build_for_predict no_sizes example_model_data example_diet).1 !! "batch_tuple_sizes"
     = Some (ASizes (no_sizes example_model_data))
  /\ (exists t, (build_for_predict no_sizes example_model_data example_diet).1
                !! "all_labels_embed" = Some (ATensor t))
  /\ (forall k, k ≠ "batch_tuple_sizes" -> k ≠ "all_labels_embed" ->
        (build_for_predict no_sizes example_model_data example_diet).1 !! k
        = example_diet !! k).
Proof.
  apply (build_for_predict_stores_label_embeddings no_tensors grouped_by_signature no_sizes
           ∅ example_diet example_diet example_signature example_label_data
           example_model_data {[0%nat := "O"]} two_epoch_config example_label_signature).
  - reflexivity.
  - apply reachable_init.
  - reflexivity.
  - split.
    + eexists. split; [reflexivity|]. intros Hsparse. vm_compute in Hsparse.
      discriminate Hsparse.
    + do 2 eexists. reflexivity.
Defined.
